(** * kaggleTitanic: a shallow embedding of the feature pipeline and the
    ensembling glue code (main.py, titanic_classifier.py, custom_model.py).

    The repository's own functions are translated definition by definition.
    The third-party libraries (pandas, numpy, scikit-learn, fancyimpute) are
    either modelled at the level the code relies on (frames, columns,
    element-wise operations) or taken as an interface ([Library]) whose
    operations are arbitrary functions. *)

From Stdlib Require Import ZArith QArith Qround Lia.
From Stdlib Require Import Strings.String Strings.Ascii DecimalString.
From stdpp Require Import base option list gmap strings.

Local Open Scope string_scope.
Local Open Scope list_scope.
Local Close Scope Q_scope.

(* ===================================================================== *)
(** * Python values, exceptions and the error monad *)
(* ===================================================================== *)

Module Py.

(** The exceptions the modelled code can raise. [LookupFailure] stands for
    the error pandas raises for a column label that is not in the frame
    (ValueError in the pandas the repository was written for, KeyError
    later); [NameError] for the undefined name of a query expression. *)
Inductive exn : Type :=
| AssertionError (msg : string)
| IndexError
| AttributeError
| TypeError
| ValueError
| LookupFailure (label : string)
| NameError (name : string)
| FileNotFoundError (path : string).

Inductive outcome (A : Type) : Type :=
| Ok (a : A)
| Raise (e : exn).

Arguments Ok {A} a.
Arguments Raise {A} e.

Definition bind {A B : Type} (r : outcome A) (k : A -> outcome B) : outcome B :=
  match r with
  | Ok a => k a
  | Raise e => Raise e
  end.

(** [mapM f l]: apply a fallible function to every element, left to right,
    stopping at the first exception. *)
Fixpoint mapM {A B : Type} (f : A -> outcome B) (l : list A) : outcome (list B) :=
  match l with
  | [] => Ok []
  | a :: l' =>
      match f a with
      | Raise e => Raise e
      | Ok b =>
          match mapM f l' with
          | Raise e => Raise e
          | Ok bs => Ok (b :: bs)
          end
      end
  end.

(** [l[i]] for a Python list and a non-negative index. *)
Definition index {A : Type} (l : list A) (i : nat) : outcome A :=
  match l !! i with
  | Some a => Ok a
  | None => Raise IndexError
  end.

(** [s.split(sep)] for a one-character separator: the pieces between the
    occurrences of [sep]; never the empty list. *)
Fixpoint split (sep : ascii) (s : string) : list string :=
  match s with
  | EmptyString => [EmptyString]
  | String c rest =>
      if Ascii.eqb c sep then EmptyString :: split sep rest
      else
        match split sep rest with
        | [] => [String c EmptyString]
        | piece :: pieces => String c piece :: pieces
        end
  end.

(** [s[1:]] *)
Definition tail1 (s : string) : string :=
  match s with
  | EmptyString => EmptyString
  | String _ rest => rest
  end.

(** [s[:1]] *)
Definition head1 (s : string) : string :=
  match s with
  | EmptyString => EmptyString
  | String c _ => String c EmptyString
  end.

(** [pat in s]: [pat] is a substring of [s]. *)
Fixpoint contains (pat s : string) : bool :=
  String.prefix pat s ||
  match s with
  | EmptyString => false
  | String _ rest => contains pat rest
  end.

(** [str(z)] for an integer. *)
Definition str_int (z : Z) : string := NilZero.string_of_int (Z.to_int z).

(** A loop that threads its variables [s] and stops at the first
    exception. *)
Fixpoint foldM {A S : Type} (body : A -> S -> outcome S) (l : list A) (s : S)
  : outcome S :=
  match l with
  | [] => Ok s
  | x :: l' =>
      match body x s with
      | Raise e => Raise e
      | Ok s' => foldM body l' s'
      end
  end.

(** [enumerate(l)] *)
Definition enumerate {A : Type} (l : list A) : list (nat * A) :=
  zip (seq 0 (length l)) l.

(** [x in l] for strings. *)
Definition str_in (x : string) (l : list string) : bool :=
  existsb (String.eqb x) l.

(** [c] occurs in [s]. *)
Fixpoint occurs (c : ascii) (s : string) : bool :=
  match s with
  | EmptyString => false
  | String d rest => Ascii.eqb d c || occurs c rest
  end.

End Py.

Import Py.

Declare Scope py_scope.
Delimit Scope py_scope with py.
Notation "'let*' x ':=' c 'in' k" := (Py.bind c (fun x => k))
  (at level 10, x name, c at level 100, k at level 200) : py_scope.
Notation "'let*' ' p ':=' c 'in' k" := (Py.bind c (fun x => match x with p => k end))
  (at level 10, p pattern, c at level 100, k at level 200) : py_scope.
Local Open Scope py_scope.

(* ===================================================================== *)
(** * pandas and numpy: cells, columns, frames and arrays *)
(* ===================================================================== *)

Module Pd.

(** One entry of a column. Integers and floats are kept apart as numpy does;
    a float is modelled by a rational (no claim below depends on rounding),
    and [NaN] is the missing value. *)
Inductive cell : Type :=
| NaN
| Int (z : Z)
| Float (q : Q)
| Str (s : string).

Abbreviation column := (list cell).

(** [pd.isnull] / [np.isnan] on one entry. *)
Definition isnull (c : cell) : bool :=
  match c with NaN => true | _ => false end.

(** The numeric value of an entry, when it has one. *)
Definition num (c : cell) : option Q :=
  match c with
  | Int z => Some (inject_Z z)
  | Float q => Some q
  | _ => None
  end.

(** [c == q] for a number [q]: false for strings and NaN. *)
Definition eq_num (c : cell) (q : Q) : bool :=
  match num c with
  | Some x => Qeq_bool x q
  | None => false
  end.

(** [c == s] for a string [s]. *)
Definition eq_str (c : cell) (s : string) : bool :=
  match c with
  | Str x => String.eqb x s
  | _ => false
  end.

(** [c > q]: false for NaN, a TypeError for a string. *)
Definition gt_num (c : cell) (q : Q) : outcome bool :=
  match c with
  | Str _ => Raise TypeError
  | NaN => Ok false
  | Int z => Ok (negb (Qle_bool (inject_Z z) q))
  | Float x => Ok (negb (Qle_bool x q))
  end.

(** Equality of two entries as Python's [==] decides it (dictionary keys,
    [value_counts]): numbers by value, NaN equal to nothing. *)
Definition cell_eqb (a b : cell) : bool :=
  match a, b with
  | Str x, Str y => String.eqb x y
  | Str _, _ | _, Str _ => false
  | NaN, _ | _, NaN => false
  | _, _ =>
      match num a, num b with
      | Some x, Some y => Qeq_bool x y
      | _, _ => false
      end
  end.

(** [a + b] on entries. *)
Definition add (a b : cell) : outcome cell :=
  match a, b with
  | Str x, Str y => Ok (Str (x +:+ y))
  | Str _, _ | _, Str _ => Raise TypeError
  | NaN, _ | _, NaN => Ok NaN
  | Int x, Int y => Ok (Int (x + y))
  | Int x, Float y => Ok (Float (Qplus (inject_Z x) y))
  | Float x, Int y => Ok (Float (Qplus x (inject_Z y)))
  | Float x, Float y => Ok (Float (Qplus x y))
  end.

(** [a - b] on numbers. *)
Definition sub (a b : cell) : outcome cell :=
  match a, b with
  | Str _, _ | _, Str _ => Raise TypeError
  | NaN, _ | _, NaN => Ok NaN
  | Int x, Int y => Ok (Int (x - y))
  | Int x, Float y => Ok (Float (Qminus (inject_Z x) y))
  | Float x, Int y => Ok (Float (Qminus x (inject_Z y)))
  | Float x, Float y => Ok (Float (Qminus x y))
  end.

(** [int(q)]: truncation towards zero. *)
Definition trunc (q : Q) : Z := Z.quot (Qnum q) (Zpos (Qden q)).

(** [int(c)] for an entry: NaN and strings are refused. *)
Definition to_int (c : cell) : outcome Z :=
  match c with
  | Int z => Ok z
  | Float q => Ok (trunc q)
  | _ => Raise ValueError
  end.

(** [Series.astype(int)] *)
Definition astype_int (a : column) : outcome column :=
  mapM (fun c => let* z := to_int c in Ok (Int z)) a.

(** Element-wise [a + b] of two columns (a Series and an array, or two
    Series of one frame): the lengths must agree. *)
Fixpoint add_cols (a b : column) : outcome column :=
  match a, b with
  | [], [] => Ok []
  | x :: a', y :: b' =>
      let* z := add x y in
      let* zs := add_cols a' b' in
      Ok (z :: zs)
  | _, _ => Raise ValueError
  end.

(** [col + c] for a scalar [c]. *)
Definition add_scalar (a : column) (c : cell) : outcome column :=
  mapM (fun x => add x c) a.

(** [col > q]. *)
Definition gt (a : column) (q : Q) : outcome (list bool) :=
  mapM (fun x => gt_num x q) a.

(** [a & b] on boolean Series of one frame. *)
Definition band (a b : list bool) : list bool := zip_with andb a b.

(** An argument of [np.where]: a scalar is broadcast, an array must have
    the length of the condition. *)
Inductive operand : Type :=
| Scalar (c : cell)
| Array (l : column).

Definition broadcast (n : nat) (x : operand) : outcome column :=
  match x with
  | Scalar c => Ok (replicate n c)
  | Array l => if (length l =? n)%nat then Ok l else Raise ValueError
  end.

Fixpoint choose (cond : list bool) (xs ys : column) : column :=
  match cond, xs, ys with
  | c :: cond', x :: xs', y :: ys' => (if c then x else y) :: choose cond' xs' ys'
  | _, _, _ => []
  end.

(** [np.where(cond, x, y)] *)
Definition np_where (cond : list bool) (x y : operand) : outcome column :=
  let* xs := broadcast (length cond) x in
  let* ys := broadcast (length cond) y in
  Ok (choose cond xs ys).

(** [Series.map(f)] for a function on strings: calling a string method on
    an entry that is no string raises AttributeError. *)
Definition map_str (f : string -> outcome string) (a : column) : outcome column :=
  mapM (fun c =>
          match c with
          | Str s => let* r := f s in Ok (Str r)
          | _ => Raise AttributeError
          end) a.

(** [Series.fillna(v)] *)
Definition fillna (v : cell) (a : column) : column :=
  map (fun c => if isnull c then v else c) a.

(** [results.isnull().sum()] of one column. *)
Definition count_null (a : column) : nat :=
  length (filter (fun c => isnull c = true) a).

(** A data frame: the number of rows and the named columns, in order. In a
    frame that pandas built every column has [nrows] entries ([wf]). *)
Record frame : Type := DataFrame {
  nrows : nat;
  cols : list (string * column)
}.

Definition wf (f : frame) : Prop :=
  Forall (fun nc => length (snd nc) = nrows f) (cols f).

(** [list(data)]: the column labels. *)
Definition labels (f : frame) : list string := map fst (cols f).

Fixpoint lookup_col (name : string) (cs : list (string * column)) : option column :=
  match cs with
  | [] => None
  | (n, c) :: cs' => if String.eqb n name then Some c else lookup_col name cs'
  end.

(** [data[name]] / [data.name] *)
Definition get (name : string) (f : frame) : outcome column :=
  match lookup_col name (cols f) with
  | Some c => Ok c
  | None => Raise (LookupFailure name)
  end.

(** [data.name] where the frame may lack the column: attribute access on a
    frame raises AttributeError for a name that is no column. *)
Definition getattr (name : string) (f : frame) : outcome column :=
  match lookup_col name (cols f) with
  | Some c => Ok c
  | None => Raise AttributeError
  end.

(** Replace the column [name] where it stands, or append it. *)
Fixpoint set_col (name : string) (v : column) (cs : list (string * column))
  : list (string * column) :=
  match cs with
  | [] => [(name, v)]
  | (n, c) :: cs' =>
      if String.eqb n name then (n, v) :: cs' else (n, c) :: set_col name v cs'
  end.

(** [data.assign(name=v)] and [data[name] = v] for an array or list [v]. *)
Definition assign (name : string) (v : column) (f : frame) : outcome frame :=
  if (length v =? nrows f)%nat
  then Ok {| nrows := nrows f; cols := set_col name v (cols f) |}
  else Raise ValueError.

(** [data.assign(name=c)] for a scalar [c]. *)
Definition assign_scalar (name : string) (c : cell) (f : frame) : frame :=
  {| nrows := nrows f; cols := set_col name (replicate (nrows f) c) (cols f) |}.

(** The first of [names] that is no label of the frame. *)
Fixpoint first_missing (names : list string) (f : frame) : option string :=
  match names with
  | [] => None
  | n :: names' =>
      match lookup_col n (cols f) with
      | None => Some n
      | Some _ => first_missing names' f
      end
  end.

(** [data.drop(names, axis=1)] *)
Definition drop (names : list string) (f : frame) : outcome frame :=
  match first_missing names f with
  | Some n => Raise (LookupFailure n)
  | None =>
      Ok {| nrows := nrows f;
            cols := filter (fun nc => str_in (fst nc) names = false) (cols f) |}
  end.

(** [data[[n1; ...]]]: the frame of the listed columns. *)
Definition select (names : list string) (f : frame) : outcome frame :=
  let* cs := mapM (fun n => let* c := get n f in Ok (n, c)) names in
  Ok {| nrows := nrows f; cols := cs |}.

(** Keep the entries of [a] whose mask bit is set. *)
Fixpoint keep {A : Type} (mask : list bool) (a : list A) : list A :=
  match mask, a with
  | m :: mask', x :: a' => if m then x :: keep mask' a' else keep mask' a'
  | _, _ => []
  end.

Definition count_true (mask : list bool) : nat :=
  length (filter (fun b => b = true) mask).

(** [data.query('name == q')]: the rows whose [name] entry equals [q]. A
    name that is no column is an undefined variable of the expression:
    pandas raises UndefinedVariableError, a NameError. *)
Definition query_eq (name : string) (q : Q) (f : frame) : outcome frame :=
  match lookup_col name (cols f) with
  | None => Raise (NameError name)
  | Some c =>
      let mask := map (fun x => eq_num x q) c in
      Ok {| nrows := count_true mask;
            cols := map (fun nc => (fst nc, keep mask (snd nc))) (cols f) |}
  end.

(** [results.isnull().sum().sum()] *)
Definition null_total (f : frame) : nat :=
  foldr (fun nc acc => (count_null (snd nc) + acc)%nat) 0%nat (cols f).

(** A two-dimensional numpy array, column by column, with its row count
    (an array with no column still has one). *)
Record ndarray : Type := NdArray {
  shape0 : nat;
  acols : list column
}.

Definition shape1 (a : ndarray) : nat := length (acols a).

(** [np.array(frame)] *)
Definition np_array (f : frame) : ndarray :=
  {| shape0 := nrows f; acols := map snd (cols f) |}.

(** [pd.DataFrame(a, columns=names)] *)
Definition DataFrame_of (a : ndarray) (names : list string) : outcome frame :=
  if (length names =? shape1 a)%nat
  then Ok {| nrows := shape0 a; cols := zip names (acols a) |}
  else Raise ValueError.

(** [np.zeros((n, k))] *)
Definition zeros (n k : nat) : ndarray :=
  {| shape0 := n; acols := replicate k (replicate n (Float 0)) |}.

(** [y[idx]] for an index array [idx]. *)
Definition take_items {A : Type} (idx : list nat) (y : list A) : outcome (list A) :=
  mapM (index y) idx.

(** [X[idx]]: the rows [idx] of [X]. *)
Definition take_rows (idx : list nat) (X : ndarray) : outcome ndarray :=
  let* cs := mapM (take_items idx) (acols X) in
  Ok {| shape0 := length idx; acols := cs |}.

(** [a[:, j]] *)
Definition column_of (j : nat) (a : ndarray) : outcome column :=
  index (acols a) j.

(** [a[:, j] = v] *)
Definition set_column (j : nat) (v : column) (a : ndarray) : outcome ndarray :=
  if negb (j <? shape1 a)%nat then Raise IndexError
  else if negb (length v =? shape0 a)%nat then Raise ValueError
  else Ok {| shape0 := shape0 a; acols := <[j := v]> (acols a) |}.

(** Write [v] at the positions [idx] of one column. *)
Fixpoint scatter (idx : list nat) (v : column) (c : column) : outcome column :=
  match idx, v with
  | [], [] => Ok c
  | i :: idx', x :: v' =>
      if (i <? length c)%nat then scatter idx' v' (<[i := x]> c)
      else Raise IndexError
  | _, _ => Raise ValueError
  end.

(** [a[idx, j] = v] *)
Definition set_at (idx : list nat) (j : nat) (v : column) (a : ndarray)
  : outcome ndarray :=
  let* c := column_of j a in
  let* c' := scatter idx v c in
  Ok {| shape0 := shape0 a; acols := <[j := c']> (acols a) |}.

(** [np.append(a, b, axis=0)]: the rows of [b] below those of [a]. *)
Definition append_rows (a b : ndarray) : outcome ndarray :=
  if (shape1 a =? shape1 b)%nat
  then Ok {| shape0 := shape0 a + shape0 b;
             acols := zip_with app (acols a) (acols b) |}
  else Raise ValueError.

(** The mean of a row's entries: NaN when an entry is no number or the row
    is empty. *)
Definition mean_cells (l : column) : cell :=
  match mapM (fun c => match num c with Some q => Ok q | None => Raise TypeError end) l with
  | Ok (q :: qs) =>
      Float (Qdiv (foldr Qplus 0%Q (q :: qs)) (inject_Z (Z.of_nat (length (q :: qs)))))
  | _ => NaN
  end.

(** [a.mean(1)]: the mean of every row. *)
Definition mean1 (a : ndarray) : column :=
  map (fun r => mean_cells (map (fun c => default NaN (c !! r)) (acols a)))
      (seq 0 (shape0 a)).

End Pd.

Import Pd.

(* ===================================================================== *)
(** * The third-party libraries as an interface *)
(* ===================================================================== *)

(** Keyword arguments and hyper-parameter grids. *)
#[warnings="-register-all"]
Inductive pyval : Type :=
| PNone
| PInt (z : Z)
| PFloat (q : Q)
| PStr (s : string)
| PBool (b : bool)
| PList (l : list pyval).

Abbreviation kwargs := (list (string * pyval)).

(** What the repository calls and does not define: scikit-learn's and
    xgboost's estimators, model selection, fancyimpute's MICE, pandas'
    [get_dummies], numpy's random integers and statistics. Every operation
    is an arbitrary function. An operation that may draw from numpy's global
    random state takes that state and returns the next one. The operations
    are total: an input the library refuses ([StratifiedKFold] with fewer
    than two folds, a matrix with missing values, ...) has no counterpart
    here, so what is proved of the methods that call them is proved of the
    runs that return. *)
Class Library : Type := {
  estimator : Type;
  rng : Type;
  RandomForestClassifier : kwargs -> estimator;
  LogisticRegression : kwargs -> estimator;
  SVC : kwargs -> estimator;
  XGBClassifier : kwargs -> estimator;
  MLPClassifier : kwargs -> estimator;
  VotingClassifier : list (option string * estimator) -> kwargs -> estimator;
  GridSearchCV : estimator -> option kwargs -> kwargs -> estimator;
  RFE : estimator -> estimator;
  fit : estimator -> ndarray -> column -> rng -> estimator * rng;
  predict : estimator -> ndarray -> column;
  predict_proba : estimator -> ndarray -> ndarray;
  score : estimator -> ndarray -> column -> cell;
  best_estimator_ : estimator -> estimator;
  train_test_split :
    ndarray -> column -> Q -> Z -> (ndarray * ndarray) * (column * column);
  cross_val_score : estimator -> ndarray -> column -> nat -> rng -> column * rng;
  StratifiedKFold_split : nat -> ndarray -> column -> list (list nat * list nat);
  MICE_complete : ndarray -> rng -> ndarray * rng;
  randint : Z -> Z -> nat -> rng -> list Z * rng;
  get_dummies : list string -> bool -> frame -> frame;
  float_str : Q -> string;
  mean : column -> cell;
  std : column -> cell
}.

(** The calls that leave the program, in the order they are made. *)
Inductive call : Type :=
| read_csv_ (path : string)
| to_csv_ (path : string) (index : bool)
| isfile_ (path : string)
| open_ (path : string)
| write_
| close_
| print_
| plot_
| VotingClassifier_
| GridSearchCV_
| fit_
| predict_
| predict_proba_
| score_
| cross_val_score_
| learning_curve_
| MICE_complete_
| randint_.

Section Effects.

Context `{L : Library}.

(** The world a run acts on: the files (a CSV file is the table it holds),
    numpy's global random state, the formatted current time, and the calls
    made so far. *)
Record world : Type := World {
  files : gmap string frame;
  entropy : rng;
  clock : string;
  trace : list call
}.

(** A computation that may raise and acts on the world; an exception keeps
    the world as it was when raised. *)
Definition io (A : Type) : Type := world -> outcome A * world.

Definition io_ret {A : Type} (a : A) : io A := fun w => (Ok a, w).

Definition io_bind {A B : Type} (c : io A) (k : A -> io B) : io B :=
  fun w =>
    match c w with
    | (Ok a, w') => k a w'
    | (Raise e, w') => (Raise e, w')
    end.

Definition lift {A : Type} (r : outcome A) : io A := fun w => (r, w).

Definition emit (c : call) : io unit :=
  fun w => (Ok tt, {| files := files w; entropy := entropy w; clock := clock w;
                      trace := trace w ++ [c] |}).

(** A library call that draws from the random state. *)
Definition draw {A : Type} (c : call) (f : rng -> A * rng) : io A :=
  fun w =>
    (Ok (fst (f (entropy w))),
     {| files := files w; entropy := snd (f (entropy w)); clock := clock w;
        trace := trace w ++ [c] |}).

(** A library call that does not. *)
Definition pure_call {A : Type} (c : call) (a : A) : io A :=
  fun w => (Ok a, {| files := files w; entropy := entropy w; clock := clock w;
                     trace := trace w ++ [c] |}).

(** [for x in l: body], threading the loop's variables [s]. *)
Fixpoint for_each {A S : Type} (l : list A) (body : A -> S -> io S) (s : S) : io S :=
  match l with
  | [] => io_ret s
  | x :: l' => io_bind (body x s) (for_each l' body)
  end.

(** [pd.read_csv(path)] *)
Definition read_csv (path : string) : io frame :=
  io_bind (emit (read_csv_ path)) (fun _ w =>
    match files w !! path with
    | Some f => (Ok f, w)
    | None => (Raise (FileNotFoundError path), w)
    end).

(** The default index as a first, unnamed column. *)
Definition with_index (f : frame) : frame :=
  {| nrows := nrows f;
     cols := ("", map (fun i => Int (Z.of_nat i)) (seq 0 (nrows f))) :: cols f |}.

(** [frame.to_csv(path, index=index)] *)
Definition to_csv (path : string) (index : bool) (f : frame) : io unit :=
  io_bind (emit (to_csv_ path index)) (fun _ w =>
    (Ok tt, {| files := <[path := if index then with_index f else f]> (files w);
               entropy := entropy w; clock := clock w; trace := trace w |})).

(** [os.path.isfile(path)] *)
Definition isfile (path : string) : io bool :=
  io_bind (emit (isfile_ path)) (fun _ w =>
    (Ok (bool_decide (is_Some (files w !! path))), w)).

Definition print : io unit := emit print_.

End Effects.

Notation "'let!' x ':=' c 'in' k" := (io_bind c (fun x => k))
  (at level 10, x name, c at level 100, k at level 200) : py_scope.
Notation "'let!' ' p ':=' c 'in' k" := (io_bind c (fun x => match x with p => k end))
  (at level 10, p pattern, c at level 100, k at level 200) : py_scope.
Notation "c ';;' k" := (io_bind c (fun _ => k))
  (at level 100, k at level 200, right associativity) : py_scope.


(* ===================================================================== *)
(** * titanic_classifier.py: the class SurvivalClassifier *)
(* ===================================================================== *)

Module TitanicClassifier.
Section TitanicClassifier.

Context `{L : Library}.

(** The attributes of an instance. A method takes the instance and returns
    it as the call left it. *)
Record SurvivalClassifier : Type := Self {
  models : list estimator;
  model_names : list (option string);
  hyper_parameters : list (option kwargs);
  train_x : frame;
  train_y : column;
  test_x : frame;
  verbose : Z;
  result : column
}.

Definition set_models (ms : list estimator) (self : SurvivalClassifier) :=
  {| models := ms; model_names := model_names self;
     hyper_parameters := hyper_parameters self; train_x := train_x self;
     train_y := train_y self; test_x := test_x self; verbose := verbose self;
     result := result self |}.

Definition set_result (r : column) (self : SurvivalClassifier) :=
  {| models := models self; model_names := model_names self;
     hyper_parameters := hyper_parameters self; train_x := train_x self;
     train_y := train_y self; test_x := test_x self; verbose := verbose self;
     result := r |}.

(** [__init__], lines 14-22. *)
Definition init (train_x : frame) (train_y : column) (test_x : frame) (verbose : Z)
  : SurvivalClassifier :=
  {| models := []; model_names := []; hyper_parameters := [];
     train_x := train_x; train_y := train_y; test_x := test_x;
     verbose := verbose; result := [] |}.

(** [append_model], lines 24-29. *)
Definition append_model (model : estimator) (model_name : option string)
    (hyper_parameters_ : option kwargs) (self : SurvivalClassifier)
  : SurvivalClassifier :=
  {| models := models self ++ [model];
     model_names := model_names self ++ [model_name];
     hyper_parameters := hyper_parameters self ++ [hyper_parameters_];
     train_x := train_x self; train_y := train_y self; test_x := test_x self;
     verbose := verbose self; result := result self |}.

(** [log], lines 215-219. *)
Definition log (self : SurvivalClassifier) (level : Z) : io unit :=
  if (level <=? verbose self)%Z then print else io_ret tt.

(** [optimize_models], lines 31-64. *)
Definition optimize_models (folds : nat) (self : SurvivalClassifier)
  : io SurvivalClassifier :=
  let '((x_train_cv, x_test_cv), (y_train_cv, y_test_cv)) :=
    train_test_split (np_array (train_x self)) (train_y self) (1 # 5) 50 in
  let! _ := fun w => emit (open_ ("report" +:+ clock w +:+ ".txt")) w in
  let! self :=
    for_each (enumerate (models self))
      (fun '(index, model) self =>
         let! model_name := lift (Py.index (model_names self) index) in
         let! _ := log self 1 in
         let! grid := lift (Py.index (hyper_parameters self) index) in
         let! optimized_model :=
           pure_call GridSearchCV_
             (GridSearchCV model grid
                [("cv", PInt (Z.of_nat folds)); ("n_jobs", PInt (-1));
                 ("verbose", PInt (verbose self))]) in
         let! optimized_model := draw fit_ (fit optimized_model x_train_cv y_train_cv) in
         let! _ := pure_call predict_ (predict optimized_model x_test_cv) in
         let best_estimator := best_estimator_ optimized_model in
         let! x_all := lift (append_rows x_train_cv x_test_cv) in
         let! k_fold_score :=
           draw cross_val_score_
             (cross_val_score best_estimator x_all (y_train_cv ++ y_test_cv) folds) in
         let! _ := log self 2 in
         let! _ := pure_call score_ (score optimized_model x_test_cv y_test_cv) in
         let! _ := log self 1 in
         let! _ := log self 2 in
         let self := set_models (<[index := best_estimator]> (models self)) self in
         let! _ := emit write_ in
         io_ret self)
      self in
  let! _ := emit close_ in
  io_ret self.

(** [plot_learning_curves], lines 66-100: the state is only read. *)
Definition plot_learning_curves (self : SurvivalClassifier) : io unit :=
  let! _ :=
    for_each (enumerate (models self))
      (fun '(index, model) _ =>
         let! model_name := lift (Py.index (model_names self) index) in
         let! _ := emit plot_ in
         let! _ := emit learning_curve_ in
         emit plot_)
      tt in
  emit plot_.

(** [accuracy_report], lines 102-119. *)
Definition accuracy_report (folds : nat) (test_size : Q) (self : SurvivalClassifier)
  : io unit :=
  let '((x_train_cv, x_test_cv), (y_train_cv, y_test_cv)) :=
    train_test_split (np_array (train_x self)) (train_y self) test_size 50 in
  for_each (enumerate (models self))
    (fun '(index, model) _ =>
       let! model_name := lift (Py.index (model_names self) index) in
       let! _ := log self 1 in
       let! x_all := lift (append_rows x_train_cv x_test_cv) in
       let! k_fold_score :=
         draw cross_val_score_
           (cross_val_score model x_all (y_train_cv ++ y_test_cv) folds) in
       log self 2)
    tt.

(** [feature_selection], lines 121-130. *)
Definition feature_selection (self : SurvivalClassifier) : io unit :=
  for_each (enumerate (models self))
    (fun '(index, model) _ =>
       let! model_name := lift (Py.index (model_names self) index) in
       let! _ := draw fit_ (fit (RFE model) (np_array (train_x self)) (train_y self)) in
       let! _ := print in
       print)
    tt.

(** [get_classifier], lines 132-138. *)
Definition get_classifier (voting : string) (weights : pyval) (self : SurvivalClassifier)
  : io estimator :=
  let! model_with_name :=
    for_each (enumerate (models self))
      (fun '(index, model) model_with_name =>
         let! name := lift (Py.index (model_names self) index) in
         io_ret (model_with_name ++ [(name, model)]))
      [] in
  pure_call VotingClassifier_
    (VotingClassifier model_with_name [("voting", PStr voting); ("weights", weights)]).

(** One fold of [blending]'s inner loop, lines 153-163. *)
Definition blend_fold (input_train_x : ndarray) (input_train_y : column)
    (input_test_x : ndarray) (j : nat)
    (fold : nat * (list nat * list nat))
    (vars : estimator * ndarray * ndarray) : io (estimator * ndarray * ndarray) :=
  let '(i, (train, test)) := fold in
  let '(model, data_set_blend_train, data_set_blend_test_j) := vars in
  let! x_train := lift (take_rows train input_train_x) in
  let! y_train := lift (take_items train input_train_y) in
  let! x_test := lift (take_rows test input_train_x) in
  let! model := draw fit_ (fit model x_train y_train) in
  let! proba := pure_call predict_proba_ (predict_proba model x_test) in
  let! positive := lift (column_of 1 proba) in
  let! data_set_blend_train := lift (set_at test j positive data_set_blend_train) in
  let! proba := pure_call predict_proba_ (predict_proba model input_test_x) in
  let! positive := lift (column_of 1 proba) in
  let! data_set_blend_test_j := lift (set_column i positive data_set_blend_test_j) in
  io_ret (model, data_set_blend_train, data_set_blend_test_j).

(** One model of [blending]'s outer loop, lines 150-165. [model.fit] changes
    the model the list [self.models] holds. *)
Definition blend_model (n_folds : nat) (input_train_x : ndarray)
    (input_train_y : column) (input_test_x : ndarray)
    (jm : nat * estimator)
    (vars : list estimator * ndarray * ndarray)
  : io (list estimator * ndarray * ndarray) :=
  let '(j, model) := jm in
  let '(ms, data_set_blend_train, data_set_blend_test) := vars in
  let data_set_blend_test_j := zeros (shape0 input_test_x) n_folds in
  let! '(model, data_set_blend_train, data_set_blend_test_j) :=
    for_each (enumerate (StratifiedKFold_split n_folds input_train_x input_train_y))
      (blend_fold input_train_x input_train_y input_test_x j)
      (model, data_set_blend_train, data_set_blend_test_j) in
  let! data_set_blend_test :=
    lift (set_column j (mean1 data_set_blend_test_j) data_set_blend_test) in
  io_ret (<[j := model]> ms, data_set_blend_train, data_set_blend_test).

(** [blending], lines 140-175. *)
Definition blending (n_folds : nat) (self : SurvivalClassifier)
  : io SurvivalClassifier :=
  let input_train_x := np_array (train_x self) in
  let input_train_y := train_y self in
  let input_test_x := np_array (test_x self) in
  let data_set_blend_train := zeros (shape0 input_train_x) (length (models self)) in
  let data_set_blend_test := zeros (shape0 input_test_x) (length (models self)) in
  let! '(ms, data_set_blend_train, data_set_blend_test) :=
    for_each (enumerate (models self))
      (blend_model n_folds input_train_x input_train_y input_test_x)
      (models self, data_set_blend_train, data_set_blend_test) in
  let blender := MLPClassifier [("hidden_layer_sizes", PInt 300)] in
  let! blender := draw fit_ (fit blender data_set_blend_train input_train_y) in
  let! y_prediction := pure_call predict_ (predict blender data_set_blend_test) in
  io_ret (set_result y_prediction (set_models ms self)).

(** One model of [stacking]'s loop, lines 188-193. *)
Definition stack_model (self : SurvivalClassifier) (x_train_a x_train_b : ndarray)
    (y_train_a : column) (input_test_x : ndarray)
    (im : nat * estimator) (vars : list estimator * ndarray * ndarray)
  : io (list estimator * ndarray * ndarray) :=
  let '(index, model) := im in
  let '(ms, data_set_stack_train, data_set_stack_test) := vars in
  let! name := lift (Py.index (model_names self) index) in
  let! _ := log self 1 in
  let! model := draw fit_ (fit model x_train_a y_train_a) in
  let! proba := pure_call predict_proba_ (predict_proba model x_train_b) in
  let! positive := lift (column_of 1 proba) in
  let! data_set_stack_train := lift (set_column index positive data_set_stack_train) in
  let! proba := pure_call predict_proba_ (predict_proba model input_test_x) in
  let! positive := lift (column_of 1 proba) in
  let! data_set_stack_test := lift (set_column index positive data_set_stack_test) in
  io_ret (<[index := model]> ms, data_set_stack_train, data_set_stack_test).

(** [stacking], lines 177-200. *)
Definition stacking (self : SurvivalClassifier) : io SurvivalClassifier :=
  let input_train_x := np_array (train_x self) in
  let input_train_y := train_y self in
  let input_test_x := np_array (test_x self) in
  let '((x_train_a, x_train_b), (y_train_a, y_train_b)) :=
    train_test_split input_train_x input_train_y (1 # 2) 50 in
  let data_set_stack_train := zeros (shape0 x_train_b) (length (models self)) in
  let data_set_stack_test := zeros (shape0 input_test_x) (length (models self)) in
  let! '(ms, data_set_stack_train, data_set_stack_test) :=
    for_each (enumerate (models self))
      (stack_model self x_train_a x_train_b y_train_a input_test_x)
      (models self, data_set_stack_train, data_set_stack_test) in
  let blender := MLPClassifier [("hidden_layer_sizes", PInt 300)] in
  let! blender := draw fit_ (fit blender data_set_stack_train y_train_b) in
  let! prediction := pure_call predict_ (predict blender data_set_stack_test) in
  io_ret (set_result prediction (set_models ms self)).

(** [flush_result], lines 202-205. *)
Definition flush_result (output_file_name test_file_name : string)
    (self : SurvivalClassifier) : io unit :=
  let! test := read_csv test_file_name in
  let! ids := lift (select ["PassengerId"] test) in
  let! ensemble := lift (assign "Survived" (result self) ids) in
  to_csv output_file_name false ensemble.

(** [voting], lines 207-213. The voting classifier fits copies of the
    models it was given. *)
Definition voting (voting_ : string) (weights : pyval) (self : SurvivalClassifier)
  : io SurvivalClassifier :=
  let! voting_classifier := get_classifier voting_ weights self in
  let! voting_classifier :=
    draw fit_ (fit voting_classifier (np_array (train_x self)) (train_y self)) in
  let! prediction := pure_call predict_ (predict voting_classifier (np_array (test_x self))) in
  io_ret (set_result prediction self).

End TitanicClassifier.
End TitanicClassifier.
(* ===================================================================== *)
(** * main.py *)
(* ===================================================================== *)

Module Main.
Section Main.

Context `{L : Library}.

(** [ingest_data]: read the training and the test file, mark the rows and
    stack them. [pd.concat] is applied to two frames with the same labels. *)
Definition concat (a b : frame) : frame :=
  {| nrows := nrows a + nrows b;
     cols := map (fun nc => (fst nc, snd nc ++ default [] (lookup_col (fst nc) (cols b))))
                 (cols a) |}.

Definition ingest_data : io frame :=
  let! train := read_csv "data/train.csv" in
  let train := assign_scalar "Train" (Int 1) train in
  let! test := read_csv "data/test.csv" in
  let test := assign_scalar "Survived" (Int (-999)) (assign_scalar "Train" (Int 0) test) in
  let! test := lift (select (labels train) test) in
  io_ret (concat train test).

(** [extract_lastname = lambda x: x.split(',')[0]] *)
Definition extract_lastname (x : string) : outcome string :=
  index (split "," x) 0.

(** [extract_title], lines 31-44. *)
Definition extract_title (x : string) : outcome string :=
  let* after_comma := index (split "," x) 1 in
  let* before_period := index (split "." after_comma) 0 in
  let title := tail1 before_period in
  let title :=
    if str_in title ["Mlle"; "Ms"] then "Miss"
    else if String.eqb title "Mme" then "Mrs"
    else if str_in title ["Rev"; "Dr"; "Major"; "Col"; "Capt"; "Jonkheer"; "Dona"]
         then "Esteemed"
    else if str_in title ["Don"; "Lady"; "Sir"; "the Countess"] then "Royalty"
    else title in
  Ok title.

(** [first_letter = np.vectorize(lambda x: x[:1])]; [np.vectorize] refuses
    an input of size 0, and slicing a number is a TypeError. *)
Definition first_letter (a : column) : outcome column :=
  match a with
  | [] => Raise ValueError
  | _ => mapM (fun c => match c with
                        | Str s => Ok (Str (head1 s))
                        | _ => Raise TypeError
                        end) a
  end.

(** [ticket_to_count.get]: the number of rows holding the ticket, nothing
    for a missing ticket ([value_counts] leaves NaN out). *)
Definition ticket_to_count (tickets : column) (c : cell) : cell :=
  if isnull c then NaN
  else Int (Z.of_nat (length (filter (fun x => cell_eqb x c = true) tickets))).

(** [ticket_counts], lines 50-56. The first line reads the column as an
    attribute ([data.Ticket]), the others by its label. *)
Definition ticket_counts (data : frame) : outcome frame :=
  let* tickets := getattr "Ticket" data in
  let* data := assign "TicketCount" (map (ticket_to_count tickets) tickets) data in
  let* counts := get "TicketCount" data in
  let* shared := gt counts 1 in
  let* tickets := get "Ticket" data in
  let* kept := np_where shared (Array tickets) (Scalar NaN) in
  let* data := assign "Ticket" kept data in
  drop ["TicketCount"] data.

(** [create_alone_right_place_feature], lines 59-65. *)
Definition create_alone_right_place_feature (data : frame) : outcome frame :=
  let* fam := get "FamSize" data in
  let* sex := get "Sex" data in
  let* pclass_3 := get "Pclass_3" data in
  let cond := band (band (map (fun c => eq_num c 1) fam) (map (fun c => eq_num c 0) sex))
                   (map (fun c => eq_num c 1) pclass_3) in
  let* first := np_where cond (Scalar (Int 10)) (Scalar (Int 0)) in
  let* data := assign "AloneRightPlace" first data in
  let* alone := get "AloneRightPlace" data in
  let* fam := get "FamSize" data in
  let* big := gt fam 1 in
  let* sex := get "Sex" data in
  let* pclass_2 := get "Pclass_2" data in
  let cond := band (band big (map (fun c => eq_num c 1) sex))
                   (map (fun c => eq_num c 1) pclass_2) in
  let* second := np_where cond (Scalar (Int 10)) (Scalar (Int 0)) in
  let* total := add_cols alone second in
  assign "AloneRightPlace" total data.

(** [create_dummy_nans], lines 68-76: the loop assigns into [data], so each
    round reads the [col_name + 'nan'] column as the rounds before left it. *)
Definition create_dummy_nans (col_name : string) (data : frame) : outcome frame :=
  let deck_cols := filter (fun col => contains col_name col = true) (labels data) in
  let* data :=
    foldM (fun deck_col data =>
             let* is_nan := get (col_name +:+ "nan") data in
             let* current := get deck_col data in
             let* v := np_where (map (fun c => eq_num c 1) is_nan)
                                (Scalar NaN) (Array current) in
             assign deck_col v data)
          deck_cols data in
  drop [col_name +:+ "nan"] data.

(** [impute], lines 79-94. *)
Definition impute (data : frame) : io frame :=
  let! impute_missing := lift (drop ["Survived"; "Train"] data) in
  let impute_missing_cols := labels impute_missing in
  let! filled_soft := draw MICE_complete_ (MICE_complete (np_array impute_missing)) in
  let! results := lift (DataFrame_of filled_soft impute_missing_cols) in
  let! train := lift (get "Train" data) in
  let! results := lift (assign "Train" train results) in
  let! survived := lift (get "Survived" data) in
  let! results := lift (assign "Survived" survived results) in
  if (null_total results =? 0)%nat then io_ret results
  else lift (Raise (AssertionError "Not all NAs removed")).

(** [str(b)] for an entry of a column. *)
Definition py_str (c : cell) : string :=
  match c with
  | NaN => "nan"
  | Int z => str_int z
  | Float q => float_str q
  | Str s => s
  end.

(** [[a + '_' + str(b) for a, b in zip(LastName, FamSize)]] *)
Fixpoint family_names (last fam : column) : outcome column :=
  match last, fam with
  | a :: last', b :: fam' =>
      match a with
      | Str s =>
          let* rest := family_names last' fam' in
          Ok (Str (s +:+ "_" +:+ py_str b) :: rest)
      | _ => Raise TypeError
      end
  | _, _ => Ok []
  end.

(** The steps of [feature_engineering] before the imputation, lines 98-128. *)
Definition derive_features (data : frame) : outcome frame :=
  let* name := get "Name" data in
  let* last := map_str extract_lastname name in
  let* data := assign "LastName" last data in
  let* name := get "Name" data in
  let* title := map_str extract_title name in
  let* data := assign "Title" title data in
  let* sibsp := get "SibSp" data in
  let* parch := get "Parch" data in
  let* fam := add_cols sibsp parch in
  let* fam := add_scalar fam (Int 1) in
  let* data := assign "FamSize" fam data in
  let* last := get "LastName" data in
  let* fam := get "FamSize" data in
  let* family := family_names last fam in
  let* data := assign "Family" family data in
  let* cabin := get "Cabin" data in
  let* letters := first_letter (fillna (Str "z") cabin) in
  let* deck := np_where (map (fun c => negb (isnull c)) cabin) (Array letters) (Array cabin) in
  let* data := assign "Deck" deck data in
  let* deck := get "Deck" data in
  let* deck := np_where (map (fun c => eq_str c "T") deck) (Scalar NaN) (Array deck) in
  let* data := assign "Deck" deck data in
  let* sex := get "Sex" data in
  let* sex := np_where (map (fun c => eq_str c "male") sex) (Scalar (Int 1)) (Scalar (Int 0)) in
  let* data := assign "Sex" sex data in
  let* data := ticket_counts data in
  let* pclass := get "Pclass" data in
  let* data := assign "Pclass" (map (fun c => Str (py_str c)) pclass) data in
  let data := get_dummies ["Pclass"; "Family"; "Title"; "Ticket"] false data in
  let data := get_dummies ["Deck"] true data in
  let data := get_dummies ["Embarked"] true data in
  let* data := create_dummy_nans "Deck_" data in
  let* data := create_dummy_nans "Embarked_" data in
  drop ["Name"; "Cabin"; "PassengerId"; "SibSp"; "Parch"; "LastName"] data.

(** [feature_engineering], lines 97-132. *)
Definition feature_engineering (data : frame) : io frame :=
  let! data := lift (derive_features data) in
  impute data.

(** [split_data], lines 135-147. *)
Definition split_data (data : frame) : outcome (frame * column * frame) :=
  let* rows := query_eq "Train" 1 data in
  let* outcomes := get "Survived" rows in
  let* rows := query_eq "Train" 1 data in
  let* train := drop ["Train"; "Survived"] rows in
  let* rows := query_eq "Train" 0 data in
  let* to_predict := drop ["Train"; "Survived"] rows in
  Ok (train, outcomes, to_predict).

(** [train_test_model], lines 150-174. *)
Definition train_test_model (model : estimator) (hyperparameters : kwargs)
    (X_train X_test : ndarray) (y_train y_test : column) (folds : nat)
  : io estimator :=
  let! _ := print in
  let! optimized_model :=
    pure_call GridSearchCV_
      (GridSearchCV model (Some hyperparameters)
         [("cv", PInt (Z.of_nat folds)); ("n_jobs", PInt (-1)); ("verbose", PInt 3)]) in
  let! optimized_model := draw fit_ (fit optimized_model X_train y_train) in
  let! _ := pure_call predict_ (predict optimized_model X_test) in
  let! _ := print in
  let! _ := pure_call score_ (score optimized_model X_test y_test) in
  let! _ := print in
  let! X_all := lift (append_rows X_train X_test) in
  let! kfold_score :=
    draw cross_val_score_
      (cross_val_score (best_estimator_ optimized_model) X_all (y_train ++ y_test) folds) in
  let! _ := print in
  io_ret optimized_model.

(** [probs[probs == 0] = -1] on one entry. *)
Definition zero_to_minus_one (c : cell) : cell :=
  if eq_num c 0 then
    match c with
    | Float _ => Float (-1)
    | _ => Int (-1)
    end
  else c.

(** [for i in range(0, votes): s = body(s)] *)
Fixpoint times {S : Type} (votes : nat) (body : S -> outcome S) (s : S) : outcome S :=
  match votes with
  | O => Ok s
  | Datatypes.S n =>
      let* s' := body s in
      times n body s'
  end.

(** [ensemble.assign(Survived=lambda x: x.Survived + probs)] *)
Definition add_votes (probs : column) (ensemble : frame) : outcome frame :=
  let* survived := get "Survived" ensemble in
  let* total := add_cols survived probs in
  assign "Survived" total ensemble.

(** [majority_vote_ensemble], lines 177-199. *)
Definition majority_vote_ensemble (name : string)
    (models_votes : list (estimator * Z)) (train : frame) (outcomes : column)
    (to_predict : frame) : io unit :=
  let! model_results :=
    for_each models_votes
      (fun '(model, votes) model_results =>
         let! model := draw fit_ (fit model (np_array train) outcomes) in
         let! probs := pure_call predict_ (predict model (np_array to_predict)) in
         let probs := map zero_to_minus_one probs in
         io_ret (model_results ++ [(probs, votes)]))
      [] in
  let! test := read_csv "data/test.csv" in
  let! ids := lift (select ["PassengerId"] test) in
  let ensemble := assign_scalar "Survived" (Int 0) ids in
  let! ensemble :=
    lift (foldM (fun '(probs, votes) ensemble =>
                   times (Z.to_nat votes) (add_votes probs) ensemble)
                model_results ensemble) in
  let! survived := lift (get "Survived" ensemble) in
  let! positive := lift (gt survived 0) in
  let! final := lift (np_where positive (Scalar (Int 1)) (Scalar (Int 0))) in
  let! ensemble := lift (assign "Survived" final ensemble) in
  to_csv name false ensemble.

(** [vote_classifier], lines 202-210. The parameter [weights] is not used. *)
Definition vote_classifier (output_file_name : string)
    (models_ : list (option string * estimator)) (train : frame) (y : column)
    (test : frame) (weights : pyval) : io unit :=
  let! voting_classifier :=
    pure_call VotingClassifier_ (VotingClassifier models_ [("voting", PStr "hard")]) in
  let! voting_classifier := draw fit_ (fit voting_classifier (np_array train) y) in
  let! test_csv := read_csv "data/test.csv" in
  let! ids := lift (select ["PassengerId"] test_csv) in
  let! prediction := pure_call predict_ (predict voting_classifier (np_array test)) in
  let! ensemble := lift (assign "Survived" prediction ids) in
  to_csv output_file_name false ensemble.

Definition grid (name : string) (values : list pyval) : string * pyval :=
  (name, PList values).

(** [np.logspace(-9, 3, 13)] *)
Definition logspace_m9_3 : list pyval :=
  map PFloat
    [1 # 1000000000; 1 # 100000000; 1 # 10000000; 1 # 1000000; 1 # 100000;
     1 # 10000; 1 # 1000; 1 # 100; 1 # 10; 1; 10; 100; 1000]%Q.

Definition C_grid : list pyval :=
  map PFloat [1 # 1000; 1 # 100; 1 # 10; 1; 10; 100; 1000]%Q.

(** [model_and_submit], lines 213-274. *)
Definition model_and_submit (train : frame) (outcomes : column) (to_predict : frame)
    (output_file_name : string) (find_hyperparameters : bool) : io unit :=
  let! '(rf_model, lr_model, svm_model) :=
    if find_hyperparameters then
      let '((X_train, X_test), (y_train, y_test)) :=
        train_test_split (np_array train) outcomes (1 # 5) 50 in
      let! rf :=
        train_test_model
          (RandomForestClassifier [("n_estimators", PInt 800); ("random_state", PInt 25)])
          [grid "min_samples_split" [PInt 1; PInt 3; PInt 10];
           grid "min_samples_leaf" [PInt 1; PInt 3; PInt 10];
           grid "max_depth" [PInt 3; PNone]]
          X_train X_test y_train y_test 5 in
      let! lr :=
        train_test_model
          (LogisticRegression [("random_state", PInt 25)])
          [grid "C" C_grid; grid "class_weight" [PNone; PStr "balanced"]]
          X_train X_test y_train y_test 5 in
      let! svm :=
        train_test_model
          (SVC [("probability", PBool true); ("random_state", PInt 25)])
          [grid "C" C_grid; grid "gamma" logspace_m9_3]
          X_train X_test y_train y_test 5 in
      io_ret (best_estimator_ rf, best_estimator_ lr, best_estimator_ svm)
    else
      io_ret
        (RandomForestClassifier
           [("n_estimators", PInt 800); ("random_state", PInt 25);
            ("min_samples_split", PInt 3); ("max_depth", PNone);
            ("min_samples_leaf", PInt 1)],
         LogisticRegression
           [("random_state", PInt 25); ("C", PInt 10); ("class_weight", PStr "balanced")],
         SVC [("probability", PBool true); ("random_state", PInt 25); ("C", PInt 1000);
              ("gamma", PFloat (1 # 10000))]) in
  vote_classifier output_file_name
    [(Some "rf", rf_model); (Some "lr", lr_model); (Some "svm", svm_model)]
    train outcomes to_predict (PList [PInt 2; PInt 1; PInt 1]).

(** [main], lines 277-284. *)
Definition main : io unit :=
  let! data := ingest_data in
  let! data := feature_engineering data in
  let! _ := print in
  let! '(train, outcomes, to_predict) := lift (split_data data) in
  model_and_submit train outcomes to_predict "Output_titanic" false.

(** [pre_process_data], lines 287-297. [pd.DataFrame(train_y)] is the frame
    of one column labelled 0. *)
Definition pre_process_data (train_x_file_name train_y_file_name test_x_file_name : string)
  : io unit :=
  let! data := ingest_data in
  let! data := feature_engineering data in
  let! _ := print in
  let! '(train_x, train_y, test_x) := lift (split_data data) in
  let! _ := to_csv train_x_file_name false train_x in
  let! _ := to_csv train_y_file_name false
                   {| nrows := length train_y; cols := [("0", train_y)] |} in
  to_csv test_x_file_name false test_x.

(** [frame.T.values[0]]: the entries of the first column. *)
Definition first_column (f : frame) : outcome column :=
  let* nc := Py.index (cols f) 0 in
  Ok (snd nc).

Import TitanicClassifier.

(** [custom_classifier], lines 300-400, the entry point of the program. *)
Definition custom_classifier : io unit :=
  let temp_train_x := "temp/train_x" in
  let temp_train_y := "temp/train_y" in
  let temp_test_x := "temp/test_x" in
  let! have_x := isfile temp_train_x in
  let! have_y := isfile temp_train_y in
  let! have_t := isfile temp_test_x in
  let! _ :=
    if negb (have_x && have_y && have_t)
    then pre_process_data temp_train_x temp_train_y temp_test_x
    else io_ret tt in
  let! train_x := read_csv temp_train_x in
  let! train_y := read_csv temp_train_y in
  let! train_y := lift (first_column train_y) in
  let! test_x := read_csv temp_test_x in
  let titanic_classifier := init train_x train_y test_x 3 in
  let titanic_classifier :=
    append_model
      (LogisticRegression
         [("random_state", PInt 33); ("n_jobs", PInt 1); ("C", PInt 1000);
          ("class_weight", PNone); ("max_iter", PInt 100); ("solver", PStr "liblinear")])
      (Some "Logistic Regression")
      (Some [grid "C" (C_grid ++ [PInt 1200]);
             grid "class_weight" [PNone; PStr "balanced"];
             grid "solver" [PStr "newton-cg"; PStr "lbfgs"; PStr "liblinear"; PStr "sag"];
             grid "max_iter" [PInt 50; PInt 100; PInt 300; PInt 400; PInt 500]])
      titanic_classifier in
  let forest_grid :=
    [grid "n_estimators" [PInt 600; PInt 800; PInt 1200];
     grid "min_samples_split" [PInt 1; PInt 3; PInt 10; PInt 50];
     grid "min_samples_leaf" [PInt 1; PInt 3; PInt 10; PInt 50];
     grid "max_depth" [PInt 3; PNone];
     grid "criterion" [PStr "gini"; PStr "entropy"];
     grid "class_weight" [PStr "balanced"; PNone]] in
  let titanic_classifier :=
    append_model
      (RandomForestClassifier
         [("random_state", PInt 75); ("n_jobs", PInt (-1)); ("max_depth", PNone);
          ("criterion", PStr "gini"); ("min_samples_leaf", PInt 1);
          ("min_samples_split", PInt 3); ("n_estimators", PInt 800);
          ("class_weight", PNone)])
      (Some "Random Forest Classifier") (Some forest_grid) titanic_classifier in
  let titanic_classifier :=
    append_model
      (RandomForestClassifier
         [("random_state", PInt 50); ("n_jobs", PInt (-1)); ("max_depth", PNone);
          ("criterion", PStr "entropy"); ("min_samples_leaf", PInt 1);
          ("min_samples_split", PInt 3); ("n_estimators", PInt 800);
          ("class_weight", PNone)])
      (Some "Random Forest Classifier Entropy") (Some forest_grid) titanic_classifier in
  let titanic_classifier :=
    append_model
      (XGBClassifier
         [("gamma", PFloat 0); ("learning_rate", PFloat (1 # 100));
          ("n_estimators", PInt 200); ("reg_alpha", PFloat (1 # 1000));
          ("subsample", PInt 1); ("max_depth", PInt 6); ("min_child_weight", PInt 1);
          ("seed", PInt 25)])
      (Some "Extreme Gradient Boost Classifier")
      (Some [grid "learning_rate" (map PFloat [1 # 100; 1 # 20; 1 # 10; 3 # 10]%Q);
             grid "max_depth" [PInt 3; PInt 6; PInt 10];
             grid "min_child_weight" [PInt 1; PInt 6; PInt 2];
             grid "gamma" (map PFloat [0; 1 # 10; 2 # 10]%Q);
             grid "reg_alpha" (map PFloat [1 # 1000; 1 # 100; 1 # 10; 1]%Q);
             grid "subsample" [PFloat (1 # 2); PInt 1]])
      titanic_classifier in
  let! titanic_classifier := voting "hard" PNone titanic_classifier in
  flush_result "voting.csv" "data/test.csv" titanic_classifier.

End Main.
End Main.

(* ===================================================================== *)
(** * custom_model.py: the Age section of the script *)
(* ===================================================================== *)

Module CustomModel.
Section CustomModel.

Context `{L : Library}.

(** [np.random.randint(low, high, size=size)] with the bounds the script
    passes, floats that numpy truncates; a bound that is no number and an
    empty range are refused. *)
Definition random_ages (average spread : cell) (size : nat) : io (list Z) :=
  let! low := lift (sub average spread) in
  let! high := lift (add average spread) in
  let! low := lift (to_int low) in
  let! high := lift (to_int high) in
  if (low <? high)%Z then draw randint_ (randint low high size)
  else lift (Raise ValueError).

(** [series[np.isnan(series)] = rand]: the draws fill the missing entries in
    order; their number must be the number of missing entries. *)
Fixpoint fill_missing (a : column) (rand : list Z) : outcome column :=
  match a with
  | [] =>
      match rand with
      | [] => Ok []
      | _ => Raise ValueError
      end
  | c :: a' =>
      if isnull c then
        match rand with
        | [] => Raise ValueError
        | r :: rand' =>
            let* rest := fill_missing a' rand' in
            Ok (Float (inject_Z r) :: rest)
        end
      else
        let* rest := fill_missing a' rand in
        Ok (c :: rest)
  end.

(** Lines 61-88: fill the missing ages of both frames with random integers
    between mean - std and mean + std, then convert the ages to integers. *)
Definition fill_ages (titanic_df test_df : frame) : io (frame * frame) :=
  let! age_titanic := lift (get "Age" titanic_df) in
  let average_age_titanic := mean age_titanic in
  let std_age_titanic := std age_titanic in
  let count_nan_age_titanic := count_null age_titanic in
  let! age_test := lift (get "Age" test_df) in
  let average_age_test := mean age_test in
  let std_age_test := std age_test in
  let count_nan_age_test := count_null age_test in
  let! rand_1 := random_ages average_age_titanic std_age_titanic count_nan_age_titanic in
  let! rand_2 := random_ages average_age_test std_age_test count_nan_age_test in
  let! filled := lift (fill_missing age_titanic rand_1) in
  let! titanic_df := lift (assign "Age" filled titanic_df) in
  let! filled := lift (fill_missing age_test rand_2) in
  let! test_df := lift (assign "Age" filled test_df) in
  let! age := lift (get "Age" titanic_df) in
  let! age := lift (astype_int age) in
  let! titanic_df := lift (assign "Age" age titanic_df) in
  let! age := lift (get "Age" test_df) in
  let! age := lift (astype_int age) in
  let! test_df := lift (assign "Age" age test_df) in
  io_ret (titanic_df, test_df).

End CustomModel.
End CustomModel.

(* ===================================================================== *)
(** * A small library instance, for running the program on examples *)
(* ===================================================================== *)

Module Toy.

(** Every estimator predicts the label it saw most often when fitted (0
    before it is fitted), a voting ensemble of such estimators included. *)
Definition count_of (c : cell) (y : column) : nat :=
  length (filter (fun x => cell_eqb x c = true) y).

Definition most_frequent (y : column) : cell :=
  foldr (fun c best => if (count_of best y <? count_of c y)%nat then c else best)
        (default (Int 0) (head y)) y.

Definition toy_predict_proba (X : ndarray) : ndarray :=
  {| shape0 := shape0 X;
     acols := [replicate (shape0 X) (Float (1 # 2)); replicate (shape0 X) (Float (1 # 2))] |}.

(** The rows before position [k] and the rows from [k] on. *)
Definition toy_split (X : ndarray) (y : column) (test_size : Q)
  : (ndarray * ndarray) * (column * column) :=
  let n_test := Z.to_nat (Qceiling (Qmult (inject_Z (Z.of_nat (shape0 X))) test_size)) in
  let k := (shape0 X - n_test)%nat in
  (({| shape0 := k; acols := map (firstn k) (acols X) |},
    {| shape0 := shape0 X - k; acols := map (skipn k) (acols X) |}),
   (firstn k y, skipn k y)).

(** Fold [i] of [n] tests the rows at the positions [i], [i + n], ... and
    trains on the others. *)
Definition toy_folds (n : nat) (X : ndarray) (y : column) : list (list nat * list nat) :=
  let rows := seq 0 (Nat.min (shape0 X) (length y)) in
  map (fun i => (filter (fun r => (r mod n)%nat <> i) rows,
                 filter (fun r => (r mod n)%nat = i) rows))
      (seq 0 n).

(** Missing entries become 0. *)
Definition toy_complete (X : ndarray) : ndarray :=
  {| shape0 := shape0 X;
     acols := map (map (fun c => if isnull c then Float 0 else c)) (acols X) |}.

(** The random state is a counter; the draws walk through the range. *)
Definition toy_randint (low high : Z) (size : nat) (g : Z) : list Z * Z :=
  (map (fun i => (low + (g + Z.of_nat i) mod (high - low))%Z) (seq 0 size),
   (g + Z.of_nat size)%Z).

Definition toy_float_str (q : Q) : string := str_int (Qfloor q) +:+ ".0".

Definition label_of (c : cell) : string :=
  match c with
  | NaN => "nan"
  | Int z => str_int z
  | Float q => toy_float_str q
  | Str s => s
  end.

Definition distinct (a : column) : column :=
  foldr (fun c seen => if existsb (cell_eqb c) seen then seen else c :: seen) [] a.

Definition indicator (b : bool) : cell := Int (if b then 1 else 0).

Definition dummies_of (name : string) (dummy_na : bool) (a : column)
  : list (string * column) :=
  map (fun v => (name +:+ "_" +:+ label_of v, map (fun c => indicator (cell_eqb c v)) a))
      (distinct (filter (fun c => isnull c = false) a))
  ++ (if dummy_na then [(name +:+ "_nan", map (fun c => indicator (isnull c)) a)] else []).

Definition toy_get_dummies (names : list string) (dummy_na : bool) (f : frame) : frame :=
  foldl (fun f n =>
           match lookup_col n (cols f) with
           | None => f
           | Some a =>
               {| nrows := nrows f;
                  cols := filter (fun nc => negb (String.eqb (fst nc) n) = true) (cols f)
                          ++ dummies_of n dummy_na a |}
           end)
        f names.

Definition numbers (a : column) : list Q :=
  omap num a.

Definition toy_mean (a : column) : cell :=
  match numbers a with
  | [] => NaN
  | qs => Float (Qred (Qdiv (foldr Qplus 0%Q qs) (inject_Z (Z.of_nat (length qs)))))
  end.

(** The integer part of the sample standard deviation. *)
Definition toy_std (a : column) : cell :=
  let qs := numbers a in
  match toy_mean a with
  | Float m =>
      if (2 <=? length qs)%nat then
        let squares := map (fun q => Qmult (Qminus q m) (Qminus q m)) qs in
        let variance := Qdiv (foldr Qplus 0%Q squares)
                             (inject_Z (Z.of_nat (length qs) - 1)) in
        Float (inject_Z (Z.sqrt (Qfloor variance)))
      else NaN
  | _ => NaN
  end.

Definition toy : Library := {|
  estimator := option cell;
  rng := Z;
  RandomForestClassifier := fun _ => None;
  LogisticRegression := fun _ => None;
  SVC := fun _ => None;
  XGBClassifier := fun _ => None;
  MLPClassifier := fun _ => None;
  VotingClassifier := fun _ _ => None;
  GridSearchCV := fun m _ _ => m;
  RFE := fun m => m;
  fit := fun _ _ y g => (Some (most_frequent y), g);
  predict := fun m X => replicate (shape0 X) (default (Int 0) m);
  predict_proba := fun _ X => toy_predict_proba X;
  score := fun _ _ _ => Float 1;
  best_estimator_ := fun m => m;
  train_test_split := fun X y test_size _ => toy_split X y test_size;
  cross_val_score := fun _ _ _ folds g => (replicate folds (Float 1), g);
  StratifiedKFold_split := toy_folds;
  MICE_complete := fun X g => (toy_complete X, g);
  randint := toy_randint;
  get_dummies := toy_get_dummies;
  float_str := toy_float_str;
  mean := toy_mean;
  std := toy_std
|}.

Definition row (cells : list cell) : list cell := cells.

(** A frame from its labels and its rows. *)
Definition table (names : list string) (rows : list (list cell)) : frame :=
  {| nrows := length rows;
     cols := imap (fun j n => (n, map (fun r => default NaN (r !! j)) rows)) names |}.

Definition train_csv : frame :=
  table ["PassengerId"; "Survived"; "Pclass"; "Name"; "Sex"; "Age"; "SibSp"; "Parch";
         "Ticket"; "Fare"; "Cabin"; "Embarked"]
    [ [Int 1; Int 0; Int 3; Str "Braund, Mr. Owen Harris"; Str "male"; Float 22;
       Int 1; Int 0; Str "A/5 21171"; Float (29 # 4); NaN; Str "S"];
      [Int 2; Int 1; Int 1; Str "Cumings, Mrs. John Bradley"; Str "female"; Float 38;
       Int 1; Int 0; Str "PC 17599"; Float (713 # 10); Str "C85"; Str "C"];
      [Int 3; Int 1; Int 3; Str "Heikkinen, Miss. Laina"; Str "female"; NaN;
       Int 0; Int 0; Str "PC 17599"; Float (317 # 40); NaN; NaN] ].

Definition test_csv : frame :=
  table ["PassengerId"; "Pclass"; "Name"; "Sex"; "Age"; "SibSp"; "Parch";
         "Ticket"; "Fare"; "Cabin"; "Embarked"]
    [ [Int 892; Int 3; Str "Kelly, Mr. James"; Str "male"; Float (69 # 2);
       Int 0; Int 0; Str "330911"; Float (783 # 100); NaN; Str "Q"];
      [Int 893; Int 3; Str "Wilkes, Mrs. James"; Str "female"; Float 47;
       Int 1; Int 0; Str "363272"; Int 7; Str "T"; Str "S"] ].

Definition disk : gmap string frame :=
  <["data/train.csv" := train_csv]> (<["data/test.csv" := test_csv]> ∅).

Definition boot (files : gmap string frame) (g : Z) : @world toy :=
  @World toy files g "2017-03-01 12:00:00" [].

Definition start (g : Z) : @world toy := boot disk g.

(** The training file with the labels 2 and 3 in its Survived column. *)
Definition odd_train_csv : frame :=
  {| nrows := nrows train_csv;
     cols := set_col "Survived" [Int 2; Int 3; Int 2] (cols train_csv) |}.

Definition odd_disk : gmap string frame :=
  <["data/train.csv" := odd_train_csv]> disk.

(** Features and labels for calling the ensemble functions directly. *)
Definition X_train : frame :=
  table ["Sex"; "Age"] [ [Int 1; Float 22]; [Int 0; Float 38]; [Int 0; Float 26] ].

Definition X_test : frame :=
  table ["Sex"; "Age"] [ [Int 1; Float (69 # 2)]; [Int 0; Float 47] ].

Definition y_train : column := [Int 0; Int 1; Int 1].

End Toy.

(* ===================================================================== *)
(** * Specification vocabulary *)
(* ===================================================================== *)

(** The titles [extract_title] rewrites. *)
Definition special_titles : list string :=
  ["Mlle"; "Ms"; "Mme"; "Rev"; "Dr"; "Major"; "Col"; "Capt"; "Jonkheer"; "Dona";
   "Don"; "Lady"; "Sir"; "the Countess"].

(** An entry that is a number or missing. *)
Definition numeric (c : cell) : Prop :=
  match c with Str _ => False | _ => True end.

Section Contracts.

Context `{L : Library}.

Import TitanicClassifier.

(** The three lists of a [SurvivalClassifier] have one length. *)
Definition aligned (self : SurvivalClassifier) : Prop :=
  length (model_names self) = length (models self)
  /\ length (hyper_parameters self) = length (models self).

(** The instances the class's interface builds: the constructor, then any
    number of [append_model] calls. *)
Inductive built : SurvivalClassifier -> Prop :=
| built_init train_x train_y test_x verbose :
    built (init train_x train_y test_x verbose)
| built_append self model model_name grid :
    built self -> built (append_model model model_name grid self).

(** What the code relies on from the library: [predict] returns one label
    per row. *)
Definition predict_rows : Prop :=
  forall m X, length (predict m X) = shape0 X.

(** The predictions [majority_vote_ensemble] collects: every model is
    fitted and asked in turn, the random state passing from one fit to the
    next. *)
Fixpoint member_predictions (models_votes : list (estimator * Z))
    (X : ndarray) (y : column) (X_test : ndarray) (g : rng) : list (column * Z) :=
  match models_votes with
  | [] => []
  | (model, votes) :: rest =>
      (predict (fst (fit model X y g)) X_test, votes)
      :: member_predictions rest X y X_test (snd (fit model X y g))
  end.


(** [np.random.randint(low, high, size)] returns [size] integers. *)
Definition randint_size : Prop :=
  forall low high size g, length (fst (randint low high size g)) = size.

End Contracts.

(** A frame of two rows with one missing age. *)
Definition two_rows_one_gap : frame :=
  {| nrows := 2;
     cols := [("Age", [Float 22; NaN]); ("Train", [Int 1; Int 0]);
              ("Survived", [Int 1; Int (-999)])] |}.

(** ** The weighted majority vote, in the words of the specification

    A member votes +1 for a row it labels 1 and -1 for a row it labels 0
    (any other label counts as it is), each member as often as its number
    of votes; the row survives when the sum is positive. *)
Definition sign (label : Z) : Z := if (label =? 0)%Z then (-1)%Z else label.

Definition row_sum (members : list (list Z * Z)) (i : nat) : Z :=
  foldr (fun '(labels, votes) total =>
           (Z.max 0 votes * from_option sign 0 (labels !! i) + total)%Z)
        0%Z members.

Definition weighted_vote (n : nat) (members : list (list Z * Z)) : column :=
  map (fun i => Int (if (0 <? row_sum members i)%Z then 1 else 0)) (seq 0 n).

(** The running sums after the members so far. *)
Definition tally (sums : list Z) (members : list (list Z * Z)) : list Z :=
  foldl (fun sums '(labels, votes) =>
           zip_with (fun a l => (a + Z.max 0 votes * sign l)%Z) sums labels)
        sums members.

(** The table a submission holds: the ids of the test file and one
    prediction per id. *)
Definition submission (n : nat) (ids survived : column) : frame :=
  {| nrows := n; cols := [("PassengerId", ids); ("Survived", survived)] |}.

(** [AloneRightPlace]'s two summands. *)
Definition ten (b : bool) : cell := if b then Int 10 else Int 0.

Section Traces.

Context `{L : Library}.

(** The world after one more call. *)
Definition called (c : call) (w : world) : world :=
  {| files := files w; entropy := entropy w; clock := clock w;
     trace := trace w ++ [c] |}.

(** [c] leaves the files alone and, when it returns, has made exactly the
    calls [evs]; when it raises, it has made the first few of them. *)
Definition makes {A : Type} (c : io A) (evs : list call) : Prop :=
  forall w,
    files (snd (c w)) = files w
    /\ match fst (c w) with
       | Ok _ => trace (snd (c w)) = trace w ++ evs
       | Raise _ => exists t, t `prefix_of` evs /\ trace (snd (c w)) = trace w ++ t
       end.

(** [c] makes the calls [evs] and then, as its last step, writes one table
    to [path] without an index column; when it raises, it has made the
    first few of [evs] and has written nothing. *)
Definition submits {A : Type} (c : io A) (evs : list call) (path : string) : Prop :=
  forall w,
    match c w with
    | (Ok _, w') =>
        trace w' = trace w ++ evs ++ [to_csv_ path false]
        /\ exists table, files w' = <[path := table]> (files w)
    | (Raise _, w') =>
        files w' = files w
        /\ exists t, t `prefix_of` evs /\ trace w' = trace w ++ t
    end.

(** [c] adds calls to those made so far and leaves the file [path] as it
    is (it may write other files). *)
Definition spares {A : Type} (path : string) (c : io A) : Prop :=
  forall w,
    (exists t, trace (snd (c w)) = trace w ++ t)
    /\ files (snd (c w)) !! path = files w !! path.

(** A run of [c] that returns made the calls [tail] last and wrote to [out]
    a submission for the test file as it was when the run began. *)
Definition ends_with_submission {A : Type} (c : io A) (tail : list call) (out : string)
  : Prop :=
  forall w a w',
    c w = (Ok a, w') ->
    (exists before, trace w' = trace w ++ before ++ tail)
    /\ exists test ids survived,
         files w !! "data/test.csv" = Some test
         /\ lookup_col "PassengerId" (cols test) = Some ids
         /\ length survived = nrows test
         /\ files w' !! out = Some (submission (nrows test) ids survived).

End Traces.

(** ** Vocabulary for the feature functions *)

(** An entry that is text or missing, as the entries of a column of
    strings are. *)
Definition textual (c : cell) : Prop :=
  match c with
  | Str _ | NaN => True
  | _ => False
  end.

(** The number of rows that hold the ticket [c]. *)
Definition holders (tickets : column) (c : cell) : nat :=
  length (filter (fun x => cell_eqb x c = true) tickets).

(** A ticket as [ticket_counts] leaves it: kept when two or more rows hold
    it, missing otherwise. *)
Definition shared_ticket (tickets : column) (c : cell) : cell :=
  if (2 <=? holders tickets c)%nat then c else NaN.

(** A dummy column with the entries blanked that the [nan] column marks
    with a 1. *)
Definition blanked (is_nan current : column) : column :=
  zip_with (fun n c => if eq_num n 1 then NaN else c) is_nan current.

(** The feature columns of a frame: all but Train and Survived. *)
Definition features (f : frame) : frame :=
  {| nrows := nrows f;
     cols := filter (fun nc => str_in (fst nc) ["Train"; "Survived"] = false) (cols f) |}.

(** The votes the members cast for [label] in row [i]: a member casts its
    number of votes for the label it predicts, and none when that number
    is not positive. *)
Definition votes_for (label : Z) (members : list (list Z * Z)) (i : nat) : Z :=
  foldr (fun '(labels, votes) total =>
           ((if bool_decide (labels !! i = Some label) then Z.max 0 votes else 0) + total)%Z)
        0%Z members.

Section Setup.

Context `{L : Library}.

Import TitanicClassifier.

(** [self'] is [self] with other models in the places of its models; the
    names, the grids and the data are the same. *)
Definition same_setup (self self' : SurvivalClassifier) : Prop :=
  length (models self') = length (models self)
  /\ model_names self' = model_names self
  /\ hyper_parameters self' = hyper_parameters self
  /\ train_x self' = train_x self
  /\ train_y self' = train_y self
  /\ test_x self' = test_x self
  /\ verbose self' = verbose self.

End Setup.

(** The calls of one [train_test_model]. *)
Definition grid_search_calls : list call :=
  [print_; GridSearchCV_; fit_; predict_; print_; score_; print_; cross_val_score_; print_].

(** The calls of [custom_classifier] after its three checks when the
    preprocessed files are there. *)
Definition cached_run_calls : list call :=
  [read_csv_ "temp/train_x"; read_csv_ "temp/train_y"; read_csv_ "temp/test_x";
   VotingClassifier_; fit_; predict_; read_csv_ "data/test.csv"].

Section Ages.

Context `{L : Library}.


(** The bounds the script passes to [randint] for an Age column: the
    integer parts of mean - std and of mean + std. *)
Definition age_range (age : column) : outcome (Z * Z) :=
  let* low := sub (mean age) (std age) in
  let* high := add (mean age) (std age) in
  let* low := to_int low in
  let* high := to_int high in
  Ok (low, high).



End Ages.

Section Combined.

Context `{L : Library}.

Import TitanicClassifier.

(** [model.predict_proba(X)[:, 1]]: the probabilities of the positive
    class. *)
Definition positive_proba (m : estimator) (X : ndarray) : column :=
  default [] (acols (predict_proba m X) !! 1%nat).

(** [y[idx]] and [X[idx]] for positions that exist. *)
Definition items_at (idx : list nat) (y : column) : column :=
  map (fun i => default NaN (y !! i)) idx.

Definition rows_at (idx : list nat) (X : ndarray) : ndarray :=
  {| shape0 := length idx; acols := map (items_at idx) (acols X) |}.

(** [c[idx] = v], entry by entry. *)
Fixpoint written (idx : list nat) (v c : column) : column :=
  match idx, v with
  | i :: idx', x :: v' => written idx' v' (<[i := x]> c)
  | _, _ => c
  end.

(** The classifier that combines the members' probabilities. *)
Definition blender_ : estimator := MLPClassifier [("hidden_layer_sizes", PInt 300)].

(** The probabilities of the positive class the models [ms] give for the
    rows of [X], one column per model. *)
Definition probabilities (ms : list estimator) (X : ndarray) : ndarray :=
  {| shape0 := shape0 X; acols := map (fun m => positive_proba m X) ms |}.

(** ** Voting: the library's voting classifier over the named models,
    fitted on the stored training data, predicts the stored test set. *)
Definition voted (voting_ : string) (weights : pyval) (self : SurvivalClassifier)
    (g : rng) : column :=
  predict (fst (fit (VotingClassifier (zip (model_names self) (models self))
                       [("voting", PStr voting_); ("weights", weights)])
                    (np_array (train_x self)) (train_y self) g))
          (np_array (test_x self)).

(** ** Stacking: the models are fitted in turn on one half of the stored
    training data; the blender is fitted on their probabilities for the
    other half against that half's labels, and predicts from their
    probabilities for the stored test set. *)
Fixpoint fitted_in_turn (ms : list estimator) (X : ndarray) (y : column) (g : rng)
  : list estimator * rng :=
  match ms with
  | [] => ([], g)
  | m :: ms' =>
      let first := fit m X y g in
      let rest := fitted_in_turn ms' X y (snd first) in
      (fst first :: fst rest, snd rest)
  end.

Definition halves (self : SurvivalClassifier)
  : (ndarray * ndarray) * (column * column) :=
  train_test_split (np_array (train_x self)) (train_y self) (1 # 2) 50.

Definition stack_members (self : SurvivalClassifier) (g : rng) : list estimator * rng :=
  fitted_in_turn (models self) (fst (fst (halves self))) (fst (snd (halves self))) g.

Definition stack_blender (self : SurvivalClassifier) (g : rng) : estimator * rng :=
  fit blender_
      (probabilities (fst (stack_members self g)) (snd (fst (halves self))))
      (snd (snd (halves self)))
      (snd (stack_members self g)).

Definition stacked (self : SurvivalClassifier) (g : rng) : column :=
  predict (fst (stack_blender self g))
          (probabilities (fst (stack_members self g)) (np_array (test_x self))).

(** ** Blending: every model goes through the folds; on each fold it is
    fitted again on the fold's training rows, its probabilities for the
    fold's held-out rows are written at those rows of its column, and its
    probabilities for the stored test set are kept. *)
Record folded : Type := Folded {
  last_fit : estimator;
  held_out : column;
  on_test : list column;
  state_left : rng
}.

Fixpoint through_folds (m : estimator) (fs : list (list nat * list nat))
    (X : ndarray) (y : column) (X_test : ndarray) (c : column) (g : rng) : folded :=
  match fs with
  | [] => {| last_fit := m; held_out := c; on_test := []; state_left := g |}
  | f :: fs' =>
      let first := fit m (rows_at (fst f) X) (items_at (fst f) y) g in
      let c' := written (snd f) (positive_proba (fst first) (rows_at (snd f) X)) c in
      let rest := through_folds (fst first) fs' X y X_test c' (snd first) in
      {| last_fit := last_fit rest; held_out := held_out rest;
         on_test := positive_proba (fst first) X_test :: on_test rest;
         state_left := state_left rest |}
  end.

(** The members of the blend: the models as the folds left them, a column
    of held-out probabilities per model, and per model the mean over the
    folds of its probabilities for the test set (a fold that was not
    produced counts as zeros). *)
Record blend : Type := Blend {
  blend_models : list estimator;
  blend_train : list column;
  blend_test : list column;
  blend_state : rng
}.

Fixpoint blend_members (n_folds : nat) (ms : list estimator)
    (fs : list (list nat * list nat)) (X : ndarray) (y : column) (X_test : ndarray)
    (g : rng) : blend :=
  match ms with
  | [] => {| blend_models := []; blend_train := []; blend_test := []; blend_state := g |}
  | m :: ms' =>
      let one := through_folds m fs X y X_test (replicate (shape0 X) (Float 0)) g in
      let rest := blend_members n_folds ms' fs X y X_test (state_left one) in
      {| blend_models := last_fit one :: blend_models rest;
         blend_train := held_out one :: blend_train rest;
         blend_test :=
           mean1 {| shape0 := shape0 X_test;
                    acols := on_test one
                             ++ replicate (n_folds - length fs)
                                          (replicate (shape0 X_test) (Float 0)) |}
           :: blend_test rest;
         blend_state := blend_state rest |}
  end.

Definition folds_of (n_folds : nat) (self : SurvivalClassifier)
  : list (list nat * list nat) :=
  StratifiedKFold_split n_folds (np_array (train_x self)) (train_y self).

Definition blend_of (n_folds : nat) (self : SurvivalClassifier) (g : rng) : blend :=
  blend_members n_folds (models self) (folds_of n_folds self)
                (np_array (train_x self)) (train_y self) (np_array (test_x self)) g.

(** The blender is fitted on the held-out probabilities against the stored
    labels and predicts from the mean test probabilities. *)
Definition blend_blender (n_folds : nat) (self : SurvivalClassifier) (g : rng)
  : estimator * rng :=
  fit blender_
      {| shape0 := nrows (train_x self); acols := blend_train (blend_of n_folds self g) |}
      (train_y self)
      (blend_state (blend_of n_folds self g)).

Definition blended (n_folds : nat) (self : SurvivalClassifier) (g : rng) : column :=
  predict (fst (blend_blender n_folds self g))
          {| shape0 := nrows (test_x self); acols := blend_test (blend_of n_folds self g) |}.

End Combined.

Section Drawn.

(** Two frames that came out of the Age section for the frame [before]
    agree in everything but the ages that were missing in [before]: the
    same rows and labels, the same columns other than Age, and the same age
    wherever [before] had one. *)
Definition same_but_for_missing_ages (before a b : frame) : Prop :=
  nrows a = nrows b
  /\ labels a = labels b
  /\ (forall n, n <> "Age" -> get n a = get n b)
  /\ exists age age_a age_b,
       get "Age" before = Ok age
       /\ get "Age" a = Ok age_a
       /\ get "Age" b = Ok age_b
       /\ length age_a = length age
       /\ length age_b = length age
       /\ forall i c, age !! i = Some c -> isnull c = false -> age_a !! i = age_b !! i.

End Drawn.

Section Reports.

Context `{L : Library}.

Import TitanicClassifier.

(** What [log] prints at [level]. *)
Definition log_calls (self : SurvivalClassifier) (level : Z) : list call :=
  if (level <=? verbose self)%Z then [print_] else [].

(** Every call [c] adds satisfies [P]; the calls made so far stay. *)
Definition only {A : Type} (P : call -> Prop) (c : io A) : Prop :=
  forall w, exists t, trace (snd (c w)) = trace w ++ t /\ Forall P t.

End Reports.

(* ===================================================================== *)
(** * Strings: [split] and [extract_title] *)
(* ===================================================================== *)

Section Strings.

Import Main.

Lemma split_nonempty sep s : split sep s <> [].
Proof.
  destruct s as [|c s]; simpl; [discriminate|].
  destruct (Ascii.eqb c sep); [discriminate|].
  destruct (split sep s); discriminate.
Qed.

Lemma append_cons c s t : String c s +:+ t = String c (s +:+ t).
Proof. reflexivity. Qed.

Lemma append_empty_r s : s +:+ "" = s.
Proof.
  induction s as [|c s IH]; [reflexivity|].
  rewrite append_cons. f_equal. exact IH.
Qed.

(** A string without the separator is one piece. *)
Lemma split_none sep s : occurs sep s = false -> split sep s = [s].
Proof.
  induction s as [|c s IH]; simpl; intros H; [reflexivity|].
  apply orb_false_iff in H as [Hc Hs].
  rewrite Hc, (IH Hs). reflexivity.
Qed.

(** A prefix without the separator stays in front of the first piece. *)
Lemma split_prefix sep a b :
  occurs sep a = false ->
  split sep (a +:+ b) =
  match split sep b with
  | piece :: pieces => (a +:+ piece) :: pieces
  | [] => [a]
  end.
Proof.
  induction a as [|c a IH]; intros H.
  - change ("" +:+ b) with b.
    destruct (split sep b) eqn:E; [now apply split_nonempty in E | reflexivity].
  - simpl in H. apply orb_false_iff in H as [Hc Ha].
    rewrite append_cons. simpl. rewrite Hc, (IH Ha).
    destruct (split sep b); reflexivity.
Qed.

Lemma split_at_sep sep a b :
  occurs sep a = false ->
  split sep (a +:+ String sep b) = a :: split sep b.
Proof.
  intros H. rewrite (split_prefix _ _ _ H). simpl.
  rewrite Ascii.eqb_refl, append_empty_r. reflexivity.
Qed.

Lemma str_in_In x l : str_in x l = true <-> In x l.
Proof.
  unfold str_in. rewrite existsb_exists. split.
  - intros (y & Hy & E). apply String.eqb_eq in E. now subst.
  - intros H. exists x. split; [assumption | apply String.eqb_refl].
Qed.

Lemma str_in_not_In x l : ~ In x l -> str_in x l = false.
Proof.
  intros H. destruct (str_in x l) eqn:E; [|reflexivity].
  now apply str_in_In in E.
Qed.

(** The title a name of the form [last, title. rest] carries. *)
Lemma title_of_name last title rest :
  occurs "," last = false ->
  occurs "," title = false ->
  occurs "." title = false ->
  exists tail,
    index (split "," (last +:+ ", " +:+ title +:+ "." +:+ rest)) 1
    = Ok (" " +:+ title +:+ "." +:+ tail)
    /\ index (split "." (" " +:+ title +:+ "." +:+ tail)) 0 = Ok (" " +:+ title).
Proof.
  intros Hlast Hcomma Hperiod.
  assert (Hsp : occurs "," (" " +:+ title) = false) by (simpl; exact Hcomma).
  assert (Hsd : occurs "." (" " +:+ title) = false) by (simpl; exact Hperiod).
  destruct (split "," rest) as [|tail others] eqn:Erest;
    [now apply split_nonempty in Erest|].
  exists tail. split.
  - change (last +:+ ", " +:+ title +:+ "." +:+ rest)
      with (last +:+ String "," ((" " +:+ title) +:+ String "." rest)).
    rewrite (split_at_sep _ _ _ Hlast).
    rewrite (split_prefix _ _ _ Hsp). simpl. rewrite Erest. reflexivity.
  - change (" " +:+ title +:+ "." +:+ tail)
      with ((" " +:+ title) +:+ String "." tail).
    rewrite (split_at_sep _ _ _ Hsd). reflexivity.
Qed.

(** C10. For a name [last, title. rest] (the title between the first comma
    and the period that follows it, without the leading space),
    [extract_title] returns Miss for Mlle and Ms, Mrs for Mme, Esteemed for
    Rev, Dr, Major, Col, Capt, Jonkheer and Dona, Royalty for Don, Lady, Sir
    and the Countess, and any other title unchanged; a string without a
    comma raises IndexError. *)
Theorem extract_title_spec :
  (forall last title rest,
      occurs "," last = false ->
      occurs "," title = false ->
      occurs "." title = false ->
      let x := last +:+ ", " +:+ title +:+ "." +:+ rest in
      (In title ["Mlle"; "Ms"] -> extract_title x = Ok "Miss") /\
      (title = "Mme" -> extract_title x = Ok "Mrs") /\
      (In title ["Rev"; "Dr"; "Major"; "Col"; "Capt"; "Jonkheer"; "Dona"] ->
       extract_title x = Ok "Esteemed") /\
      (In title ["Don"; "Lady"; "Sir"; "the Countess"] ->
       extract_title x = Ok "Royalty") /\
      (~ In title special_titles -> extract_title x = Ok title)) /\
  (forall x, occurs "," x = false -> extract_title x = Raise IndexError).
Proof.
  split.
  - intros last title rest Hlast Hcomma Hperiod x.
    destruct (title_of_name last title rest Hlast Hcomma Hperiod) as (tail & H1 & H0).
    assert (Hx : extract_title x =
                 Ok (if str_in title ["Mlle"; "Ms"] then "Miss"
                     else if String.eqb title "Mme" then "Mrs"
                     else if str_in title ["Rev"; "Dr"; "Major"; "Col"; "Capt";
                                           "Jonkheer"; "Dona"] then "Esteemed"
                     else if str_in title ["Don"; "Lady"; "Sir"; "the Countess"]
                          then "Royalty"
                     else title)).
    { unfold extract_title, x. rewrite H1. unfold bind at 1. rewrite H0. reflexivity. }
    rewrite Hx. clear Hx H1 H0.
    repeat split.
    + intros H. apply str_in_In in H. now rewrite H.
    + intros ->. reflexivity.
    + intros H. simpl in H.
      repeat (destruct H as [<- | H]; [reflexivity|]). destruct H.
    + intros H. simpl in H.
      repeat (destruct H as [<- | H]; [reflexivity|]). destruct H.
    + intros H. unfold special_titles in H.
      rewrite (str_in_not_In title ["Mlle"; "Ms"])
        by (intros Hin; apply H; simpl in *; tauto).
      rewrite (str_in_not_In title ["Rev"; "Dr"; "Major"; "Col"; "Capt"; "Jonkheer"; "Dona"])
        by (intros Hin; apply H; simpl in *; tauto).
      rewrite (str_in_not_In title ["Don"; "Lady"; "Sir"; "the Countess"])
        by (intros Hin; apply H; simpl in *; tauto).
      destruct (String.eqb title "Mme") eqn:E; [|reflexivity].
      apply String.eqb_eq in E. exfalso. apply H. rewrite E. simpl. tauto.
  - intros x H. unfold extract_title. rewrite (split_none _ _ H). reflexivity.
Qed.

Lemma extract_title_spec_witness :
  extract_title "Rothes, the Countess. of (Lucy Noel Martha Dyer-Edwards)" = Ok "Royalty"
  /\ extract_title "Braund, Mr. Owen Harris" = Ok "Mr"
  /\ extract_title "Braund Mr. Owen Harris" = Raise IndexError.
Proof.
  destruct extract_title_spec as [Hform Hnone].
  split; [|split].
  - apply (Hform "Rothes" "the Countess" " of (Lucy Noel Martha Dyer-Edwards)");
      try reflexivity.
    simpl. tauto.
  - apply (Hform "Braund" "Mr" " Owen Harris"); try reflexivity.
    unfold special_titles. simpl. intros H.
    repeat (destruct H as [H | H]; [discriminate H|]). exact H.
  - apply Hnone. reflexivity.
Defined.

End Strings.

(* ===================================================================== *)
(** * Loops *)
(* ===================================================================== *)

Section Loops.

Context `{L : Library}.

Lemma elem_of_enumerate {A : Type} (l : list A) (i : nat) (x : A) :
  (i, x) ∈ enumerate l <-> l !! i = Some x.
Proof.
  unfold enumerate. rewrite elem_of_lookup_zip_with. split.
  - intros (k & a & b & E & Ha & Hb). injection E as -> ->.
    apply lookup_seq in Ha as [-> _]. exact Hb.
  - intros H. exists i, i, x. split; [reflexivity|]. split; [|exact H].
    apply lookup_seq. split; [reflexivity|]. eapply lookup_lt_Some, H.
Qed.

(** A loop whose body keeps an invariant and never raises under it
    completes and keeps the invariant. *)
Lemma for_each_ok {A S : Type} (l : list A) (body : A -> S -> io S)
    (I : S -> world -> Prop) :
  (forall x s w, x ∈ l -> I s w -> exists s' w', body x s w = (Ok s', w') /\ I s' w') ->
  forall s w, I s w -> exists s' w', for_each l body s w = (Ok s', w') /\ I s' w'.
Proof.
  induction l as [|x l IH]; intros Hbody s w Hs.
  - exists s, w. split; [reflexivity | exact Hs].
  - destruct (Hbody x s w) as (s1 & w1 & E1 & H1); [left | exact Hs |].
    simpl. unfold io_bind. rewrite E1.
    apply IH; [|exact H1].
    intros y s2 w2 Hy. apply Hbody. now right.
Qed.

(** What holds of the state of a completed loop, when every round that
    completes keeps it. *)
Lemma for_each_inv {A S : Type} (l : list A) (body : A -> S -> io S)
    (I : S -> world -> Prop) :
  (forall x s w s' w', x ∈ l -> I s w -> body x s w = (Ok s', w') -> I s' w') ->
  forall s w s' w', I s w -> for_each l body s w = (Ok s', w') -> I s' w'.
Proof.
  induction l as [|x l IH]; intros Hbody s w s' w' Hs E.
  - simpl in E. unfold io_ret in E. now injection E as <- <-.
  - simpl in E. unfold io_bind in E.
    destruct (body x s w) as [[s1|e] w1] eqn:E1; [|discriminate E].
    eapply IH; [| |exact E].
    + intros y s2 w2 s3 w3 Hy. apply Hbody. now right.
    + eapply Hbody; [left | exact Hs | exact E1].
Qed.

(** A loop whose body only computes is a fold. *)
Lemma for_each_lift {A S : Type} (l : list A) (body : A -> S -> io S)
    (f : A -> S -> outcome S) :
  (forall x s w, body x s w = lift (f x s) w) ->
  forall s w, for_each l body s w = lift (foldM f l s) w.
Proof.
  intros Hbody. induction l as [|x l IH]; intros s w; [reflexivity|].
  cbn [for_each foldM]. unfold io_bind. rewrite Hbody. unfold lift at 1.
  destruct (f x s); [apply IH | reflexivity].
Qed.

End Loops.

(* ===================================================================== *)
(** * SurvivalClassifier: the three lists stay aligned *)
(* ===================================================================== *)

Section Aligned.

Context `{L : Library}.

Import TitanicClassifier.

Lemma aligned_init train_x train_y test_x verbose :
  aligned (init train_x train_y test_x verbose).
Proof. split; reflexivity. Qed.

Lemma aligned_append self model model_name grid :
  aligned self -> aligned (append_model model model_name grid self).
Proof.
  intros [Hn Hh]. unfold aligned. simpl.
  rewrite !length_app. simpl. lia.
Qed.

Lemma built_aligned self : built self -> aligned self.
Proof.
  induction 1; [apply aligned_init | now apply aligned_append].
Qed.

Lemma aligned_in_bounds self index model :
  aligned self ->
  (index, model) ∈ enumerate (models self) ->
  is_Some (model_names self !! index) /\ is_Some (hyper_parameters self !! index).
Proof.
  intros [Hn Hh] Hin. apply elem_of_enumerate, lookup_lt_Some in Hin.
  split; apply lookup_lt_is_Some; lia.
Qed.

(** The loop of [get_classifier] finds every name. *)
Lemma get_classifier_ok voting weights self w :
  aligned self ->
  exists classifier w', get_classifier voting weights self w = (Ok classifier, w').
Proof.
  intros Ha. unfold get_classifier, io_bind.
  match goal with
  | |- context [for_each ?l ?body ?s0 w] =>
      destruct (fun H => for_each_ok l body (fun _ _ => True) H s0 w I)
        as (named & w1 & E & _)
  end.
  - intros [index model] s w0 Hin _.
    destruct (aligned_in_bounds _ _ _ Ha Hin) as [[name Hname] _].
    eexists _, _. split; [|exact I].
    unfold io_bind, lift, Py.index. rewrite Hname. reflexivity.
  - rewrite E. eexists _, _. reflexivity.
Qed.

(** C9. The lists [models], [model_names] and [hyper_parameters] have one
    length after [__init__] and after every [append_model], so in every
    instance built that way the position of a model is a position of the
    other two lists, and the loops over [enumerate(self.models)] that read
    them (here the one of [get_classifier]) raise no IndexError. *)
Theorem lists_stay_aligned :
  (forall train_x train_y test_x verbose,
      aligned (init train_x train_y test_x verbose))
  /\ (forall self model model_name grid,
         aligned self -> aligned (append_model model model_name grid self))
  /\ (forall self, built self -> aligned self)
  /\ (forall self index model,
         built self ->
         (index, model) ∈ enumerate (models self) ->
         is_Some (model_names self !! index)
         /\ is_Some (hyper_parameters self !! index))
  /\ (forall self voting weights w,
         built self ->
         exists classifier w', get_classifier voting weights self w = (Ok classifier, w')).
Proof.
  split; [exact aligned_init|].
  split; [exact aligned_append|].
  split; [exact built_aligned|].
  split.
  - intros self index model Hb. apply aligned_in_bounds, built_aligned, Hb.
  - intros self voting weights w Hb. apply get_classifier_ok, built_aligned, Hb.
Qed.

End Aligned.

Lemma lists_stay_aligned_witness :
  let self :=
    TitanicClassifier.append_model (L := Toy.toy) None (Some "second") None
      (TitanicClassifier.append_model (L := Toy.toy) None (Some "first") None
         (TitanicClassifier.init (L := Toy.toy) Toy.train_csv [Int 0; Int 1; Int 1]
                                 Toy.test_csv 3)) in
  aligned self
  /\ is_Some (TitanicClassifier.model_names self !! 1%nat)
  /\ is_Some (TitanicClassifier.hyper_parameters self !! 1%nat).
Proof.
  intros self.
  assert (Hb : built self) by (repeat constructor).
  destruct (lists_stay_aligned (L := Toy.toy)) as (_ & _ & Hal & Hin & _).
  split; [exact (Hal self Hb)|].
  apply (Hin self 1%nat None Hb).
  apply elem_of_enumerate. reflexivity.
Defined.

(* ===================================================================== *)
(** * Frames and columns *)
(* ===================================================================== *)

Section Frames.

Lemma mapM_Forall2 {A B : Type} (f : A -> outcome B) (l : list A) (l' : list B) :
  mapM f l = Ok l' <-> Forall2 (fun a b => f a = Ok b) l l'.
Proof.
  revert l'. induction l as [|a l IH]; intros l'; simpl.
  - split.
    + intros E. injection E as <-. constructor.
    + intros H. inversion H. reflexivity.
  - split.
    + intros E. destruct (f a) as [b|] eqn:Ea; [|discriminate E].
      destruct (mapM f l) as [bs|] eqn:El; [|discriminate E].
      injection E as <-. constructor; [exact Ea | now apply IH].
    + intros H. inversion H as [|? b ? bs Ha Hl]; subst.
      rewrite Ha. apply IH in Hl. rewrite Hl. reflexivity.
Qed.

Lemma mapM_length {A B : Type} (f : A -> outcome B) (l : list A) (l' : list B) :
  mapM f l = Ok l' -> length l' = length l.
Proof.
  intros E. apply mapM_Forall2 in E. symmetry. eapply Forall2_length, E.
Qed.

Lemma mapM_total {A B : Type} (f : A -> outcome B) (l : list A) :
  Forall (fun a => exists b, f a = Ok b) l -> exists l', mapM f l = Ok l'.
Proof.
  induction 1 as [|a l [b Hb] _ [bs Hbs]]; simpl.
  - now exists [].
  - exists (b :: bs). now rewrite Hb, Hbs.
Qed.

Lemma lookup_set_col name n v cs :
  lookup_col n (set_col name v cs) =
  if String.eqb n name then Some v else lookup_col n cs.
Proof.
  induction cs as [|[m c] cs IH]; cbn [lookup_col set_col].
  - rewrite (String.eqb_sym name n). reflexivity.
  - destruct (String.eqb m name) eqn:Em; cbn [lookup_col].
    + apply String.eqb_eq in Em as ->. cbn [lookup_col].
      rewrite (String.eqb_sym name n).
      destruct (String.eqb n name); reflexivity.
    + destruct (String.eqb m n) eqn:Emn; [|exact IH].
      apply String.eqb_eq in Emn as ->.
      now rewrite Em.
Qed.

Lemma labels_set_col name v cs :
  map fst (set_col name v cs) =
  if str_in name (map fst cs) then map fst cs else map fst cs ++ [name].
Proof.
  induction cs as [|[m c] cs IH]; [reflexivity|].
  unfold str_in in *. cbn [set_col map fst existsb]. rewrite (String.eqb_sym name m).
  destruct (String.eqb m name); cbn [map fst orb]; [reflexivity|].
  rewrite IH. destruct (existsb (String.eqb name) (map fst cs)); reflexivity.
Qed.

Lemma get_assign name n v f f' :
  assign name v f = Ok f' ->
  get n f' = if String.eqb n name then Ok v else get n f.
Proof.
  unfold assign. destruct (length v =? nrows f)%nat; [|discriminate].
  intros E. injection E as <-. unfold get. simpl. rewrite lookup_set_col.
  destruct (String.eqb n name); reflexivity.
Qed.

Lemma get_assign_other name n v f f' :
  assign name v f = Ok f' -> String.eqb n name = false -> get n f' = get n f.
Proof. intros E H. rewrite (get_assign _ _ _ _ _ E), H. reflexivity. Qed.

Lemma get_assign_same name v f f' :
  assign name v f = Ok f' -> get name f' = Ok v.
Proof. intros E. rewrite (get_assign _ _ _ _ _ E), String.eqb_refl. reflexivity. Qed.

Lemma assign_nrows name v f f' : assign name v f = Ok f' -> nrows f' = nrows f.
Proof.
  unfold assign. destruct (length v =? nrows f)%nat; [|discriminate].
  intros E. now injection E as <-.
Qed.

Lemma assign_ok name v f :
  length v = nrows f -> exists f', assign name v f = Ok f'.
Proof.
  intros H. unfold assign. rewrite H, Nat.eqb_refl. eexists. reflexivity.
Qed.

Lemma lookup_col_wf name f c :
  wf f -> lookup_col name (cols f) = Some c -> length c = nrows f.
Proof.
  unfold wf. generalize (nrows f). induction (cols f) as [|[m c'] cs IH]; simpl;
    intros n Hwf E; [discriminate|].
  apply Forall_cons in Hwf as [Hc Hcs].
  destruct (String.eqb m name); [injection E as <-; exact Hc | eauto].
Qed.

Lemma get_length name f c : wf f -> get name f = Ok c -> length c = nrows f.
Proof.
  unfold get. intros Hwf E.
  destruct (lookup_col name (cols f)) as [c'|] eqn:El; [|discriminate].
  injection E as <-. eapply lookup_col_wf; eassumption.
Qed.

Lemma assign_wf name v f f' : wf f -> assign name v f = Ok f' -> wf f'.
Proof.
  unfold assign. destruct (length v =? nrows f)%nat eqn:El; [|discriminate].
  apply Nat.eqb_eq in El. intros Hwf E. injection E as <-.
  unfold wf in *. simpl. revert Hwf.
  induction (cols f) as [|[m c] cs IH]; simpl; intros Hwf.
  - repeat constructor. exact El.
  - apply Forall_cons in Hwf as [Hc Hcs].
    destruct (String.eqb m name); constructor; auto.
Qed.

Lemma choose_scalars cond x y :
  choose cond (replicate (length cond) x) (replicate (length cond) y)
  = map (fun b : bool => if b then x else y) cond.
Proof. induction cond as [|b cond IH]; simpl; [reflexivity | now rewrite IH]. Qed.

(** [np.where] with two scalars never raises. *)
Lemma np_where_scalars cond x y :
  np_where cond (Scalar x) (Scalar y)
  = Ok (map (fun b : bool => if b then x else y) cond).
Proof. unfold np_where. simpl. now rewrite choose_scalars. Qed.

Lemma gt_total a q :
  Forall numeric a -> exists bs, gt a q = Ok bs.
Proof.
  intros H. apply mapM_total. eapply Forall_impl; [exact H|].
  intros [| | |] Hc; simpl; try (eexists; reflexivity). destruct Hc.
Qed.

(** An entry equal to [q] is not greater than [q]. *)
Lemma eq_num_not_gt c q b :
  eq_num c q = true -> gt_num c q = Ok b -> b = false.
Proof.
  unfold eq_num, gt_num.
  destruct c as [|z|x|s]; simpl; try discriminate.
  - intros E H. injection H as <-. apply Qeq_bool_iff in E.
    apply negb_false_iff, Qle_bool_iff. rewrite E. apply Qle_refl.
  - intros E H. injection H as <-. apply Qeq_bool_iff in E.
    apply negb_false_iff, Qle_bool_iff. rewrite E. apply Qle_refl.
Qed.

Lemma band_length a b : length a = length b -> length (band a b) = length a.
Proof. intros H. unfold band. rewrite length_zip_with. lia. Qed.

Lemma band_lookup_true a b i :
  band a b !! i = Some true -> a !! i = Some true /\ b !! i = Some true.
Proof.
  unfold band. intros H. apply lookup_zip_with_Some in H as (x & y & E & Ha & Hb).
  symmetry in E. apply andb_true_iff in E as [-> ->]. now split.
Qed.

End Frames.

(* ===================================================================== *)
(** * create_alone_right_place_feature *)
(* ===================================================================== *)

Section AloneRightPlace.

Import Main.

(** Two conditions that never hold in one row add up to 0 or 10. *)
Lemma add_exclusive cond1 cond2 :
  Forall2 (fun b1 b2 : bool => b1 && b2 = false) cond1 cond2 ->
  exists total,
    add_cols (map ten cond1) (map ten cond2) = Ok total
    /\ length total = length cond1
    /\ Forall (fun c => c = Int 0 \/ c = Int 10) total.
Proof.
  induction 1 as [|b1 b2 cond1 cond2 Hb _ (total & E & Hlen & Hall)]; simpl.
  - exists []. repeat split. constructor.
  - rewrite E. simpl.
    destruct b1, b2; try discriminate Hb; simpl;
      eexists; (split; [reflexivity|]); (split; [simpl; now rewrite Hlen|]);
      constructor; auto.
Qed.

(** C8. In every frame (rectangular, as pandas builds it) that has the
    columns FamSize, Sex, Pclass_2 and Pclass_3, FamSize holding numbers,
    [create_alone_right_place_feature] returns a frame whose AloneRightPlace
    column holds 0 or 10 in every row: the two conditions that add 10
    exclude one another, so 20 is never reached. *)
Theorem alone_right_place_values data fam sex pclass_2 pclass_3 :
  wf data ->
  get "FamSize" data = Ok fam ->
  get "Sex" data = Ok sex ->
  get "Pclass_2" data = Ok pclass_2 ->
  get "Pclass_3" data = Ok pclass_3 ->
  Forall numeric fam ->
  exists data' alone,
    create_alone_right_place_feature data = Ok data'
    /\ get "AloneRightPlace" data' = Ok alone
    /\ length alone = nrows data
    /\ Forall (fun c => c = Int 0 \/ c = Int 10) alone.
Proof.
  intros Hwf Hfam Hsex Hp2 Hp3 Hnum.
  pose proof (get_length _ _ _ Hwf Hfam) as Lfam.
  pose proof (get_length _ _ _ Hwf Hsex) as Lsex.
  pose proof (get_length _ _ _ Hwf Hp2) as Lp2.
  pose proof (get_length _ _ _ Hwf Hp3) as Lp3.
  destruct (gt_total fam 1 Hnum) as [big Hbig].
  pose proof (mapM_length _ _ _ Hbig) as Lbig.
  set (cond1 := band (band (map (fun c => eq_num c 1) fam) (map (fun c => eq_num c 0) sex))
                     (map (fun c => eq_num c 1) pclass_3)).
  set (cond2 := band (band big (map (fun c => eq_num c 1) sex))
                     (map (fun c => eq_num c 1) pclass_2)).
  assert (L1 : length cond1 = nrows data).
  { unfold cond1. rewrite !band_length; rewrite ?length_map; try lia.
    rewrite band_length; rewrite ?length_map; lia. }
  assert (L2 : length cond2 = nrows data).
  { unfold cond2. rewrite !band_length; rewrite ?length_map; try lia.
    rewrite band_length; rewrite ?length_map; lia. }
  assert (Hex : Forall2 (fun b1 b2 : bool => b1 && b2 = false) cond1 cond2).
  { apply Forall2_same_length_lookup. split; [lia|].
    intros i b1 b2 H1 H2. destruct b1; [|reflexivity]. destruct b2; [|reflexivity].
    exfalso.
    apply band_lookup_true in H1 as [H1 _]. apply band_lookup_true in H1 as [H1 _].
    apply band_lookup_true in H2 as [H2 _]. apply band_lookup_true in H2 as [H2 _].
    rewrite list_lookup_fmap in H1.
    destruct (fam !! i) as [c|] eqn:Ec; [|discriminate H1].
    injection H1 as H1.
    apply mapM_Forall2 in Hbig.
    destruct (Forall2_lookup_l _ _ _ _ _ Hbig Ec) as (b & Hb & Hgt).
    rewrite H2 in Hb. injection Hb as <-.
    now pose proof (eq_num_not_gt _ _ _ H1 Hgt). }
  destruct (add_exclusive _ _ Hex) as (total & Htotal & Ltotal & Hall).
  destruct (assign_ok "AloneRightPlace" (map ten cond1) data) as [data1 Hdata1];
    [rewrite length_map; exact L1|].
  destruct (assign_ok "AloneRightPlace" total data1) as [data2 Hdata2];
    [rewrite (assign_nrows _ _ _ _ Hdata1); lia|].
  exists data2, total.
  split; [|split; [|split]].
  - unfold create_alone_right_place_feature.
    rewrite Hfam, Hsex, Hp3. cbn [bind]. fold cond1.
    rewrite np_where_scalars. cbn [bind]. fold ten. rewrite Hdata1. cbn [bind].
    rewrite (get_assign_same _ _ _ _ Hdata1).
    rewrite !(get_assign_other _ _ _ _ _ Hdata1) by reflexivity.
    rewrite Hfam, Hsex, Hp2. cbn [bind]. rewrite Hbig. cbn [bind]. fold cond2.
    rewrite np_where_scalars. cbn [bind]. fold ten. rewrite Htotal. cbn [bind].
    exact Hdata2.
  - apply (get_assign_same _ _ _ _ Hdata2).
  - lia.
  - exact Hall.
Qed.

Lemma alone_right_place_values_witness :
  let data :=
    {| nrows := 3;
       cols := [("FamSize", [Int 1; Int 2; Int 1]); ("Sex", [Int 0; Int 1; Int 1]);
                ("Pclass_2", [Int 0; Int 1; Int 0]); ("Pclass_3", [Int 1; Int 0; Int 1])] |} in
  exists data' alone,
    create_alone_right_place_feature data = Ok data'
    /\ get "AloneRightPlace" data' = Ok alone
    /\ length alone = 3%nat
    /\ Forall (fun c => c = Int 0 \/ c = Int 10) alone.
Proof.
  intros data.
  apply (alone_right_place_values data [Int 1; Int 2; Int 1] [Int 0; Int 1; Int 1]
           [Int 0; Int 1; Int 0] [Int 1; Int 0; Int 1]);
    try reflexivity.
  - repeat constructor.
  - repeat constructor.
Defined.

End AloneRightPlace.

(* ===================================================================== *)
(** * Runs of [io] computations *)
(* ===================================================================== *)

Section Runs.

Context `{L : Library}.

Lemma io_bind_Ok {A B : Type} (c : io A) (k : A -> io B) w b w' :
  io_bind c k w = (Ok b, w') <->
  exists a w1, c w = (Ok a, w1) /\ k a w1 = (Ok b, w').
Proof.
  unfold io_bind. split.
  - destruct (c w) as [[a|e] w1]; [|discriminate]. intros H. now exists a, w1.
  - intros (a & w1 & -> & H). exact H.
Qed.

Lemma io_bind_Raise {A B : Type} (c : io A) (k : A -> io B) w e w' :
  io_bind c k w = (Raise e, w') <->
  c w = (Raise e, w') \/ exists a w1, c w = (Ok a, w1) /\ k a w1 = (Raise e, w').
Proof.
  unfold io_bind. split.
  - destruct (c w) as [[a|e1] w1].
    + intros H. right. now exists a, w1.
    + intros H. injection H as <- <-. now left.
  - intros [-> | (a & w1 & -> & H)]; [reflexivity | exact H].
Qed.

Lemma io_ret_Ok {A : Type} (a b : A) w w' :
  io_ret a w = (Ok b, w') <-> b = a /\ w' = w.
Proof. unfold io_ret. split; [intros H; now injection H as -> -> | now intros [-> ->]]. Qed.

Lemma lift_Ok {A : Type} (r : outcome A) a w w' :
  lift r w = (Ok a, w') <-> r = Ok a /\ w' = w.
Proof. unfold lift. split; [intros H; now injection H as -> -> | now intros [-> ->]]. Qed.

Lemma returned {A : Type} (r : outcome A * world) (a : A) :
  fst r = Ok a -> r = (Ok a, snd r).
Proof. destruct r as [o w]. cbn. now intros ->. Qed.

Lemma emit_run c w : emit c w = (Ok tt, called c w).
Proof. reflexivity. Qed.

Lemma pure_call_run {A : Type} c (a : A) w : pure_call c a w = (Ok a, called c w).
Proof. reflexivity. Qed.

Lemma draw_Ok {A : Type} c (f : rng -> A * rng) a w w' :
  draw c f w = (Ok a, w') <->
  a = fst (f (entropy w))
  /\ w' = {| files := files w; entropy := snd (f (entropy w)); clock := clock w;
             trace := trace w ++ [c] |}.
Proof.
  unfold draw. split; [intros H; now injection H as <- <- | now intros [-> ->]].
Qed.

Lemma read_csv_Ok path f w w' :
  read_csv path w = (Ok f, w') <->
  files w !! path = Some f /\ w' = called (read_csv_ path) w.
Proof.
  unfold read_csv, io_bind. rewrite emit_run. simpl.
  destruct (files w !! path) as [f'|].
  - split; [intros H; now injection H as -> <- | intros [E ->]; now injection E as ->].
  - split; [discriminate | intros [E _]; discriminate].
Qed.

Lemma to_csv_run path index f w :
  to_csv path index f w =
  (Ok tt, {| files := <[path := if index then with_index f else f]> (files w);
             entropy := entropy w; clock := clock w;
             trace := trace w ++ [to_csv_ path index] |}).
Proof. reflexivity. Qed.

(** ** Calls made and files kept *)

Lemma makes_ret {A : Type} (a : A) : makes (io_ret a) [].
Proof. intros w. simpl. split; [reflexivity | now rewrite app_nil_r]. Qed.

Lemma makes_lift {A : Type} (r : outcome A) : makes (lift r) [].
Proof.
  intros w. simpl. split; [reflexivity|].
  destruct r; [now rewrite app_nil_r|].
  exists []. split; [reflexivity | now rewrite app_nil_r].
Qed.

Lemma makes_emit c : makes (emit c) [c].
Proof. intros w. simpl. now split. Qed.

Lemma makes_pure_call {A : Type} c (a : A) : makes (pure_call c a) [c].
Proof. intros w. simpl. now split. Qed.

Lemma makes_draw {A : Type} c (f : rng -> A * rng) : makes (draw c f) [c].
Proof. intros w. simpl. now split. Qed.

Lemma makes_read_csv path : makes (read_csv path) [read_csv_ path].
Proof.
  intros w. unfold read_csv, io_bind. rewrite emit_run. simpl.
  destruct (files w !! path); simpl; (split; [reflexivity|]); [reflexivity|].
  exists [read_csv_ path]. now split.
Qed.

Lemma makes_bind {A B : Type} (c : io A) (k : A -> io B) e1 e2 :
  makes c e1 -> (forall a, makes (k a) e2) -> makes (io_bind c k) (e1 ++ e2).
Proof.
  intros Hc Hk w. unfold io_bind.
  destruct (Hc w) as [Hf Ht]. destruct (c w) as [[a|e] w1]; simpl in *.
  - destruct (Hk a w1) as [Hf' Ht']. split; [congruence|].
    destruct (fst (k a w1)).
    + rewrite Ht', Ht. now rewrite app_assoc.
    + destruct Ht' as (t & Hp & Ht'). exists (e1 ++ t). split.
      * now apply prefix_app.
      * rewrite Ht', Ht. now rewrite app_assoc.
  - split; [exact Hf|]. destruct Ht as (t & Hp & Ht). exists t. split; [|exact Ht].
    now apply prefix_app_r.
Qed.

Lemma makes_print : makes print [print_].
Proof. apply makes_emit. Qed.

(** ** The submission is written last *)

Lemma submits_to_csv path table : submits (to_csv path false table) [] path.
Proof.
  intros w. rewrite to_csv_run. simpl. split; [reflexivity|]. now exists table.
Qed.

Lemma submits_bind {A B : Type} (c : io A) (k : A -> io B) e1 e2 path :
  makes c e1 -> (forall a, submits (k a) e2 path) -> submits (io_bind c k) (e1 ++ e2) path.
Proof.
  intros Hc Hk w. unfold io_bind.
  destruct (Hc w) as [Hf Ht]. destruct (c w) as [[a|e] w1]; simpl in *.
  - specialize (Hk a w1). destruct (k a w1) as [[b|e] w2].
    + destruct Hk as [Ht' (table & Hw)]. split.
      * rewrite Ht', Ht. now rewrite <- !app_assoc.
      * exists table. now rewrite Hw, Hf.
    + destruct Hk as [Hf' (t & Hp & Ht')]. split; [congruence|].
      exists (e1 ++ t). split; [now apply prefix_app|].
      rewrite Ht', Ht. now rewrite app_assoc.
  - split; [exact Hf|]. destruct Ht as (t & Hp & Ht). exists t. split; [|exact Ht].
    now apply prefix_app_r.
Qed.

End Runs.

(* ===================================================================== *)
(** * The order of the calls in main.py *)
(* ===================================================================== *)

Section Pipeline.

Context `{L : Library}.

Import Main.

Lemma makes_eq {A : Type} (c : io A) e e' : makes c e -> e = e' -> makes c e'.
Proof. now intros H <-. Qed.

Lemma submits_eq {A : Type} (c : io A) e e' path :
  submits c e path -> e = e' -> submits c e' path.
Proof. now intros H <-. Qed.

(** Walks through a chain of binds, collecting the calls. *)
Ltac calls :=
  repeat first
    [ apply makes_ret | apply makes_lift | apply makes_emit | apply makes_print
    | apply makes_pure_call | apply makes_draw | apply makes_read_csv
    | apply submits_to_csv
    | eapply makes_bind | eapply submits_bind
    | progress intros
    | progress cbv zeta
    | match goal with
      | |- makes (match ?x with (_, _) => _ end) _ => destruct x
      | |- submits (match ?x with (_, _) => _ end) _ _ => destruct x
      | |- makes (if ?b then _ else _) _ => destruct b
      end ].

Lemma ingest_data_makes :
  makes ingest_data [read_csv_ "data/train.csv"; read_csv_ "data/test.csv"].
Proof. eapply makes_eq; [unfold ingest_data; calls | reflexivity]. Qed.

Lemma impute_makes data : makes (impute data) [MICE_complete_].
Proof. eapply makes_eq; [unfold impute; calls | reflexivity]. Qed.

Lemma feature_engineering_makes data :
  makes (feature_engineering data) [MICE_complete_].
Proof.
  eapply makes_eq; [unfold feature_engineering; calls; apply impute_makes | reflexivity].
Qed.

Lemma vote_classifier_submits path models_ train y test weights :
  submits (vote_classifier path models_ train y test weights)
          [VotingClassifier_; fit_; read_csv_ "data/test.csv"; predict_] path.
Proof. eapply submits_eq; [unfold vote_classifier; calls | reflexivity]. Qed.

Lemma main_submits :
  submits main
    [read_csv_ "data/train.csv"; read_csv_ "data/test.csv"; MICE_complete_; print_;
     VotingClassifier_; fit_; read_csv_ "data/test.csv"; predict_]
    "Output_titanic".
Proof.
  eapply submits_eq.
  - unfold main. eapply submits_bind; [apply ingest_data_makes|]. intros data.
    eapply submits_bind; [apply feature_engineering_makes|]. intros data'.
    eapply submits_bind; [apply makes_print|]. intros _.
    eapply submits_bind; [apply makes_lift|]. intros [[train outcomes] to_predict].
    unfold model_and_submit.
    eapply submits_bind; [apply makes_ret|]. intros [[rf lr] svm].
    apply vote_classifier_submits.
  - reflexivity.
Qed.

End Pipeline.

(* ===================================================================== *)
(** * What the submission holds *)
(* ===================================================================== *)

(** Takes a run that returned apart, step by step. *)
Ltac step_ok H1 :=
  lazymatch type of H1 with
  | lift _ _ = (Ok _, _) => apply lift_Ok in H1 as [H1 ->]
  | io_ret _ _ = (Ok _, _) => apply io_ret_Ok in H1 as [-> ->]
  | pure_call _ _ _ = (Ok _, _) => rewrite pure_call_run in H1; injection H1 as <- <-
  | emit _ _ = (Ok _, _) => rewrite emit_run in H1; injection H1 as <- <-
  | print _ = (Ok _, _) => unfold print in H1; rewrite emit_run in H1; injection H1 as <- <-
  | draw _ _ _ = (Ok _, _) => apply draw_Ok in H1 as [-> ->]
  | read_csv _ _ = (Ok _, _) => apply read_csv_Ok in H1 as [H1 ->]
  | to_csv _ _ _ _ = (Ok _, _) => rewrite to_csv_run in H1; injection H1 as <-
  | _ => idtac
  end.

Ltac run_ok H :=
  repeat
    (lazymatch type of H with
     | io_bind _ _ _ = (Ok _, _) =>
         let a := fresh "a" in
         let w1 := fresh "w" in
         let H1 := fresh "Hrun" in
         apply io_bind_Ok in H as (a & w1 & H1 & H); step_ok H1
     end);
  step_ok H.

Section Submission.

Context `{L : Library}.

Import Main TitanicClassifier.

Lemma select_one name f g :
  select [name] f = Ok g ->
  exists c, lookup_col name (cols f) = Some c
            /\ g = {| nrows := nrows f; cols := [(name, c)] |}.
Proof.
  unfold select, get. simpl.
  destruct (lookup_col name (cols f)) as [c|]; simpl; [|discriminate].
  intros H. injection H as <-. now exists c.
Qed.

(** The table both submission writers build: the PassengerId column of the
    test file and the given Survived column. *)
Lemma submission_table test ids survived table :
  select ["PassengerId"] test = Ok ids ->
  assign "Survived" survived ids = Ok table ->
  exists id_column,
    lookup_col "PassengerId" (cols test) = Some id_column
    /\ length survived = nrows test
    /\ table = {| nrows := nrows test;
                  cols := [("PassengerId", id_column); ("Survived", survived)] |}.
Proof.
  intros Hs Ha. apply select_one in Hs as (c & Hc & ->).
  unfold assign in Ha. simpl in Ha.
  destruct (length survived =? nrows test)%nat eqn:El; [|discriminate].
  injection Ha as <-. apply Nat.eqb_eq in El. now exists c.
Qed.

(** [vote_classifier] writes the predictions of the library's voting
    classifier, as they are. *)
Lemma vote_classifier_table path models_ train y test weights w u w' :
  vote_classifier path models_ train y test weights w = (Ok u, w') ->
  let prediction :=
    predict (fst (fit (VotingClassifier models_ [("voting", PStr "hard")])
                      (np_array train) y (entropy w)))
            (np_array test) in
  exists test_csv id_column,
    files w !! "data/test.csv" = Some test_csv
    /\ lookup_col "PassengerId" (cols test_csv) = Some id_column
    /\ length prediction = nrows test_csv
    /\ files w' =
       <[path := {| nrows := nrows test_csv;
                    cols := [("PassengerId", id_column); ("Survived", prediction)] |}]>
         (files w).
Proof.
  intros H prediction. unfold vote_classifier in H. run_ok H. subst w'.
  simpl in *.
  match goal with
  | Hs : select _ ?t = Ok _, Ha : assign _ _ _ = Ok _ |- _ =>
      destruct (submission_table _ _ _ _ Hs Ha) as (c & Hc & Hlen & ->); exists t, c
  end.
  repeat split; assumption.
Qed.

(** [flush_result] writes [self.result] next to the PassengerId column of
    the test file, or nothing. *)
Lemma flush_result_table out test_name self w :
  match flush_result out test_name self w with
  | (Ok _, w') =>
      trace w' = trace w ++ [read_csv_ test_name; to_csv_ out false]
      /\ exists test id_column,
           files w !! test_name = Some test
           /\ lookup_col "PassengerId" (cols test) = Some id_column
           /\ length (result self) = nrows test
           /\ files w' =
              <[out := {| nrows := nrows test;
                          cols := [("PassengerId", id_column);
                                   ("Survived", result self)] |}]> (files w)
  | (Raise _, w') => files w' = files w
  end.
Proof.
  destruct (flush_result out test_name self w) as [[u|e] w'] eqn:H.
  - unfold flush_result in H. run_ok H. subst w'. simpl.
    split; [now rewrite <- app_assoc|].
    match goal with
    | Hs : select _ ?t = Ok _, Ha : assign _ _ _ = Ok _ |- _ =>
        destruct (submission_table _ _ _ _ Hs Ha) as (c & Hc & Hlen & ->); exists t, c
    end.
    repeat split; assumption.
  - assert (Hs : submits (flush_result out test_name self) [read_csv_ test_name] out).
    { eapply submits_eq.
      - unfold flush_result.
        eapply submits_bind; [apply makes_read_csv|]. intros test.
        eapply submits_bind; [apply makes_lift|]. intros ids.
        eapply submits_bind; [apply makes_lift|]. intros table.
        apply submits_to_csv.
      - reflexivity. }
    specialize (Hs w). rewrite H in Hs. apply Hs.
Qed.

(** A run of [main], call by call. *)
Lemma main_run w :
  match main w with
  | (Ok _, w') =>
      trace w' =
      trace w ++ [read_csv_ "data/train.csv"; read_csv_ "data/test.csv";
                  MICE_complete_; print_; VotingClassifier_; fit_;
                  read_csv_ "data/test.csv"; predict_;
                  to_csv_ "Output_titanic" false]
      /\ exists test id_column survived,
           files w !! "data/test.csv" = Some test
           /\ lookup_col "PassengerId" (cols test) = Some id_column
           /\ length survived = nrows test
           /\ files w' =
              <["Output_titanic" :=
                  {| nrows := nrows test;
                     cols := [("PassengerId", id_column); ("Survived", survived)] |}]>
                (files w)
  | (Raise _, w') =>
      files w' = files w
      /\ exists t,
           t `prefix_of` [read_csv_ "data/train.csv"; read_csv_ "data/test.csv";
                          MICE_complete_; print_; VotingClassifier_; fit_;
                          read_csv_ "data/test.csv"; predict_]
           /\ trace w' = trace w ++ t
  end.
Proof.
  pose proof (main_submits w) as Hs.
  destruct (main w) as [[u|e] w'] eqn:H; [|exact Hs].
  destruct Hs as [Ht _]. split; [exact Ht|].
  unfold main in H.
  apply io_bind_Ok in H as (data & w1 & H1 & H).
  apply io_bind_Ok in H as (data' & w2 & H2 & H).
  apply io_bind_Ok in H as (? & w3 & H3 & H).
  apply io_bind_Ok in H as ([[train outcomes] to_predict] & w4 & H4 & H).
  unfold model_and_submit in H.
  apply io_bind_Ok in H as (fitted & w5 & H5 & H).
  step_ok H5. cbv beta iota in H.
  apply vote_classifier_table in H as (test & ids & Hfile & Hids & Hlen & Hw).
  pose proof (ingest_data_makes w) as [F1 _]. rewrite H1 in F1. simpl in F1.
  pose proof (feature_engineering_makes data w1) as [F2 _]. rewrite H2 in F2. simpl in F2.
  step_ok H3. step_ok H4. simpl in *.
  eexists test, ids, _. rewrite <- F1, <- F2.
  repeat split; eassumption.
Qed.

End Submission.

(* ===================================================================== *)
(** * impute *)
(* ===================================================================== *)

Section Impute.

Context `{L : Library}.

Import Main.

Lemma get_lookup name f c : get name f = Ok c <-> lookup_col name (cols f) = Some c.
Proof.
  unfold get. destruct (lookup_col name (cols f)); split; intros H;
    try discriminate; now injection H as ->.
Qed.




End Impute.




(* ===================================================================== *)
(** * majority_vote_ensemble: the vote is computed in the repository *)
(* ===================================================================== *)

Section IntegerColumns.

Lemma add_cols_ints a b :
  length a = length b ->
  add_cols (map Int a) (map Int b) = Ok (map Int (zip_with Z.add a b)).
Proof.
  revert b. induction a as [|x a IH]; intros [|y b] H; simpl in *;
    try discriminate; [reflexivity|].
  rewrite IH by lia. reflexivity.
Qed.

Lemma sign_cells labels :
  map Main.zero_to_minus_one (map Int labels) = map Int (map sign labels).
Proof.
  induction labels as [|z labels IH]; simpl; [reflexivity|]. rewrite IH. f_equal.
  unfold Main.zero_to_minus_one, sign, eq_num. simpl.
  unfold Qeq_bool. simpl. rewrite Z.mul_1_r.
  destruct z; reflexivity.
Qed.

Lemma gt_ints zs :
  gt (map Int zs) 0 = Ok (map (fun z => (0 <? z)%Z) zs).
Proof.
  unfold gt. induction zs as [|z zs IH]; simpl; [reflexivity|].
  rewrite IH. do 2 f_equal.
  unfold Qle_bool. simpl. rewrite Z.mul_1_r. destruct z; reflexivity.
Qed.

Lemma zip_with_add_zero (acc zs : list Z) :
  length acc = length zs ->
  zip_with (fun a z => (a + Z.of_nat 0 * z)%Z) acc zs = acc.
Proof.
  revert zs. induction acc as [|a acc IH]; intros [|z zs] H; simpl in *;
    try discriminate; [reflexivity|].
  rewrite IH by lia. f_equal. lia.
Qed.

Lemma zip_with_add_again (k : nat) (acc zs : list Z) :
  zip_with (fun a z => (a + Z.of_nat k * z)%Z) (zip_with Z.add acc zs) zs
  = zip_with (fun a z => (a + Z.of_nat (S k) * z)%Z) acc zs.
Proof.
  revert zs. induction acc as [|a acc IH]; intros [|z zs]; simpl; try reflexivity.
  rewrite IH. f_equal. lia.
Qed.

Lemma seq_lookups (acc : list Z) :
  map (fun i => default 0%Z (acc !! i)) (seq 0 (length acc)) = acc.
Proof.
  apply list_eq. intros i. rewrite list_lookup_fmap.
  destruct (acc !! i) as [a|] eqn:E.
  - rewrite (proj2 (lookup_seq 0 (length acc) i i)).
    + simpl. now rewrite E.
    + split; [reflexivity | eapply lookup_lt_Some, E].
  - apply lookup_ge_None in E. rewrite (proj2 (lookup_ge_None _ _)); [reflexivity|].
    now rewrite length_seq.
Qed.

(** The running sums, row by row. *)
Lemma tally_rows members :
  forall n sums,
    length sums = n ->
    Forall (fun m => length (fst m) = n) members ->
    tally sums members
    = map (fun i => (default 0 (sums !! i) + row_sum members i)%Z) (seq 0 n).
Proof.
  induction members as [|[labels votes] members IH]; intros n sums Hn Hall.
  - simpl. rewrite <- (seq_lookups sums) at 1. rewrite Hn.
    apply map_ext. intros i. lia.
  - apply Forall_cons in Hall as [Hl Hall]. simpl in Hl.
    change (tally sums ((labels, votes) :: members))
      with (tally (zip_with (fun a l => (a + Z.max 0 votes * sign l)%Z) sums labels) members).
    rewrite (IH n); [|rewrite length_zip_with; lia|exact Hall].
    apply list_fmap_ext. intros j i Hi.
    apply lookup_seq in Hi as [-> Hj]. simpl.
    destruct (lookup_lt_is_Some_2 sums j) as [a Ha]; [lia|].
    destruct (lookup_lt_is_Some_2 labels j) as [l Hlab]; [lia|].
    rewrite (proj2 (lookup_zip_with_Some _ _ _ _ _)) by eauto.
    rewrite Ha, Hlab. simpl. lia.
Qed.

Lemma tally_from_zero n members :
  Forall (fun m => length (fst m) = n) members ->
  map (fun z => Int (if (0 <? z)%Z then 1 else 0)) (tally (replicate n 0%Z) members)
  = weighted_vote n members.
Proof.
  intros Hall. rewrite (tally_rows members n) by (rewrite ?length_replicate; auto).
  unfold weighted_vote. rewrite map_map. apply list_fmap_ext. intros j i Hi.
  apply lookup_seq in Hi as [-> Hj]. simpl.
  rewrite lookup_replicate_2 by exact Hj. reflexivity.
Qed.

End IntegerColumns.

Section MajorityVote.

Context `{L : Library}.

Import Main.

Lemma add_votes_ints n ids sums zs :
  length sums = n -> length zs = n ->
  add_votes (map Int zs) (submission n ids (map Int sums))
  = Ok (submission n ids (map Int (zip_with Z.add sums zs))).
Proof.
  intros Hs Hz. unfold add_votes, get, submission. cbn [cols lookup_col].
  change (String.eqb "PassengerId" "Survived") with false.
  change (String.eqb "Survived" "Survived") with true. cbn [bind].
  rewrite add_cols_ints by lia. cbn [bind].
  unfold assign. cbn [nrows cols]. rewrite length_map, length_zip_with.
  replace (length sums `min` length zs =? n)%nat with true
    by (symmetry; apply Nat.eqb_eq; lia).
  cbn [set_col].
  change (String.eqb "PassengerId" "Survived") with false.
  change (String.eqb "Survived" "Survived") with true. reflexivity.
Qed.

Lemma times_add_votes k n ids zs :
  length zs = n ->
  forall sums,
    length sums = n ->
    times k (add_votes (map Int zs)) (submission n ids (map Int sums))
    = Ok (submission n ids (map Int (zip_with (fun a z => (a + Z.of_nat k * z)%Z) sums zs))).
Proof.
  intros Hz. induction k as [|k IH]; intros sums Hs.
  - cbn [times]. rewrite zip_with_add_zero by lia. reflexivity.
  - cbn [times]. rewrite (add_votes_ints n) by assumption. cbn [bind].
    rewrite IH by (rewrite length_zip_with; lia).
    now rewrite zip_with_add_again.
Qed.

(** The second loop of [majority_vote_ensemble] keeps the running sums. *)
Lemma vote_loop n ids members :
  Forall (fun m => length (fst m) = n) members ->
  forall sums,
    length sums = n ->
    foldM (fun '(probs, votes) ensemble =>
             times (Z.to_nat votes) (add_votes probs) ensemble)
          (map (fun m => (map zero_to_minus_one (map Int (fst m)), snd m)) members)
          (submission n ids (map Int sums))
    = Ok (submission n ids (map Int (tally sums members))).
Proof.
  induction 1 as [|[labels votes] members Hl _ IH]; intros sums Hs.
  - reflexivity.
  - cbn [map foldM fst snd]. simpl in Hl.
    rewrite sign_cells.
    rewrite (times_add_votes _ n) by (rewrite ?length_map; assumption).
    cbn [tally foldl].
    replace (zip_with (fun a z => (a + Z.of_nat (Z.to_nat votes) * z)%Z) sums (map sign labels))
      with (zip_with (fun a l => (a + Z.max 0 votes * sign l)%Z) sums labels).
    + apply IH. rewrite length_zip_with. lia.
    + rewrite zip_with_fmap_r. apply zip_with_ext; [|reflexivity..].
      intros a l. lia.
Qed.

(** The first loop collects the members' predictions, zeros turned into
    -1, and calls only [fit] and [predict]. *)
Lemma member_loop (body : estimator * Z -> list (column * Z) -> io (list (column * Z)))
    X y X_test :
  (forall model votes collected w,
      body (model, votes) collected w
      = (Ok (collected
             ++ [(map zero_to_minus_one (predict (fst (fit model X y (entropy w))) X_test),
                  votes)]),
         {| files := files w; entropy := snd (fit model X y (entropy w));
            clock := clock w; trace := (trace w ++ [fit_]) ++ [predict_] |})) ->
  forall models_votes collected w,
  exists w1,
    for_each models_votes body collected w
    = (Ok (collected
           ++ map (fun pv => (map zero_to_minus_one (fst pv), snd pv))
                  (member_predictions models_votes X y X_test (entropy w))),
       w1)
    /\ files w1 = files w
    /\ trace w1 = trace w ++ flat_map (fun _ => [fit_; predict_]) models_votes.
Proof.
  intros Hbody models_votes.
  induction models_votes as [|[model votes] rest IH]; intros collected w.
  - exists w. cbn. unfold io_ret. now rewrite !app_nil_r.
  - cbn [for_each]. unfold io_bind. rewrite Hbody.
    edestruct IH as (w1 & E & Hf & Ht). exists w1. rewrite E. cbn in *.
    split; [now rewrite <- app_assoc|]. split; [exact Hf|].
    rewrite Ht. now rewrite <- !app_assoc.
Qed.

(** [majority_vote_ensemble] on members that predict integer labels, one
    per row of the test file: it returns, has called the members' [fit] and
    [predict] and nothing else of the library, and has written the weighted
    majority vote of the predictions. *)
Lemma majority_vote_run name models_votes train outcomes to_predict w test ids members :
  files w !! "data/test.csv" = Some test ->
  lookup_col "PassengerId" (cols test) = Some ids ->
  member_predictions models_votes (np_array train) outcomes (np_array to_predict)
                     (entropy w)
  = map (fun m => (map Int (fst m), snd m)) members ->
  Forall (fun m => length (fst m) = nrows test) members ->
  exists w',
    majority_vote_ensemble name models_votes train outcomes to_predict w = (Ok tt, w')
    /\ files w' =
       <[name := submission (nrows test) ids (weighted_vote (nrows test) members)]>
         (files w)
    /\ trace w' =
       trace w ++ flat_map (fun _ => [fit_; predict_]) models_votes
               ++ [read_csv_ "data/test.csv"; to_csv_ name false].
Proof.
  intros Hfile Hids Hmembers Hlen.
  unfold majority_vote_ensemble. unfold io_bind at 1.
  match goal with
  | |- context [for_each models_votes ?body [] w] =>
      destruct (member_loop body (np_array train) outcomes (np_array to_predict)
                  (fun _ _ _ _ => eq_refl) models_votes [] w)
        as (w1 & E & Hf & Ht)
  end.
  rewrite E. clear E. rewrite Hmembers. cbn [app]. rewrite map_map. cbn [fst snd].
  unfold io_bind at 1. unfold read_csv at 1. unfold io_bind at 1.
  rewrite emit_run. cbn [files called]. rewrite Hf, Hfile.
  unfold io_bind at 1. cbn [lift].
  unfold select. cbn [mapM]. unfold get at 1. rewrite Hids. cbn [bind].
  unfold io_bind at 1. cbn [lift].
  change (assign_scalar "Survived" (Int 0)
            {| nrows := nrows test; cols := [("PassengerId", ids)] |})
    with (submission (nrows test) ids (replicate (nrows test) (Int 0))).
  rewrite <- (fmap_replicate Int).
  rewrite (vote_loop (nrows test) ids members Hlen)
    by (now rewrite length_replicate).
  unfold io_bind at 1. cbn [lift].
  replace (get "Survived" (submission (nrows test) ids
                                      (map Int (tally (replicate (nrows test) 0%Z) members))))
    with (Ok (map Int (tally (replicate (nrows test) 0%Z) members)) : outcome column)
    by reflexivity.
  unfold io_bind at 1. cbn [lift]. rewrite gt_ints.
  unfold io_bind at 1. cbn [lift]. rewrite np_where_scalars.
  unfold io_bind at 1. cbn [lift].
  rewrite map_map.
  replace (map (fun z => if (0 <? z)%Z then Int 1 else Int 0)
               (tally (replicate (nrows test) 0%Z) members))
    with (weighted_vote (nrows test) members).
  2:{ rewrite <- tally_from_zero by exact Hlen. apply map_ext.
      intros z. now destruct (0 <? z)%Z. }
  assert (Hn : length (weighted_vote (nrows test) members) = nrows test)
    by (unfold weighted_vote; now rewrite length_map, length_seq).
  unfold assign. cbn [nrows submission]. rewrite Hn, Nat.eqb_refl.
  cbn [cols set_col].
  change (String.eqb "PassengerId" "Survived") with false.
  change (String.eqb "Survived" "Survived") with true. cbn [to_csv].
  rewrite to_csv_run. cbn [files trace called].
  eexists. split; [reflexivity|]. cbn [files trace].
  split; [now rewrite Hf|].
  rewrite Ht. now rewrite <- !app_assoc.
Qed.

End MajorityVote.

(* ===================================================================== *)
(** * The voting classifier: vote_classifier and SurvivalClassifier.voting *)
(* ===================================================================== *)

Section Voting.

Context `{L : Library}.

Import Main TitanicClassifier.

Lemma named_models (names : list (option string)) (l : list estimator) :
  forall k acc named,
    foldM (fun '(index, model) model_with_name =>
             let* name := Py.index names index in
             Ok (model_with_name ++ [(name, model)]))
          (zip (seq k (length l)) l) acc = Ok named ->
    map snd named = map snd acc ++ l.
Proof.
  induction l as [|m l IH]; intros k acc named H.
  - injection H as <-. now rewrite app_nil_r.
  - cbn [length seq zip zip_with foldM] in H.
    destruct (Py.index names k) as [name|]; [|discriminate H]. cbn [bind] in H.
    apply IH in H. rewrite H, map_app. cbn. now rewrite <- app_assoc.
Qed.

(** [get_classifier] builds the library's voting classifier over exactly
    the models of the instance. *)
Lemma get_classifier_run voting weights self w classifier w1 :
  get_classifier voting weights self w = (Ok classifier, w1) ->
  w1 = called VotingClassifier_ w
  /\ exists named,
       map snd named = models self
       /\ classifier
          = VotingClassifier named [("voting", PStr voting); ("weights", weights)].
Proof.
  intros H. unfold get_classifier in H.
  apply io_bind_Ok in H as (named & w0 & Hloop & H).
  rewrite pure_call_run in H. injection H as <- <-.
  rewrite (for_each_lift _ _
             (fun '(index, model) model_with_name =>
                let* name := Py.index (model_names self) index in
                Ok (model_with_name ++ [(name, model)]))) in Hloop.
  - apply lift_Ok in Hloop as [Hfold ->]. split; [reflexivity|].
    exists named. split; [|reflexivity].
    apply named_models in Hfold. exact Hfold.
  - intros [index model] s w2. unfold io_bind, lift.
    destruct (Py.index (model_names self) index); reflexivity.
Qed.

(** [voting] keeps the prediction of the library's voting classifier. *)
Lemma voting_run voting_ weights self w self' w' :
  voting voting_ weights self w = (Ok self', w') ->
  trace w' = trace w ++ [VotingClassifier_; fit_; predict_]
  /\ exists named,
       map snd named = models self
       /\ result self'
          = predict (fst (fit (VotingClassifier named
                                 [("voting", PStr voting_); ("weights", weights)])
                              (np_array (train_x self)) (train_y self) (entropy w)))
                    (np_array (test_x self)).
Proof.
  intros H. unfold voting in H.
  apply io_bind_Ok in H as (classifier & w1 & Hget & H).
  apply get_classifier_run in Hget as (-> & named & Hnamed & ->).
  run_ok H. cbn. split; [now rewrite <- !app_assoc|].
  exists named. now split.
Qed.

(** Whatever its members predict, [majority_vote_ensemble] writes only 0
    and 1. *)
Lemma majority_vote_binary name models_votes train outcomes to_predict w u w' :
  majority_vote_ensemble name models_votes train outcomes to_predict w = (Ok u, w') ->
  exists table survived,
    files w' !! name = Some table
    /\ get "Survived" table = Ok survived
    /\ Forall (fun c => c = Int 0 \/ c = Int 1) survived.
Proof.
  intros H. unfold majority_vote_ensemble in H. run_ok H. subst w'. cbn [files].
  match goal with
  | Hw : np_where ?positive _ _ = Ok ?final, Ha : assign _ ?final _ = Ok ?table |- _ =>
      rewrite np_where_scalars in Hw; injection Hw as <-;
      exists table, (map (fun b : bool => if b then Int 1 else Int 0) positive);
      split; [apply lookup_insert_eq|]; split; [apply (get_assign_same _ _ _ _ Ha)|]
  end.
  apply Forall_fmap, Forall_forall. intros [|] _; cbn; auto.
Qed.

End Voting.

(* ===================================================================== *)
(** * Who computes the vote, and what is written to Survived *)
(* ===================================================================== *)

Section Ensembles.

Context `{L : Library}.

Import Main TitanicClassifier.



(** C4, as amended. Every value [majority_vote_ensemble] writes to the
    Survived column is 0 or 1, whatever its members predict.
    [vote_classifier] writes the predictions of the library's voting
    classifier as they are: its values are 0 or 1 when those predictions
    are. *)
Theorem survived_written :
  (forall name models_votes train outcomes to_predict w u w',
      majority_vote_ensemble name models_votes train outcomes to_predict w = (Ok u, w') ->
      exists table survived,
        files w' !! name = Some table
        /\ get "Survived" table = Ok survived
        /\ Forall (fun c => c = Int 0 \/ c = Int 1) survived)
  /\ (forall path models_ train y test weights w u w',
         vote_classifier path models_ train y test weights w = (Ok u, w') ->
         let prediction :=
           predict (fst (fit (VotingClassifier models_ [("voting", PStr "hard")])
                             (np_array train) y (entropy w)))
                   (np_array test) in
         exists table,
           files w' !! path = Some table
           /\ get "Survived" table = Ok prediction
           /\ (Forall (fun c => c = Int 0 \/ c = Int 1) prediction ->
               exists survived,
                 get "Survived" table = Ok survived
                 /\ Forall (fun c => c = Int 0 \/ c = Int 1) survived)).
Proof.
  split.
  - intros name models_votes train outcomes to_predict w u w' H.
    eapply majority_vote_binary, H.
  - intros path models_ train y test weights w u w' H prediction.
    apply vote_classifier_table in H as (test_csv & ids & _ & _ & _ & Hw).
    eexists. rewrite Hw. split; [apply lookup_insert_eq|].
    split; [reflexivity|]. intros Hbin. now exists prediction.
Qed.

End Ensembles.

Section EnsembleExamples.

Import Main TitanicClassifier Toy.



Lemma survived_written_witness :
  (exists table survived,
      files (snd (majority_vote_ensemble (L := toy) "ensemble.csv"
                    [(None, 2%Z); (None, 1%Z)] X_train [Int 2; Int 3; Int 2] X_test
                    (start 0))) !! "ensemble.csv" = Some table
      /\ get "Survived" table = Ok survived
      /\ Forall (fun c => c = Int 0 \/ c = Int 1) survived)
  /\ (exists table,
         files (snd (vote_classifier (L := toy) "submission.csv"
                       [(Some "rf", None); (Some "lr", None)] X_train y_train X_test
                       PNone (start 0))) !! "submission.csv" = Some table
         /\ get "Survived" table = Ok [Int 1; Int 1]).
Proof.
  destruct (survived_written (L := toy)) as [Hmajority Hvote].
  split.
  - apply (Hmajority "ensemble.csv" [(None, 2%Z); (None, 1%Z)] X_train
             [Int 2; Int 3; Int 2] X_test (start 0) tt).
    apply returned. vm_compute. reflexivity.
  - destruct (Hvote "submission.csv" [(Some "rf", None); (Some "lr", None)]
                X_train y_train X_test PNone (start 0) tt
                (snd (vote_classifier (L := toy) "submission.csv"
                        [(Some "rf", None); (Some "lr", None)] X_train y_train X_test
                        PNone (start 0))))
      as (table & Hfile & Hget & _); [apply returned; vm_compute; reflexivity|].
    exists table. split; [exact Hfile | exact Hget].
Defined.

(** C4 as stated fails: with a training file whose Survived column holds
    the labels 2 and 3, [main] (through [vote_classifier]) writes a
    submission whose Survived column holds 2. *)
Lemma main_writes_the_labels_it_was_given :
  let run := main (L := toy) (boot odd_disk 0) in
  fst run = Ok tt
  /\ files (snd run) !! "Output_titanic"
     = Some (submission 2 [Int 892; Int 893] [Int 2; Int 2])
  /\ (~ Forall (fun c => c = Int 0 \/ c = Int 1) [Int 2; Int 2]).
Proof.
  intros run. split; [vm_compute; reflexivity|]. split; [vm_compute; reflexivity|].
  intros H. apply Forall_cons in H as [[H|H] _]; discriminate H.
Qed.

End EnsembleExamples.

(* ===================================================================== *)
(** * The random ages of custom_model.py *)
(* ===================================================================== *)

Section AgeFillExample.

Import Main CustomModel Toy.

(** C2 as stated fails: the Age section of custom_model.py fills the
    missing ages with unseeded random integers, so two runs on the same
    files, started from two states of the random generator, fill the
    missing age of the third passenger with 19 and with 20. *)
Lemma age_fill_differs_between_runs :
  files (boot disk 0) = files (boot disk 1)
  /\ (exists titanic_0 test_0 titanic_1 test_1,
         fst (fill_ages (L := toy) train_csv test_csv (boot disk 0))
         = Ok (titanic_0, test_0)
         /\ fst (fill_ages (L := toy) train_csv test_csv (boot disk 1))
            = Ok (titanic_1, test_1)
         /\ get "Age" train_csv = Ok [Float 22; Float 38; NaN]
         /\ get "Age" titanic_0 = Ok [Int 22; Int 38; Int 19]
         /\ get "Age" titanic_1 = Ok [Int 22; Int 38; Int 20])
  /\ fst (fill_ages (L := toy) train_csv test_csv (boot disk 0))
     <> fst (fill_ages (L := toy) train_csv test_csv (boot disk 1)).
Proof.
  split; [reflexivity|]. split.
  - eexists _, _, _, _. repeat split; reflexivity.
  - intros H. vm_compute in H. discriminate H.
Qed.

End AgeFillExample.

(* ===================================================================== *)
(** * The entry point custom_classifier *)
(* ===================================================================== *)

Section EntryPoint.

Context `{L : Library}.

Import Main TitanicClassifier.

Lemma spares_makes {A : Type} path (c : io A) evs : makes c evs -> spares path c.
Proof.
  intros H w. destruct (H w) as [Hf Ht]. split; [|now rewrite Hf].
  destruct (fst (c w)); [now exists evs|].
  destruct Ht as (t & _ & Ht). now exists t.
Qed.

Lemma spares_to_csv path other index f :
  other <> path -> spares path (to_csv other index f).
Proof.
  intros Hne w. rewrite to_csv_run. cbn. split; [now eexists|].
  now apply lookup_insert_ne.
Qed.

Lemma spares_isfile path p : spares path (isfile p).
Proof. intros w. cbn. split; [now eexists | reflexivity]. Qed.

Lemma spares_bind {A B : Type} path (c : io A) (k : A -> io B) :
  spares path c -> (forall a, spares path (k a)) -> spares path (io_bind c k).
Proof.
  intros Hc Hk w. unfold io_bind. destruct (Hc w) as [[t Ht] Hf].
  destruct (c w) as [[a|e] w1]; cbn in *.
  - destruct (Hk a w1) as [[t' Ht'] Hf']. split; [|congruence].
    exists (t ++ t'). rewrite Ht', Ht. now rewrite app_assoc.
  - split; [now exists t | exact Hf].
Qed.

Lemma pre_process_data_spares a b c :
  a <> "data/test.csv" -> b <> "data/test.csv" -> c <> "data/test.csv" ->
  spares "data/test.csv" (pre_process_data a b c).
Proof.
  intros Ha Hb Hc. unfold pre_process_data.
  apply spares_bind; [eapply spares_makes, ingest_data_makes|]. intros data.
  apply spares_bind; [eapply spares_makes, feature_engineering_makes|]. intros data'.
  apply spares_bind; [eapply spares_makes, makes_print|]. intros _.
  apply spares_bind; [eapply spares_makes, makes_lift|].
  intros [[train_x train_y] test_x].
  apply spares_bind; [now apply spares_to_csv|]. intros _.
  apply spares_bind; [now apply spares_to_csv|]. intros _.
  now apply spares_to_csv.
Qed.

Lemma ends_with_submission_bind {A B : Type} (c : io A) (k : A -> io B) tail out :
  spares "data/test.csv" c ->
  (forall a, ends_with_submission (k a) tail out) ->
  ends_with_submission (io_bind c k) tail out.
Proof.
  intros Hc Hk w b w' H. apply io_bind_Ok in H as (a & w1 & H1 & H).
  destruct (Hc w) as [[t Ht] Hf]. rewrite H1 in Ht, Hf. cbn in Ht, Hf.
  destruct (Hk a w1 b w' H) as [[before Hb] (test & ids & survived & F & P & Ls & W)].
  split.
  - exists (t ++ before). rewrite Hb, Ht. now rewrite <- !app_assoc.
  - exists test, ids, survived. rewrite <- Hf. now repeat split.
Qed.

Lemma voting_then_flush_result voting_ weights out self :
  ends_with_submission
    (let! classifier := voting voting_ weights self in
     flush_result out "data/test.csv" classifier)
    [VotingClassifier_; fit_; predict_; read_csv_ "data/test.csv"; to_csv_ out false]
    out.
Proof.
  intros w u w' H. apply io_bind_Ok in H as (self' & w1 & Hv & Hflush).
  pose proof (flush_result_table out "data/test.csv" self' w1) as Hf.
  rewrite Hflush in Hf. destruct Hf as [Ht (test & ids & F & P & Ls & W)].
  assert (Hfiles : files w1 = files w).
  { unfold voting in Hv.
    apply io_bind_Ok in Hv as (classifier & w0 & Hget & Hv).
    apply get_classifier_run in Hget as (-> & _). run_ok Hv. reflexivity. }
  apply voting_run in Hv as [Htv _].
  split.
  - exists []. rewrite Ht, Htv. cbn. now rewrite <- !app_assoc.
  - exists test, ids, (result self'). rewrite <- Hfiles.
    repeat split; try assumption. rewrite W. apply lookup_insert_eq.
Qed.

Lemma custom_classifier_ends_with_submission :
  ends_with_submission custom_classifier
    [VotingClassifier_; fit_; predict_; read_csv_ "data/test.csv";
     to_csv_ "voting.csv" false]
    "voting.csv".
Proof.
  unfold custom_classifier. cbv zeta.
  apply ends_with_submission_bind; [apply spares_isfile|]. intros have_x.
  apply ends_with_submission_bind; [apply spares_isfile|]. intros have_y.
  apply ends_with_submission_bind; [apply spares_isfile|]. intros have_t.
  apply ends_with_submission_bind.
  { destruct (negb (have_x && have_y && have_t)).
    - apply pre_process_data_spares; discriminate.
    - eapply spares_makes, makes_ret. }
  intros _.
  apply ends_with_submission_bind; [eapply spares_makes, makes_read_csv|]. intros train_x.
  apply ends_with_submission_bind; [eapply spares_makes, makes_read_csv|]. intros train_y.
  apply ends_with_submission_bind; [eapply spares_makes, makes_lift|]. intros labels.
  apply ends_with_submission_bind; [eapply spares_makes, makes_read_csv|]. intros test_x.
  apply voting_then_flush_result.
Qed.

End EntryPoint.

Section WrittenLast.

Context `{L : Library}.

Import Main TitanicClassifier.

(** C6. A run of [main] reads the two CSV files, transforms the frame (the
    imputation is the library's), fits the voting classifier, lets it
    predict, and only then writes the submission: when [main] returns, the
    calls it made are exactly these, in this order, the last one writing
    Output_titanic without an index column; the table written has exactly
    the columns PassengerId (copied from the test file) and Survived, with
    one entry per record of the test file. When [main] raises, it has made
    some first few of the calls before the write and has written no file.
    [flush_result] writes a table of the same form, or nothing, and the
    entry point [custom_classifier] ends with the calls that build and fit
    the voting classifier, let it predict, read the test file and write
    voting.csv, in this order. *)
Theorem submission_is_written_last :
  (forall w,
      match main w with
      | (Ok _, w') =>
          trace w' =
          trace w ++ [read_csv_ "data/train.csv"; read_csv_ "data/test.csv";
                      MICE_complete_; print_; VotingClassifier_; fit_;
                      read_csv_ "data/test.csv"; predict_;
                      to_csv_ "Output_titanic" false]
          /\ exists test id_column survived,
               files w !! "data/test.csv" = Some test
               /\ lookup_col "PassengerId" (cols test) = Some id_column
               /\ length survived = nrows test
               /\ files w' =
                  <["Output_titanic" := submission (nrows test) id_column survived]>
                    (files w)
      | (Raise _, w') =>
          files w' = files w
          /\ exists t,
               t `prefix_of` [read_csv_ "data/train.csv"; read_csv_ "data/test.csv";
                              MICE_complete_; print_; VotingClassifier_; fit_;
                              read_csv_ "data/test.csv"; predict_]
               /\ trace w' = trace w ++ t
      end)
  /\ (forall out test_name self w,
         match flush_result out test_name self w with
         | (Ok _, w') =>
             trace w' = trace w ++ [read_csv_ test_name; to_csv_ out false]
             /\ exists test id_column,
                  files w !! test_name = Some test
                  /\ lookup_col "PassengerId" (cols test) = Some id_column
                  /\ length (result self) = nrows test
                  /\ files w' =
                     <[out := submission (nrows test) id_column (result self)]> (files w)
         | (Raise _, w') => files w' = files w
         end)
  /\ (forall w u w',
         custom_classifier w = (Ok u, w') ->
         (exists before,
             trace w' =
             trace w ++ before
                     ++ [VotingClassifier_; fit_; predict_; read_csv_ "data/test.csv";
                         to_csv_ "voting.csv" false])
         /\ exists test id_column survived,
              files w !! "data/test.csv" = Some test
              /\ lookup_col "PassengerId" (cols test) = Some id_column
              /\ length survived = nrows test
              /\ files w' !! "voting.csv"
                 = Some (submission (nrows test) id_column survived)).
Proof.
  split; [exact main_run|]. split; [exact flush_result_table|].
  exact custom_classifier_ends_with_submission.
Qed.

End WrittenLast.

Lemma submission_is_written_last_witness :
  trace (snd (Main.main (L := Toy.toy) (Toy.start 0)))
  = [read_csv_ "data/train.csv"; read_csv_ "data/test.csv"; MICE_complete_; print_;
     VotingClassifier_; fit_; read_csv_ "data/test.csv"; predict_;
     to_csv_ "Output_titanic" false]
  /\ exists survived,
       files (snd (Main.custom_classifier (L := Toy.toy) (Toy.start 0))) !! "voting.csv"
       = Some (submission 2 [Int 892; Int 893] survived)
       /\ length survived = 2%nat.
Proof.
  destruct (submission_is_written_last (L := Toy.toy)) as (Hmain & _ & Hentry).
  split.
  - specialize (Hmain (Toy.start 0)).
    assert (Hok : fst (Main.main (L := Toy.toy) (Toy.start 0)) = Ok tt)
      by (vm_compute; reflexivity).
    destruct (Main.main (L := Toy.toy) (Toy.start 0)) as [[u|e] w'];
      [|discriminate Hok].
    destruct Hmain as [Ht _]. exact Ht.
  - destruct (Hentry (Toy.start 0) tt
                (snd (Main.custom_classifier (L := Toy.toy) (Toy.start 0))))
      as (_ & test & ids & survived & Hfile & Hids & Hlen & Hout);
      [apply returned; vm_compute; reflexivity|].
    assert (Et : test = Toy.test_csv)
      by (change (files (Toy.start 0) !! "data/test.csv") with (Some Toy.test_csv) in Hfile;
          congruence).
    subst test.
    assert (Ei : ids = [Int 892; Int 893])
      by (change (lookup_col "PassengerId" (cols Toy.test_csv))
            with (Some [Int 892; Int 893]) in Hids; congruence).
    subst ids.
    exists survived. split; [exact Hout | exact Hlen].
Defined.

(* ===================================================================== *)
(** * Last names *)
(* ===================================================================== *)

Section LastName.

Import Main.

Lemma extract_lastname_cases x :
  exists last,
    extract_lastname x = Ok last
    /\ occurs "," last = false
    /\ (x = last \/ exists rest, x = last +:+ String "," rest).
Proof.
  unfold extract_lastname.
  induction x as [|c x IH]; simpl.
  - exists "". repeat split. now left.
  - destruct (Ascii.eqb_spec c ",") as [->|Hc].
    + exists "". repeat split. right. now exists x.
    + destruct IH as (last & Hlast & Hocc & Hx).
      destruct (split "," x) as [|piece pieces] eqn:E.
      { now apply split_nonempty in E. }
      unfold index in Hlast. simpl in Hlast. injection Hlast as ->.
      exists (String c last). unfold index. simpl. repeat split.
      * apply Ascii.eqb_neq in Hc. now rewrite Hc.
      * destruct Hx as [->|[rest ->]]; [now left|right].
        exists rest. now rewrite append_cons.
Qed.

(** X1. [extract_lastname] never raises, whatever the name looks like: it
    returns the text before the first comma, and the whole name when the
    name has no comma. *)
Theorem extract_lastname_total :
  (forall x,
      exists last,
        extract_lastname x = Ok last
        /\ occurs "," last = false
        /\ (x = last \/ exists rest, x = last +:+ String "," rest))
  /\ (forall last rest,
         occurs "," last = false ->
         extract_lastname (last +:+ String "," rest) = Ok last)
  /\ (forall x,
         occurs "," x = false ->
         extract_lastname x = Ok x).
Proof.
  split; [exact extract_lastname_cases|]. split.
  - intros last rest Hocc. unfold extract_lastname.
    now rewrite split_at_sep.
  - intros x Hocc. unfold extract_lastname. now rewrite split_none.
Qed.

Lemma extract_lastname_total_witness :
  extract_lastname "Braund, Mr. Owen Harris" = Ok "Braund"
  /\ extract_lastname "Braund Mr. Owen Harris" = Ok "Braund Mr. Owen Harris".
Proof.
  destruct extract_lastname_total as (_ & Hcomma & Hnone).
  split; [exact (Hcomma "Braund" " Mr. Owen Harris" eq_refl)|].
  exact (Hnone "Braund Mr. Owen Harris" eq_refl).
Defined.

End LastName.

(* ===================================================================== *)
(** * Columns of a frame after [drop] and [query] *)
(* ===================================================================== *)

Section FrameColumns.

Lemma lookup_col_filter n names cs :
  lookup_col n (filter (fun nc : string * column => str_in (fst nc) names = false) cs)
  = if str_in n names then None else lookup_col n cs.
Proof.
  induction cs as [|[m c] cs IH]; simpl.
  - now destruct (str_in n names).
  - rewrite filter_cons. simpl.
    destruct (decide (str_in m names = false)) as [Hm|Hm]; simpl.
    + rewrite IH. destruct (String.eqb_spec m n) as [->|]; [now rewrite Hm|reflexivity].
    + rewrite IH. destruct (String.eqb_spec m n) as [->|]; [|reflexivity].
      now destruct (str_in n names).
Qed.

Lemma labels_filter names cs :
  map fst (filter (fun nc : string * column => str_in (fst nc) names = false) cs)
  = filter (fun n => str_in n names = false) (map fst cs).
Proof.
  induction cs as [|[m c] cs IH]; [reflexivity|].
  simpl. rewrite !filter_cons. simpl.
  destruct (decide (str_in m names = false)); simpl; now rewrite IH.
Qed.

Lemma first_missing_None names f :
  Forall (fun n => is_Some (lookup_col n (cols f))) names -> first_missing names f = None.
Proof.
  induction 1 as [|n names [c Hc] _ IH]; simpl; [reflexivity|].
  now rewrite Hc.
Qed.

Lemma drop_ok names f :
  Forall (fun n => is_Some (lookup_col n (cols f))) names ->
  drop names f =
  Ok {| nrows := nrows f;
        cols := filter (fun nc => str_in (fst nc) names = false) (cols f) |}.
Proof. intros H. unfold drop. now rewrite first_missing_None. Qed.

Lemma first_missing_Some names f n :
  first_missing names f = Some n -> lookup_col n (cols f) = None.
Proof.
  induction names as [|m names IH]; simpl; [discriminate|].
  destruct (lookup_col m (cols f)) eqn:E; [exact IH|].
  now intros [= <-].
Qed.

Lemma wf_filter names f :
  wf f ->
  wf {| nrows := nrows f;
        cols := filter (fun nc => str_in (fst nc) names = false) (cols f) |}.
Proof.
  unfold wf. simpl. intros H. induction H as [|nc cs Hnc _ IH]; [constructor|].
  rewrite filter_cons. destruct (decide _); [constructor|]; assumption.
Qed.

Lemma filter_all {A : Type} (P : A -> Prop) `{!forall x, Decision (P x)} (l : list A) :
  Forall P l -> filter P l = l.
Proof.
  induction 1 as [|x l Hx _ IH]; [reflexivity|].
  rewrite filter_cons. destruct (decide (P x)); [now rewrite IH|contradiction].
Qed.


Lemma str_in_one n m : str_in n [m] = String.eqb n m.
Proof. unfold str_in. simpl. now rewrite orb_false_r. Qed.

End FrameColumns.

(* ===================================================================== *)
(** * Shared tickets *)
(* ===================================================================== *)

Section Tickets.

Import Main.

Lemma holders_NaN tickets : holders tickets NaN = 0%nat.
Proof.
  unfold holders. induction tickets as [|x tickets IH]; [reflexivity|].
  rewrite filter_cons. destruct (decide (cell_eqb x NaN = true)) as [H|_]; [|exact IH].
  now destruct x.
Qed.

Lemma gt_count tickets c :
  gt_num (ticket_to_count tickets c) 1 = Ok (2 <=? holders tickets c)%nat.
Proof.
  destruct c as [|z|q|s]; [now rewrite holders_NaN| | |];
    unfold ticket_to_count, holders; cbn [isnull gt_num];
    match goal with
    | |- context [length ?l] => generalize (length l)
    end; intros n; f_equal; unfold Qle_bool; cbn [Qnum Qden inject_Z];
    rewrite Z.mul_1_r;
    destruct (Nat.leb_spec 2 n), (Z.leb_spec (Z.of_nat n) (1 * 1)); simpl;
    try reflexivity; lia.
Qed.

Lemma gt_ticket_counts tickets l :
  gt (map (ticket_to_count tickets) l) 1
  = Ok (map (fun c => (2 <=? holders tickets c)%nat) l).
Proof.
  unfold gt. induction l as [|c l IH]; [reflexivity|].
  cbn [map mapM]. now rewrite IH, gt_count.
Qed.

Lemma choose_kept (p : cell -> bool) y l :
  choose (map p l) l (replicate (length (map p l)) y)
  = map (fun c => if p c then c else y) l.
Proof. induction l as [|c l IH]; [reflexivity|]. simpl. now rewrite <- IH. Qed.

Lemma ticket_counts_run data tickets :
  wf data ->
  get "Ticket" data = Ok tickets ->
  ticket_counts data
  = Ok {| nrows := nrows data;
          cols := filter (fun nc => str_in (fst nc) ["TicketCount"] = false)
                    (set_col "Ticket" (map (shared_ticket tickets) tickets)
                       (set_col "TicketCount" (map (ticket_to_count tickets) tickets)
                          (cols data))) |}.
Proof.
  intros Hwf Hget. unfold ticket_counts.
  pose proof (get_length _ _ _ Hwf Hget) as Hlen.
  unfold getattr. rewrite (proj1 (get_lookup _ _ _) Hget). cbn [bind].
  destruct (assign_ok "TicketCount" (map (ticket_to_count tickets) tickets) data)
    as [d1 Hd1]; [now rewrite length_map|].
  rewrite Hd1. cbn [bind].
  rewrite (get_assign_same _ _ _ _ Hd1). cbn [bind].
  rewrite gt_ticket_counts. cbn [bind].
  rewrite (get_assign_other _ "Ticket" _ _ _ Hd1 eq_refl), Hget. cbn [bind].
  unfold np_where. cbn [broadcast bind].
  rewrite length_map, Nat.eqb_refl. cbn [bind].
  rewrite <- (length_map (fun c => (2 <=? holders tickets c)%nat) tickets), choose_kept.
  change (map (fun c => if (2 <=? holders tickets c)%nat then c else NaN) tickets)
    with (map (shared_ticket tickets) tickets).
  pose proof (assign_nrows _ _ _ _ Hd1) as Hn1.
  destruct (assign_ok "Ticket" (map (shared_ticket tickets) tickets) d1)
    as [d2 Hd2]; [rewrite length_map; congruence|].
  rewrite Hd2. cbn [bind].
  unfold assign in Hd1, Hd2.
  destruct (_ =? nrows data)%nat; [|discriminate]. injection Hd1 as <-.
  simpl in Hd2. destruct (_ =? nrows data)%nat; [|discriminate]. injection Hd2 as <-.
  rewrite drop_ok; [reflexivity|].
  constructor; [|constructor]. simpl.
  rewrite !lookup_set_col. simpl. eauto.
Qed.

(** X2. On a frame whose tickets are text or missing, [ticket_counts]
    keeps a ticket where two or more rows of the frame hold it and blanks
    it (NaN) where only one row holds it or the ticket is missing; the
    frame keeps its rows and every other column, and the helper column
    TicketCount is gone. A frame without a Ticket column is refused with
    AttributeError, because the first access reads the column as an
    attribute. *)
Theorem ticket_counts_keeps_shared_tickets :
  (forall data tickets,
      wf data ->
      get "Ticket" data = Ok tickets ->
      Forall textual tickets ->
      exists data',
        ticket_counts data = Ok data'
        /\ nrows data' = nrows data
        /\ wf data'
        /\ get "Ticket" data' = Ok (map (shared_ticket tickets) tickets)
        /\ Forall textual (map (shared_ticket tickets) tickets)
        /\ get "TicketCount" data' = Raise (LookupFailure "TicketCount")
        /\ (forall n, n <> "Ticket" -> n <> "TicketCount" -> get n data' = get n data))
  /\ (forall data,
         lookup_col "Ticket" (cols data) = None ->
         ticket_counts data = Raise AttributeError).
Proof.
  split.
  - intros data tickets Hwf Hget Htext. eexists.
    split; [exact (ticket_counts_run data tickets Hwf Hget)|].
    split; [reflexivity|]. split.
    { apply (wf_filter ["TicketCount"]
               {| nrows := nrows data;
                  cols := set_col "Ticket" _ (set_col "TicketCount" _ (cols data)) |}).
      pose proof (get_length _ _ _ Hwf Hget) as Hlen.
      destruct (assign_ok "TicketCount" (map (ticket_to_count tickets) tickets) data)
        as [d1 Hd1]; [now rewrite length_map|].
      pose proof (assign_wf _ _ _ _ Hwf Hd1) as Hwf1.
      destruct (assign_ok "Ticket" (map (shared_ticket tickets) tickets) d1)
        as [d2 Hd2]; [rewrite length_map, (assign_nrows _ _ _ _ Hd1); congruence|].
      pose proof (assign_wf _ _ _ _ Hwf1 Hd2) as Hwf2.
      unfold assign in Hd1, Hd2.
      destruct (_ =? nrows data)%nat; [|discriminate]. injection Hd1 as <-.
      simpl in Hd2. destruct (_ =? nrows data)%nat; [|discriminate]. injection Hd2 as <-.
      exact Hwf2. }
    unfold get. cbn [cols]. rewrite !lookup_col_filter, !lookup_set_col.
    split; [reflexivity|]. split.
    { apply Forall_map. eapply Forall_impl; [exact Htext|].
      intros c Hc. simpl. unfold shared_ticket. now destruct (2 <=? holders tickets c)%nat. }
    split; [reflexivity|].
    intros n Hn Hc. rewrite lookup_col_filter, !lookup_set_col, str_in_one.
    apply String.eqb_neq in Hn, Hc. now rewrite Hn, Hc.
  - intros data Hnone. unfold ticket_counts, getattr. now rewrite Hnone.
Qed.

Lemma ticket_counts_keeps_shared_tickets_witness :
  let data :=
    {| nrows := 4;
       cols := [("Ticket", [Str "PC 17599"; Str "A/5 21171"; NaN; Str "PC 17599"]);
                ("Fare", [Int 71; Int 7; Int 8; Int 71])] |} in
  (exists data',
      ticket_counts data = Ok data'
      /\ get "Ticket" data' = Ok [Str "PC 17599"; NaN; NaN; Str "PC 17599"]
      /\ get "Fare" data' = Ok [Int 71; Int 7; Int 8; Int 71])
  /\ ticket_counts {| nrows := 1; cols := [("Fare", [Int 7])] |}
     = Raise AttributeError.
Proof.
  intros data. destruct ticket_counts_keeps_shared_tickets as [Hshared Hmissing].
  split; [|exact (Hmissing {| nrows := 1; cols := [("Fare", [Int 7])] |} eq_refl)].
  destruct (Hshared data [Str "PC 17599"; Str "A/5 21171"; NaN; Str "PC 17599"])
    as (data' & Hrun & _ & _ & Hticket & _ & _ & Hother).
  - repeat constructor.
  - reflexivity.
  - repeat constructor.
  - exists data'. split; [exact Hrun|]. split; [exact Hticket|].
    now rewrite Hother.
Defined.

End Tickets.

(* ===================================================================== *)
(** * Dummy columns and their [nan] column *)
(* ===================================================================== *)

Section DummyNans.

Import Main.

Lemma foldM_app {A S : Type} (body : A -> S -> outcome S) l1 l2 s :
  foldM body (l1 ++ l2) s = bind (foldM body l1 s) (foldM body l2).
Proof.
  revert s. induction l1 as [|x l1 IH]; intros s; simpl; [reflexivity|].
  destruct (body x s); [apply IH|reflexivity].
Qed.

Lemma prefix_append p s : String.prefix p (p +:+ s) = true.
Proof.
  induction p as [|c p IH]; [now destruct s|].
  rewrite append_cons. simpl. destruct (ascii_dec c c); [exact IH|contradiction].
Qed.

Lemma contains_append p s : contains p (p +:+ s) = true.
Proof.
  pose proof (prefix_append p s) as H.
  destruct (p +:+ s); cbn [contains]; now rewrite H.
Qed.

Lemma lookup_col_labels n cs : is_Some (lookup_col n cs) <-> n ∈ map fst cs.
Proof.
  induction cs as [|[m c] cs IH]; simpl.
  - split; [intros [? [=]]|intros H; inversion H].
  - rewrite elem_of_cons. destruct (String.eqb_spec m n) as [->|Hne].
    + split; eauto.
    + rewrite IH. split; [now right|intros [->|]]; [easy|assumption].
Qed.

Lemma str_in_elem_of n l : str_in n l = true <-> n ∈ l.
Proof. rewrite str_in_In. symmetry. apply list_elem_of_In. Qed.

Lemma set_col_same n c cs : lookup_col n cs = Some c -> set_col n c cs = cs.
Proof.
  induction cs as [|[m d] cs IH]; simpl; [discriminate|].
  destruct (String.eqb_spec m n) as [->|]; [now intros [= ->]|].
  intros H. now rewrite IH.
Qed.

Lemma choose_blanked is_nan current :
  choose (map (fun c => eq_num c 1) is_nan)
         (replicate (length (map (fun c => eq_num c 1) is_nan)) NaN) current
  = blanked is_nan current.
Proof.
  revert current. induction is_nan as [|n is_nan IH]; intros [|c current]; simpl;
    try reflexivity.
  now rewrite IH.
Qed.

Lemma blanked_length is_nan c :
  length c = length is_nan -> length (blanked is_nan c) = length is_nan.
Proof. intros H. unfold blanked. rewrite length_zip_with. lia. Qed.

Lemma blanked_again is_nan c : blanked is_nan (blanked is_nan c) = blanked is_nan c.
Proof.
  revert c. induction is_nan as [|n is_nan IH]; intros [|c cs]; try reflexivity.
  unfold blanked in *. simpl. rewrite IH. now destruct (eq_num n 1).
Qed.

Lemma blanked_no_ones v c :
  length c = length v -> Forall (fun n => eq_num n 1 = false) v -> blanked v c = c.
Proof.
  intros Hlen Hv. revert c Hlen.
  induction Hv as [|n v Hn _ IH]; intros [|c cs] Hlen; try discriminate; [reflexivity|].
  unfold blanked in *. simpl. rewrite Hn, IH; [reflexivity|]. simpl in Hlen. lia.
Qed.

Lemma blanked_self_no_ones is_nan :
  Forall (fun n => eq_num n 1 = false) (blanked is_nan is_nan).
Proof.
  unfold blanked. induction is_nan as [|n is_nan IH]; simpl; constructor; [|exact IH].
  destruct (eq_num n 1) eqn:E; [reflexivity|exact E].
Qed.

(** One round of the loop on a well-formed frame. *)
Lemma blank_step nan d f is_nan c :
  wf f ->
  lookup_col nan (cols f) = Some is_nan ->
  lookup_col d (cols f) = Some c ->
  (let* is_nan := get nan f in
   let* current := get d f in
   let* v := np_where (map (fun c => eq_num c 1) is_nan) (Scalar NaN) (Array current) in
   assign d v f)
  = Ok {| nrows := nrows f; cols := set_col d (blanked is_nan c) (cols f) |}.
Proof.
  intros Hwf Hnan Hd.
  pose proof (lookup_col_wf _ _ _ Hwf Hnan) as Hlen_nan.
  pose proof (lookup_col_wf _ _ _ Hwf Hd) as Hlen_d.
  unfold get. rewrite Hnan, Hd. cbn [bind].
  unfold np_where. cbn [broadcast bind].
  replace (length c =? length (map (fun c => eq_num c 1) is_nan))%nat with true
    by (symmetry; apply Nat.eqb_eq; rewrite length_map; congruence).
  cbn [bind]. rewrite choose_blanked.
  unfold assign. rewrite blanked_length by congruence.
  now rewrite Hlen_nan, Nat.eqb_refl.
Qed.

Lemma wf_set_col d v f :
  wf f -> length v = nrows f ->
  wf {| nrows := nrows f; cols := set_col d v (cols f) |}.
Proof.
  intros Hwf Hv. apply (assign_wf d v f); [exact Hwf|].
  unfold assign. now rewrite Hv, Nat.eqb_refl.
Qed.

Lemma labels_set_col_present d v cs :
  is_Some (lookup_col d cs) -> map fst (set_col d v cs) = map fst cs.
Proof.
  intros H. rewrite labels_set_col.
  apply lookup_col_labels, str_in_elem_of in H. now rewrite H.
Qed.

(** The rounds for the labels [l], none of them the [nan] label: the
    columns of [l] are blanked, the others stay. *)
Lemma blank_loop (body : string -> frame -> outcome frame) nan is_nan :
  (forall d f,
      body d f =
      let* is_nan := get nan f in
      let* current := get d f in
      let* v := np_where (map (fun c => eq_num c 1) is_nan) (Scalar NaN) (Array current) in
      assign d v f) ->
  forall l f,
    wf f ->
    lookup_col nan (cols f) = Some is_nan ->
    nan ∉ l ->
    Forall (fun d => is_Some (lookup_col d (cols f))) l ->
    exists f',
      foldM body l f = Ok f'
      /\ wf f'
      /\ nrows f' = nrows f
      /\ map fst (cols f') = map fst (cols f)
      /\ forall n c,
           lookup_col n (cols f) = Some c ->
           lookup_col n (cols f')
           = Some (if bool_decide (n ∈ l) then blanked is_nan c else c).
Proof.
  intros Hbody l. induction l as [|d l IH]; intros f Hwf Hnan Hnot Hl.
  - exists f. simpl. repeat split; auto.
  - apply Forall_cons in Hl as [[c Hd] Hl].
    apply not_elem_of_cons in Hnot as [Hne Hnot].
    cbn [foldM]. rewrite Hbody, (blank_step nan d f is_nan c Hwf Hnan Hd).
    set (f1 := {| nrows := nrows f; cols := set_col d (blanked is_nan c) (cols f) |}).
    assert (Hlook : forall n, lookup_col n (cols f1)
                              = if String.eqb n d then Some (blanked is_nan c)
                                else lookup_col n (cols f)).
    { intros n. apply lookup_set_col. }
    destruct (IH f1) as (f' & Hrun & Hwf' & Hrows & Hlabels & Hcols).
    + apply wf_set_col; [exact Hwf|].
      pose proof (lookup_col_wf _ _ _ Hwf Hd). pose proof (lookup_col_wf _ _ _ Hwf Hnan).
      simpl. rewrite blanked_length; congruence.
    + rewrite Hlook. apply String.eqb_neq in Hne. now rewrite Hne.
    + exact Hnot.
    + eapply Forall_impl; [exact Hl|]. intros n Hn. simpl in Hn. rewrite Hlook.
      now destruct (String.eqb n d).
    + exists f'. split; [exact Hrun|]. split; [exact Hwf'|]. split; [exact Hrows|].
      split.
      { rewrite Hlabels. apply labels_set_col_present. eauto. }
      intros n c0 Hn. specialize (Hlook n).
      destruct (String.eqb_spec n d) as [Heq|Hnd]; [subst n|].
      * rewrite (Hcols _ _ Hlook). rewrite Hd in Hn. injection Hn as <-.
        rewrite (bool_decide_eq_true_2 (d ∈ d :: l)) by (apply elem_of_cons; now left).
        destruct (bool_decide (d ∈ l)); [now rewrite blanked_again|reflexivity].
      * rewrite Hn in Hlook. rewrite (Hcols _ _ Hlook).
        rewrite (bool_decide_ext (n ∈ d :: l) (n ∈ l)); [reflexivity|].
        rewrite elem_of_cons. tauto.
Qed.

(** The rounds after the [nan] column has lost its ones change nothing. *)
Lemma idle_loop (body : string -> frame -> outcome frame) nan v :
  (forall d f,
      body d f =
      let* is_nan := get nan f in
      let* current := get d f in
      let* v := np_where (map (fun c => eq_num c 1) is_nan) (Scalar NaN) (Array current) in
      assign d v f) ->
  Forall (fun n => eq_num n 1 = false) v ->
  forall l f,
    wf f ->
    lookup_col nan (cols f) = Some v ->
    Forall (fun d => is_Some (lookup_col d (cols f))) l ->
    foldM body l f = Ok f.
Proof.
  intros Hbody Hv l f Hwf Hnan Hl. induction Hl as [|d l [c Hd] _ IH]; [reflexivity|].
  cbn [foldM]. rewrite Hbody, (blank_step nan d f v c Hwf Hnan Hd).
  rewrite blanked_no_ones; [|now rewrite (lookup_col_wf _ _ _ Hwf Hd),
                                          (lookup_col_wf _ _ _ Hwf Hnan)|exact Hv].
  rewrite (set_col_same _ _ _ Hd).
  destruct f as [n cs]. exact IH.
Qed.

Lemma filter_labels_present (P : string -> Prop) `{!forall n, Decision (P n)} l cs :
  Forall (fun d => is_Some (lookup_col d cs)) l ->
  Forall (fun d => is_Some (lookup_col d cs)) (filter P l).
Proof.
  intros Hl. apply Forall_forall. intros d Hd%list_elem_of_filter.
  rewrite Forall_forall in Hl. now apply Hl.
Qed.

Lemma create_dummy_nans_run col_name data front back is_nan :
  wf data ->
  labels data = front ++ (col_name +:+ "nan") :: back ->
  (col_name +:+ "nan") ∉ front ->
  get (col_name +:+ "nan") data = Ok is_nan ->
  exists data',
    create_dummy_nans col_name data = Ok data'
    /\ wf data'
    /\ nrows data' = nrows data
    /\ labels data' = front ++ filter (fun n => str_in n [col_name +:+ "nan"] = false) back
    /\ forall n c,
         n <> col_name +:+ "nan" ->
         get n data = Ok c ->
         get n data'
         = Ok (if contains col_name n && bool_decide (n ∈ front)
               then blanked is_nan c else c).
Proof.
  intros Hwf Hlabels Hfront Hnan.
  set (nan := col_name +:+ "nan") in *.
  apply get_lookup in Hnan.
  unfold create_dummy_nans. fold nan. rewrite Hlabels.
  assert (Hall : Forall (fun d => is_Some (lookup_col d (cols data)))
                        (front ++ nan :: back)).
  { rewrite <- Hlabels. apply Forall_forall. intros d Hd.
    now apply lookup_col_labels. }
  rewrite filter_app, filter_cons.
  destruct (decide (contains col_name nan = true)) as [_|Hno];
    [|exfalso; apply Hno; apply contains_append].
  match goal with
  | |- context [foldM ?b _ _] => set (body := b)
  end.
  assert (Hbody : forall d f,
             body d f =
             let* is_nan := get nan f in
             let* current := get d f in
             let* v := np_where (map (fun c => eq_num c 1) is_nan) (Scalar NaN)
                                (Array current) in
             assign d v f) by reflexivity.
  clearbody body.
  apply Forall_app in Hall as [Hall_front Hall_back].
  apply Forall_cons in Hall_back as [_ Hall_back].
  set (P := fun col : string => contains col_name col = true).
  destruct (blank_loop body nan is_nan Hbody (filter P front) data Hwf Hnan)
    as (f1 & Hrun1 & Hwf1 & Hrows1 & Hlabels1 & Hcols1).
  { intros Hin%list_elem_of_filter. now apply Hfront. }
  { now apply filter_labels_present. }
  rewrite foldM_app, Hrun1. cbn [bind foldM].
  pose proof (Hcols1 _ _ Hnan) as Hnan1.
  rewrite bool_decide_eq_false_2 in Hnan1
    by (intros Hin%list_elem_of_filter; now apply Hfront).
  rewrite Hbody, (blank_step nan nan f1 is_nan is_nan Hwf1 Hnan1 Hnan1).
  set (v := blanked is_nan is_nan).
  set (f2 := {| nrows := nrows f1; cols := set_col nan v (cols f1) |}).
  assert (Hlen : length v = nrows f1).
  { unfold v. rewrite blanked_length; [|reflexivity].
    exact (lookup_col_wf _ _ _ Hwf1 Hnan1). }
  assert (Hwf2 : wf f2) by now apply wf_set_col.
  assert (Hlook2 : forall n, lookup_col n (cols f2)
                             = if String.eqb n nan then Some v else lookup_col n (cols f1)).
  { intros n. apply lookup_set_col. }
  assert (Hpresent : forall d, is_Some (lookup_col d (cols data)) ->
                               is_Some (lookup_col d (cols f2))).
  { intros d [c Hd]. rewrite Hlook2. destruct (String.eqb d nan); [eauto|].
    rewrite (Hcols1 _ _ Hd). eauto. }
  rewrite (idle_loop body nan v Hbody (blanked_self_no_ones is_nan) _ f2 Hwf2).
  2: { rewrite Hlook2. now rewrite String.eqb_refl. }
  2: { apply filter_labels_present. eapply Forall_impl; [exact Hall_back|].
       intros d Hd. now apply Hpresent. }
  cbn [bind]. rewrite drop_ok.
  2: { constructor; [|constructor]. rewrite Hlook2, String.eqb_refl. eauto. }
  eexists. split; [reflexivity|]. split; [now apply wf_filter|].
  split; [exact Hrows1|]. split.
  - unfold labels. cbn [cols]. rewrite labels_filter.
    unfold f2. cbn [cols]. rewrite labels_set_col_present by eauto.
    rewrite Hlabels1. fold (labels data). rewrite Hlabels.
    rewrite filter_app, filter_cons.
    destruct (decide (str_in nan [nan] = false)) as [Habs|_].
    { rewrite str_in_one, String.eqb_refl in Habs. discriminate. }
    f_equal. apply filter_all, Forall_forall. intros n Hn.
    rewrite str_in_one. apply String.eqb_neq. now intros ->.
  - intros n c Hne Hget. apply get_lookup in Hget.
    unfold get. cbn [cols]. rewrite lookup_col_filter, str_in_one.
    apply String.eqb_neq in Hne. rewrite Hne, Hlook2, Hne, (Hcols1 _ _ Hget).
    unfold P.
    destruct (contains col_name n) eqn:Hc; cbn [andb].
    + rewrite (bool_decide_ext (n ∈ filter (fun col => contains col_name col = true) front)
                               (n ∈ front)); [reflexivity|].
      rewrite list_elem_of_filter. tauto.
    + rewrite bool_decide_eq_false_2; [reflexivity|].
      intros Hin%list_elem_of_filter. destruct Hin. congruence.
Qed.

Lemma create_dummy_nans_missing col_name data :
  lookup_col (col_name +:+ "nan") (cols data) = None ->
  create_dummy_nans col_name data = Raise (LookupFailure (col_name +:+ "nan")).
Proof.
  intros Hnone. unfold create_dummy_nans.
  destruct (filter _ (labels data)) as [|d l]; simpl.
  - unfold drop. simpl. now rewrite Hnone.
  - unfold get at 1. now rewrite Hnone.
Qed.

(** X3. [create_dummy_nans] blanks (NaN) every dummy column whose label
    contains [col_name] and stands before the [col_name + 'nan'] column, in
    the rows that column marks with a 1, and then drops that column; rows
    and all other columns stay. A column whose label contains [col_name]
    but stands after the [nan] column is NOT blanked: by the time the loop
    reaches it the [nan] column has lost its ones. A frame that has no
    [col_name + 'nan'] column is refused. *)
Theorem create_dummy_nans_blanks_the_columns_before_nan :
  (forall col_name data front back is_nan,
      wf data ->
      labels data = front ++ (col_name +:+ "nan") :: back ->
      (col_name +:+ "nan") ∉ front ->
      get (col_name +:+ "nan") data = Ok is_nan ->
      exists data',
        create_dummy_nans col_name data = Ok data'
        /\ wf data'
        /\ nrows data' = nrows data
        /\ labels data'
           = front ++ filter (fun n => str_in n [col_name +:+ "nan"] = false) back
        /\ forall n c,
             n <> col_name +:+ "nan" ->
             get n data = Ok c ->
             get n data'
             = Ok (if contains col_name n && bool_decide (n ∈ front)
                   then blanked is_nan c else c))
  /\ (forall col_name data,
         lookup_col (col_name +:+ "nan") (cols data) = None ->
         create_dummy_nans col_name data = Raise (LookupFailure (col_name +:+ "nan"))).
Proof.
  split.
  - exact create_dummy_nans_run.
  - exact create_dummy_nans_missing.
Qed.

Lemma create_dummy_nans_blanks_the_columns_before_nan_witness :
  let data :=
    {| nrows := 3;
       cols := [("Fare", [Int 7; Int 71; Int 8]);
                ("Deck_C", [Int 0; Int 1; Int 0]);
                ("Deck_nan", [Int 1; Int 0; Int 1]);
                ("Deck_E", [Int 0; Int 0; Int 0])] |} in
  (exists data',
      create_dummy_nans "Deck_" data = Ok data'
      /\ labels data' = ["Fare"; "Deck_C"; "Deck_E"]
      /\ get "Fare" data' = Ok [Int 7; Int 71; Int 8]
      /\ get "Deck_C" data' = Ok [NaN; Int 1; NaN]
      /\ get "Deck_E" data' = Ok [Int 0; Int 0; Int 0])
  /\ create_dummy_nans "Embarked_" data = Raise (LookupFailure "Embarked_nan").
Proof.
  intros data.
  destruct create_dummy_nans_blanks_the_columns_before_nan as [Hblanks Hmissing].
  split; [|exact (Hmissing "Embarked_" data eq_refl)].
  destruct (Hblanks "Deck_" data ["Fare"; "Deck_C"] ["Deck_E"] [Int 1; Int 0; Int 1])
    as (data' & Hrun & _ & _ & Hlabels & Hcols).
  - repeat constructor.
  - reflexivity.
  - intros Hin. apply list_elem_of_In in Hin. simpl in Hin.
    destruct Hin as [H|[H|[]]]; discriminate H.
  - reflexivity.
  - exists data'. split; [exact Hrun|]. split; [exact Hlabels|].
    split; [exact (Hcols "Fare" _ ltac:(discriminate) eq_refl)|].
    split; [exact (Hcols "Deck_C" _ ltac:(discriminate) eq_refl)|].
    exact (Hcols "Deck_E" _ ltac:(discriminate) eq_refl).
Defined.

End DummyNans.

(* ===================================================================== *)
(** * A frame without rows *)
(* ===================================================================== *)

(** Read the column of a frame built by assignments to known labels. *)
Ltac look :=
  unfold get at 1; cbn [cols]; rewrite ?lookup_set_col;
  repeat match goal with
         | |- context [String.eqb ?a ?b] =>
             let v := eval vm_compute in (String.eqb a b) in
             change (String.eqb a b) with v
         end;
  cbv iota.

Section EmptyFrame.

Context `{L : Library}.

Import Main.

Lemma derive_features_no_rows cs :
  lookup_col "Name" cs = Some [] ->
  lookup_col "SibSp" cs = Some [] ->
  lookup_col "Parch" cs = Some [] ->
  lookup_col "Cabin" cs = Some [] ->
  derive_features {| nrows := 0; cols := cs |} = Raise ValueError.
Proof.
  intros Hname Hsibsp Hparch Hcabin. unfold derive_features.
  look. rewrite Hname. cbn [bind map_str mapM].
  unfold assign at 1. cbn [length nrows Nat.eqb bind].
  look. rewrite Hname. cbn [bind map_str mapM].
  unfold assign at 1. cbn [length nrows Nat.eqb bind].
  look. rewrite Hsibsp. cbn [bind].
  look. rewrite Hparch. cbn [bind add_cols add_scalar mapM].
  unfold assign at 1. cbn [length nrows Nat.eqb bind].
  look. cbn [bind]. look. cbn [bind family_names].
  unfold assign at 1. cbn [length nrows Nat.eqb bind].
  look. rewrite Hcabin. cbn [bind].
  reflexivity.
Qed.

Lemma no_rows f name c : wf f -> nrows f = 0%nat -> get name f = Ok c -> c = [].
Proof.
  intros Hwf Hn Hget. apply (get_length _ _ _ Hwf) in Hget.
  rewrite Hn in Hget. now destruct c.
Qed.

(** X4. A frame without rows cannot be transformed: [feature_engineering]
    raises ValueError on every frame of zero rows that has the columns
    Name, SibSp, Parch and Cabin, because [np.vectorize] (behind
    [first_letter]) refuses an input of size 0. The imputation is never
    reached and nothing is written. *)
Theorem feature_engineering_refuses_an_empty_frame data name sibsp parch cabin w :
  wf data ->
  nrows data = 0%nat ->
  get "Name" data = Ok name ->
  get "SibSp" data = Ok sibsp ->
  get "Parch" data = Ok parch ->
  get "Cabin" data = Ok cabin ->
  first_letter (fillna (Str "z") cabin) = Raise ValueError
  /\ feature_engineering data w = (Raise ValueError, w).
Proof.
  intros Hwf Hn Hname Hsibsp Hparch Hcabin.
  pose proof (no_rows _ _ _ Hwf Hn Hname) as ->.
  pose proof (no_rows _ _ _ Hwf Hn Hsibsp) as ->.
  pose proof (no_rows _ _ _ Hwf Hn Hparch) as ->.
  pose proof (no_rows _ _ _ Hwf Hn Hcabin) as ->.
  split; [reflexivity|].
  apply get_lookup in Hname, Hsibsp, Hparch, Hcabin.
  destruct data as [n cs]. simpl in Hn. subst n. simpl in *.
  unfold feature_engineering, io_bind, lift.
  now rewrite derive_features_no_rows.
Qed.

End EmptyFrame.

Lemma feature_engineering_refuses_an_empty_frame_witness :
  let data :=
    {| nrows := 0;
       cols := [("PassengerId", []); ("Survived", []); ("Pclass", []); ("Name", []);
                ("Sex", []); ("Age", []); ("SibSp", []); ("Parch", []); ("Ticket", []);
                ("Fare", []); ("Cabin", []); ("Embarked", []); ("Train", [])] |} in
  Main.feature_engineering (L := Toy.toy) data (Toy.start 0)
  = (Raise ValueError, Toy.start 0).
Proof.
  intros data.
  refine (proj2 (feature_engineering_refuses_an_empty_frame (L := Toy.toy)
                   data [] [] [] [] (Toy.start 0) _ eq_refl eq_refl eq_refl eq_refl eq_refl)).
  repeat constructor.
Defined.

(* ===================================================================== *)
(** * Stacking the two files and splitting them again *)
(* ===================================================================== *)

Section Stacking.

Lemma lookup_col_map (h : string -> column -> column) n cs :
  lookup_col n (map (fun nc => (fst nc, h (fst nc) (snd nc))) cs)
  = option_map (h n) (lookup_col n cs).
Proof.
  induction cs as [|[m c] cs IH]; [reflexivity|]. simpl.
  destruct (String.eqb_spec m n) as [->|]; [reflexivity|exact IH].
Qed.

Lemma lookup_col_tabulate (g : string -> column) n names :
  lookup_col n (map (fun m => (m, g m)) names)
  = if str_in n names then Some (g n) else None.
Proof.
  induction names as [|m names IH]; [reflexivity|]. simpl.
  rewrite String.eqb_sym.
  destruct (String.eqb_spec n m) as [->|]; [reflexivity|exact IH].
Qed.

Lemma select_ok names f :
  Forall (fun n => is_Some (lookup_col n (cols f))) names ->
  select names f
  = Ok {| nrows := nrows f;
          cols := map (fun n => (n, default [] (lookup_col n (cols f)))) names |}.
Proof.
  intros H. unfold select.
  replace (mapM (fun n => let* c := get n f in Ok (n, c)) names)
    with (Ok (map (fun n => (n, default [] (lookup_col n (cols f)))) names));
    [reflexivity|].
  induction H as [|n names [c Hc] _ IH]; [reflexivity|].
  cbn [mapM map]. unfold get at 1. rewrite Hc, <- IH. reflexivity.
Qed.

Lemma select_missing names f :
  ~ Forall (fun n => is_Some (lookup_col n (cols f))) names ->
  exists n, select names f = Raise (LookupFailure n)
            /\ n ∈ names /\ lookup_col n (cols f) = None.
Proof.
  unfold select. induction names as [|m names IH]; intros H.
  - destruct H. constructor.
  - cbn [mapM]. unfold get at 1. destruct (lookup_col m (cols f)) as [c|] eqn:E.
    + destruct IH as (n & Hn & Hin & Hnone).
      { intros Hall. apply H. constructor; [rewrite E; eauto|exact Hall]. }
      exists n. cbn [bind]. split; [|split; [now apply elem_of_cons; right|exact Hnone]].
      destruct (mapM _ names); [discriminate|]. simpl in Hn. exact Hn.
    + exists m. repeat split; [apply elem_of_cons; now left|exact E].
Qed.

Lemma keep_app {A : Type} (m1 m2 : list bool) (a b : list A) :
  length a = length m1 ->
  keep (m1 ++ m2) (a ++ b) = keep m1 a ++ keep m2 b.
Proof.
  revert a. induction m1 as [|m m1 IH]; intros [|x a] Hlen; try discriminate.
  - simpl. reflexivity.
  - simpl. injection Hlen as Hlen. rewrite IH by exact Hlen. now destruct m.
Qed.

Lemma keep_all {A : Type} (a : list A) : keep (replicate (length a) true) a = a.
Proof. induction a as [|x a IH]; [reflexivity|]. simpl. now rewrite IH. Qed.

Lemma keep_none {A : Type} n (a : list A) : keep (replicate n false) a = [].
Proof.
  revert a. induction n as [|n IH]; intros [|x a]; try reflexivity. simpl. apply IH.
Qed.

Lemma count_true_app m1 m2 : count_true (m1 ++ m2) = (count_true m1 + count_true m2)%nat.
Proof. unfold count_true. now rewrite filter_app, length_app. Qed.

Lemma count_true_replicate n b : count_true (replicate n b) = if b then n else 0%nat.
Proof.
  unfold count_true. induction n as [|n IH]; [now destruct b|].
  simpl. rewrite filter_cons. destruct b; simpl.
  - destruct (decide (true = true)); [simpl; now rewrite IH|contradiction].
  - destruct (decide (false = true)); [discriminate|exact IH].
Qed.

Lemma keep_length {A : Type} (mask : list bool) (a : list A) :
  length a = length mask -> length (keep mask a) = count_true mask.
Proof.
  unfold count_true. revert a.
  induction mask as [|m mask IH]; intros [|x a] Hlen; try discriminate; [reflexivity|].
  injection Hlen as Hlen. simpl. rewrite filter_cons.
  destruct m; simpl.
  - destruct (decide (true = true)); [simpl; now rewrite IH|contradiction].
  - destruct (decide (false = true)); [discriminate|now apply IH].
Qed.

End Stacking.

Section IngestData.

Context `{L : Library}.

Import Main.

Lemma wf_assign_scalar name c f : wf f -> wf (assign_scalar name c f).
Proof.
  intros Hwf. apply (assign_wf name (replicate (nrows f) c) f); [exact Hwf|].
  unfold assign, assign_scalar. now rewrite length_replicate, Nat.eqb_refl.
Qed.

(** Every label of the marked training file is a label of the marked test
    file when the test file has the training file's feature columns. *)
Lemma marked_labels_present train test :
  Forall (fun n => n ∈ ["Survived"; "Train"] \/ is_Some (lookup_col n (cols test)))
         (labels train) ->
  Forall (fun n => is_Some (lookup_col n
                      (cols (assign_scalar "Survived" (Int (-999))
                               (assign_scalar "Train" (Int 0) test)))))
         (labels (assign_scalar "Train" (Int 1) train)).
Proof.
  intros Hlabels.
  unfold labels, assign_scalar. cbn [cols nrows]. rewrite labels_set_col.
  assert (Hfront :
    Forall (fun n => is_Some (lookup_col n
              (set_col "Survived" (replicate (nrows test) (Int (-999)))
                 (set_col "Train" (replicate (nrows test) (Int 0)) (cols test)))))
           (map fst (cols train))).
  { eapply Forall_impl; [exact Hlabels|]. intros n Hn. simpl in Hn.
    rewrite !lookup_set_col.
    destruct (String.eqb_spec n "Survived") as [|Hs]; [eauto|].
    destruct (String.eqb_spec n "Train") as [|Ht]; [eauto|].
    destruct Hn as [Hn|Hn]; [|exact Hn].
    apply list_elem_of_In in Hn. simpl in Hn.
    destruct Hn as [Hn|[Hn|[]]]; congruence. }
  destruct (str_in "Train" (map fst (cols train))); [exact Hfront|].
  apply Forall_app. split; [exact Hfront|]. constructor; [|constructor].
  rewrite !lookup_set_col. simpl. eauto.
Qed.

(** The frame [ingest_data] returns for a training file [train] and a test
    file [test]. *)
Lemma ingest_data_run w train test :
  files w !! "data/train.csv" = Some train ->
  files w !! "data/test.csv" = Some test ->
  Forall (fun n => n ∈ ["Survived"; "Train"] \/ is_Some (lookup_col n (cols test)))
         (labels train) ->
  let marked := assign_scalar "Train" (Int 1) train in
  let below := assign_scalar "Survived" (Int (-999)) (assign_scalar "Train" (Int 0) test) in
  ingest_data w
  = (Ok {| nrows := nrows train + nrows test;
           cols := map (fun nc => (fst nc, snd nc ++ default [] (lookup_col (fst nc) (cols below))))
                       (cols marked) |},
     called (read_csv_ "data/test.csv") (called (read_csv_ "data/train.csv") w)).
Proof.
  intros Htrain Htest Hlabels marked below.
  unfold ingest_data, read_csv.
  unfold io_bind at 1. unfold io_bind at 1. rewrite emit_run. cbn [files called].
  rewrite Htrain.
  unfold io_bind at 1. unfold io_bind at 1. rewrite emit_run. cbn [files called].
  rewrite Htest.
  unfold io_bind at 1. unfold lift.
  rewrite (select_ok _ _ (marked_labels_present train test Hlabels)).
  fold marked. fold below.
  unfold io_ret, concat. cbn [nrows cols fst snd].
  f_equal. f_equal. f_equal.
  apply map_ext_in. intros [n c] Hin. cbn [fst snd]. do 2 f_equal.
  rewrite lookup_col_tabulate.
  replace (str_in n (labels marked)) with true; [reflexivity|].
  symmetry. apply str_in_In. apply in_map_iff. now exists (n, c).
Qed.

Lemma ingest_data_columns train test :
  let marked := assign_scalar "Train" (Int 1) train in
  let below := assign_scalar "Survived" (Int (-999)) (assign_scalar "Train" (Int 0) test) in
  let data :=
    {| nrows := nrows train + nrows test;
       cols := map (fun nc => (fst nc, snd nc ++ default [] (lookup_col (fst nc) (cols below))))
                   (cols marked) |} in
  get "Train" data = Ok (replicate (nrows train) (Int 1) ++ replicate (nrows test) (Int 0))
  /\ (forall a,
         get "Survived" train = Ok a ->
         get "Survived" data = Ok (a ++ replicate (nrows test) (Int (-999))))
  /\ (forall n a b,
         n <> "Train" -> n <> "Survived" ->
         get n train = Ok a -> get n test = Ok b -> get n data = Ok (a ++ b)).
Proof.
  intros marked below data.
  assert (Hget : forall n, lookup_col n (cols data)
                           = option_map (fun c => c ++ default [] (lookup_col n (cols below)))
                                        (lookup_col n (cols marked))).
  { intros n. exact (lookup_col_map (fun m c => c ++ default [] (lookup_col m (cols below)))
                                    n (cols marked)). }
  unfold get. split; [|split].
  - rewrite Hget. unfold marked, below, assign_scalar. cbn [cols nrows].
    rewrite !lookup_set_col. reflexivity.
  - intros a Ha. apply get_lookup in Ha. rewrite Hget.
    unfold marked, below, assign_scalar. cbn [cols nrows].
    rewrite !lookup_set_col. cbn. now rewrite Ha.
  - intros n a b Ht Hs Ha Hb. apply get_lookup in Ha, Hb. rewrite Hget.
    unfold marked, below, assign_scalar. cbn [cols nrows].
    rewrite !lookup_set_col. apply String.eqb_neq in Ht, Hs.
    now rewrite Ht, Hs, Ha, Hb.
Qed.

Lemma ingest_data_wf train test :
  wf train -> wf test ->
  Forall (fun n => n ∈ ["Survived"; "Train"] \/ is_Some (lookup_col n (cols test)))
         (labels train) ->
  let marked := assign_scalar "Train" (Int 1) train in
  let below := assign_scalar "Survived" (Int (-999)) (assign_scalar "Train" (Int 0) test) in
  wf {| nrows := nrows train + nrows test;
        cols := map (fun nc => (fst nc, snd nc ++ default [] (lookup_col (fst nc) (cols below))))
                    (cols marked) |}.
Proof.
  intros Hwf1 Hwf2 Hlabels marked below.
  pose proof (marked_labels_present train test Hlabels) as Hall. fold marked below in Hall.
  assert (Hm : wf marked) by now apply wf_assign_scalar.
  assert (Hb : wf below) by now do 2 apply wf_assign_scalar.
  unfold wf. cbn [cols nrows]. apply Forall_map, Forall_forall. intros [n c] Hin.
  cbn [fst snd]. rewrite length_app.
  unfold wf in Hm. rewrite Forall_forall in Hm. specialize (Hm _ Hin). simpl in Hm.
  rewrite Forall_forall in Hall.
  destruct (Hall n) as [b Hb'].
  { apply list_elem_of_fmap. now exists (n, c). }
  rewrite Hb'. simpl. rewrite (lookup_col_wf _ _ _ Hb Hb'). rewrite Hm. reflexivity.
Qed.

(** X5. [ingest_data] stacks the test file under the training file: the
    frame has the rows of both and the training file's columns (plus
    Train), Train is 1 for the training rows and 0 for the test rows, the
    test rows get the placeholder -999 as Survived, and every other column
    is the training column followed by the test column of the same label.
    A missing file raises FileNotFoundError for that file (the test file is
    not read when the training file is missing), and a feature column of
    the training file that the test file lacks raises the lookup error. *)
Theorem ingest_data_stacks_train_over_test :
  (forall w train test,
      files w !! "data/train.csv" = Some train ->
      files w !! "data/test.csv" = Some test ->
      Forall (fun n => n ∈ ["Survived"; "Train"] \/ is_Some (lookup_col n (cols test)))
             (labels train) ->
      exists data,
        ingest_data w
        = (Ok data, called (read_csv_ "data/test.csv") (called (read_csv_ "data/train.csv") w))
        /\ nrows data = (nrows train + nrows test)%nat
        /\ labels data
           = (if str_in "Train" (labels train) then labels train
              else labels train ++ ["Train"])
        /\ get "Train" data
           = Ok (replicate (nrows train) (Int 1) ++ replicate (nrows test) (Int 0))
        /\ (forall a,
               get "Survived" train = Ok a ->
               get "Survived" data = Ok (a ++ replicate (nrows test) (Int (-999))))
        /\ (forall n a b,
               n <> "Train" -> n <> "Survived" ->
               get n train = Ok a -> get n test = Ok b -> get n data = Ok (a ++ b))
        /\ (wf train -> wf test -> wf data))
  /\ (forall w,
         files w !! "data/train.csv" = None ->
         ingest_data w
         = (Raise (FileNotFoundError "data/train.csv"), called (read_csv_ "data/train.csv") w))
  /\ (forall w train,
         files w !! "data/train.csv" = Some train ->
         files w !! "data/test.csv" = None ->
         ingest_data w
         = (Raise (FileNotFoundError "data/test.csv"),
            called (read_csv_ "data/test.csv") (called (read_csv_ "data/train.csv") w)))
  /\ (forall w train test n,
         files w !! "data/train.csv" = Some train ->
         files w !! "data/test.csv" = Some test ->
         n ∈ labels train -> n <> "Survived" -> n <> "Train" ->
         lookup_col n (cols test) = None ->
         exists missing,
           fst (ingest_data w) = Raise (LookupFailure missing)
           /\ missing ∈ labels train
           /\ lookup_col missing (cols test) = None).
Proof.
  split; [|split; [|split]].
  - intros w train test Htrain Htest Hlabels. eexists.
    split; [exact (ingest_data_run w train test Htrain Htest Hlabels)|].
    split; [reflexivity|]. split.
    { unfold labels. cbn [cols]. rewrite map_map. cbn [fst].
      change (map (fun x : string * column => fst x)) with (map (@fst string column)).
      unfold assign_scalar. cbn [cols]. apply labels_set_col. }
    destruct (ingest_data_columns train test) as (Ht & Hs & Ho).
    split; [exact Ht|]. split; [exact Hs|]. split; [exact Ho|].
    intros Hwf1 Hwf2. now apply ingest_data_wf.
  - intros w Htrain. unfold ingest_data, read_csv.
    unfold io_bind at 1. unfold io_bind at 1. rewrite emit_run. cbn [files called].
    now rewrite Htrain.
  - intros w train Htrain Htest. unfold ingest_data, read_csv.
    unfold io_bind at 1. unfold io_bind at 1. rewrite emit_run. cbn [files called].
    rewrite Htrain.
    unfold io_bind at 1. unfold io_bind at 1. rewrite emit_run. cbn [files called].
    now rewrite Htest.
  - intros w train test n Htrain Htest Hin Hs Ht Hnone. unfold ingest_data, read_csv.
    unfold io_bind at 1. unfold io_bind at 1. rewrite emit_run. cbn [files called].
    rewrite Htrain.
    unfold io_bind at 1. unfold io_bind at 1. rewrite emit_run. cbn [files called].
    rewrite Htest.
    unfold io_bind at 1. unfold lift.
    set (marked := assign_scalar "Train" (Int 1) train).
    set (below := assign_scalar "Survived" (Int (-999)) (assign_scalar "Train" (Int 0) test)).
    assert (Hbelow : forall m, lookup_col m (cols below)
                               = if String.eqb m "Survived"
                                 then Some (replicate (nrows test) (Int (-999)))
                                 else if String.eqb m "Train"
                                      then Some (replicate (nrows test) (Int 0))
                                      else lookup_col m (cols test)).
    { intros m. unfold below, assign_scalar. cbn [cols nrows].
      now rewrite !lookup_set_col. }
    destruct (select_missing (labels marked) below) as (m & Hm & Hmin & Hmnone).
    { intros Hall. rewrite Forall_forall in Hall.
      destruct (Hall n) as [c Hc].
      - unfold labels, marked, assign_scalar. cbn [cols]. rewrite labels_set_col.
        destruct (str_in "Train" (map fst (cols train))); [exact Hin|].
        apply elem_of_app. now left.
      - rewrite Hbelow in Hc. apply String.eqb_neq in Hs, Ht.
        rewrite Hs, Ht, Hnone in Hc. discriminate. }
    rewrite Hm. exists m. split; [reflexivity|].
    rewrite Hbelow in Hmnone.
    destruct (String.eqb m "Survived"); [discriminate|].
    destruct (String.eqb_spec m "Train") as [|Hmt]; [discriminate|].
    split; [|exact Hmnone].
    unfold labels, marked, assign_scalar in Hmin. cbn [cols] in Hmin.
    rewrite labels_set_col in Hmin.
    destruct (str_in "Train" (map fst (cols train))); [exact Hmin|].
    apply elem_of_app in Hmin as [Hmin|Hmin]; [exact Hmin|].
    apply list_elem_of_In in Hmin. simpl in Hmin. destruct Hmin as [<-|[]]. contradiction.
Qed.

End IngestData.

Lemma ingest_data_stacks_train_over_test_witness :
  (exists data,
      fst (Main.ingest_data (L := Toy.toy) (Toy.start 0)) = Ok data
      /\ nrows data = 5%nat
      /\ get "Train" data = Ok [Int 1; Int 1; Int 1; Int 0; Int 0]
      /\ get "Survived" data = Ok [Int 0; Int 1; Int 1; Int (-999); Int (-999)]
      /\ get "Pclass" data = Ok [Int 3; Int 1; Int 3; Int 3; Int 3])
  /\ fst (Main.ingest_data (L := Toy.toy) (Toy.boot ∅ 0))
     = Raise (FileNotFoundError "data/train.csv").
Proof.
  destruct (ingest_data_stacks_train_over_test (L := Toy.toy))
    as (Hstack & Hno_train & _ & _).
  split.
  - destruct (Hstack (Toy.start 0) Toy.train_csv Toy.test_csv)
      as (data & Hrun & Hrows & _ & Htrain & Hsurvived & Hother & _).
    + reflexivity.
    + reflexivity.
    + apply (bool_decide_unpack _). vm_compute. exact I.
    + exists data. rewrite Hrun. split; [reflexivity|]. split; [exact Hrows|].
      split; [exact Htrain|].
      split; [exact (Hsurvived [Int 0; Int 1; Int 1] eq_refl)|].
      exact (Hother "Pclass" [Int 3; Int 1; Int 3] [Int 3; Int 3]
               ltac:(discriminate) ltac:(discriminate) eq_refl eq_refl).
  - rewrite Hno_train; reflexivity.
Defined.

(* ===================================================================== *)
(** * Splitting the stacked frame *)
(* ===================================================================== *)

Section SplitData.

Import Main.

(** The rows of [data] that [mask] selects, without Train and Survived. *)
Lemma split_data_run data train survived :
  get "Train" data = Ok train ->
  get "Survived" data = Ok survived ->
  let part mask :=
    features {| nrows := count_true mask;
                cols := map (fun nc => (fst nc, keep mask (snd nc))) (cols data) |} in
  split_data data
  = Ok (part (map (fun c => eq_num c 1) train),
        keep (map (fun c => eq_num c 1) train) survived,
        part (map (fun c => eq_num c 0) train)).
Proof.
  intros Htrain Hsurvived part. unfold split_data, query_eq.
  apply get_lookup in Htrain, Hsurvived. rewrite Htrain. cbn [bind].
  assert (Hrows : forall mask n,
             lookup_col n (map (fun nc => (fst nc, keep mask (snd nc))) (cols data))
             = option_map (keep mask) (lookup_col n (cols data))).
  { intros mask n. exact (lookup_col_map (fun _ => keep mask) n (cols data)). }
  unfold get at 1. cbn [cols]. rewrite Hrows, Hsurvived. cbn [option_map bind].
  rewrite !drop_ok; [reflexivity| |].
  - cbn [cols]. constructor; [|constructor; [|constructor]]; rewrite Hrows.
    + rewrite Htrain. simpl. eauto.
    + rewrite Hsurvived. simpl. eauto.
  - cbn [cols]. constructor; [|constructor; [|constructor]]; rewrite Hrows.
    + rewrite Htrain. simpl. eauto.
    + rewrite Hsurvived. simpl. eauto.
Qed.

Lemma flags_exclusive c : eq_num c 1 && eq_num c 0 = false.
Proof.
  unfold eq_num. destruct (num c) as [x|]; [|reflexivity].
  destruct (Qeq_bool x 1) eqn:E1; [|reflexivity].
  destruct (Qeq_bool x 0) eqn:E0; [|reflexivity].
  apply Qeq_bool_iff in E1, E0. rewrite E1 in E0. discriminate E0.
Qed.

Lemma count_flags train :
  (count_true (map (fun c => eq_num c 1) train)
   + count_true (map (fun c => eq_num c 0) train) <= length train)%nat
  /\ (Forall (fun c => c = Int 0 \/ c = Int 1) train ->
      (count_true (map (fun c => eq_num c 1) train)
       + count_true (map (fun c => eq_num c 0) train) = length train)%nat).
Proof.
  unfold count_true. induction train as [|c train [IHle IHeq]]; [split; reflexivity|].
  cbn [map length]. rewrite !filter_cons.
  pose proof (flags_exclusive c) as Hc.
  split.
  - destruct (eq_num c 1), (eq_num c 0); try discriminate;
      repeat (destruct (decide _); try discriminate; try contradiction); simpl; lia.
  - intros Hall. apply Forall_cons in Hall as [Hhead Hall]. specialize (IHeq Hall).
    destruct Hhead as [-> | ->]; simpl; lia.
Qed.

(** X6. [split_data] puts the rows whose Train flag is 1 into the training
    part (their Survived entries become the outcomes) and the rows whose
    flag is 0 into the part to predict; both parts have every column of
    the frame except Train and Survived. No row lands in both parts and a
    row whose flag is neither 0 nor 1 lands in neither. A frame without a
    Train column is refused with NameError (Train is then an undefined
    name of the query), a frame with Train but without Survived with the
    lookup error. *)
Theorem split_data_partitions_by_the_train_flag :
  (forall data train survived,
      get "Train" data = Ok train ->
      get "Survived" data = Ok survived ->
      let is_train := map (fun c => eq_num c 1) train in
      let is_test := map (fun c => eq_num c 0) train in
      exists train_part to_predict,
        split_data data = Ok (train_part, keep is_train survived, to_predict)
        /\ nrows train_part = count_true is_train
        /\ nrows to_predict = count_true is_test
        /\ (nrows train_part + nrows to_predict <= length train)%nat
        /\ (Forall (fun c => c = Int 0 \/ c = Int 1) train ->
            (nrows train_part + nrows to_predict)%nat = length train)
        /\ labels train_part = labels (features data)
        /\ labels to_predict = labels (features data)
        /\ (forall n c,
               n <> "Train" -> n <> "Survived" ->
               get n data = Ok c ->
               get n train_part = Ok (keep is_train c)
               /\ get n to_predict = Ok (keep is_test c)))
  /\ (forall data,
         lookup_col "Train" (cols data) = None ->
         split_data data = Raise (NameError "Train"))
  /\ (forall data train,
         get "Train" data = Ok train ->
         lookup_col "Survived" (cols data) = None ->
         split_data data = Raise (LookupFailure "Survived")).
Proof.
  split; [|split].
  - intros data train survived Htrain Hsurvived is_train is_test.
    do 2 eexists. split; [exact (split_data_run data train survived Htrain Hsurvived)|].
    split; [reflexivity|]. split; [reflexivity|].
    destruct (count_flags train) as [Hle Heq].
    split; [exact Hle|]. split; [exact Heq|].
    assert (Hlabels : forall mask,
               labels (features {| nrows := count_true mask;
                                   cols := map (fun nc => (fst nc, keep mask (snd nc)))
                                               (cols data) |})
               = labels (features data)).
    { intros mask. unfold labels, features. cbn [cols]. rewrite !labels_filter.
      now rewrite map_map. }
    split; [apply Hlabels|]. split; [apply Hlabels|].
    intros n c Ht Hs Hget. apply get_lookup in Hget.
    apply String.eqb_neq in Ht, Hs.
    unfold get, features. cbn [cols]. rewrite !lookup_col_filter.
    unfold str_in. cbn [existsb]. rewrite Ht, Hs. cbn [orb].
    rewrite !(lookup_col_map (fun _ => keep _) n (cols data)), Hget. now split.
  - intros data Hnone. unfold split_data, query_eq. now rewrite Hnone.
  - intros data train Htrain Hnone. unfold split_data, query_eq.
    apply get_lookup in Htrain. rewrite Htrain. cbn [bind]. unfold get. cbn [cols].
    rewrite (lookup_col_map (fun _ => keep _) "Survived" (cols data)), Hnone.
    reflexivity.
Qed.

Lemma split_data_partitions_by_the_train_flag_witness :
  let data :=
    {| nrows := 4;
       cols := [("Fare", [Int 7; Int 71; Int 8; Int 9]);
                ("Train", [Int 1; Int 0; Int 1; Int 2]);
                ("Survived", [Int 0; Int (-999); Int 1; Int 1])] |} in
  (exists train_part to_predict,
      split_data data = Ok (train_part, [Int 0; Int 1], to_predict)
      /\ nrows train_part = 2%nat
      /\ nrows to_predict = 1%nat
      /\ get "Fare" train_part = Ok [Int 7; Int 8]
      /\ get "Fare" to_predict = Ok [Int 71])
  /\ split_data {| nrows := 1; cols := [("Train", [Int 1])] |}
     = Raise (LookupFailure "Survived")
  /\ split_data {| nrows := 1; cols := [("Survived", [Int 1])] |}
     = Raise (NameError "Train").
Proof.
  intros data.
  destruct split_data_partitions_by_the_train_flag as (Hsplit & Hno_train & Hno_survived).
  split; [|split;
           [exact (Hno_survived {| nrows := 1; cols := [("Train", [Int 1])] |}
                     [Int 1] eq_refl eq_refl)
           |exact (Hno_train {| nrows := 1; cols := [("Survived", [Int 1])] |} eq_refl)]].
  destruct (Hsplit data [Int 1; Int 0; Int 1; Int 2] [Int 0; Int (-999); Int 1; Int 1]
              eq_refl eq_refl)
    as (train_part & to_predict & Hrun & Hn1 & Hn0 & _ & _ & _ & _ & Hcols).
  exists train_part, to_predict. split; [exact Hrun|].
  split; [exact Hn1|]. split; [exact Hn0|].
  exact (Hcols "Fare" [Int 7; Int 71; Int 8; Int 9]
           ltac:(discriminate) ltac:(discriminate) eq_refl).
Defined.

End SplitData.

(* ===================================================================== *)
(** * [split_data] after [ingest_data] *)
(* ===================================================================== *)

Section RoundTrip.

Context `{L : Library}.

Import Main.

Lemma filter_set_col_excluded names name v cs :
  str_in name names = true ->
  filter (fun nc : string * column => str_in (fst nc) names = false) (set_col name v cs)
  = filter (fun nc => str_in (fst nc) names = false) cs.
Proof.
  intros Hin. induction cs as [|[m c] cs IH]; simpl.
  - rewrite filter_cons. simpl. destruct (decide _); [congruence|reflexivity].
  - destruct (String.eqb_spec m name) as [->|Hne].
    + rewrite !filter_cons. simpl.
      destruct (decide (str_in name names = false)); [congruence|reflexivity].
    + rewrite !filter_cons. simpl. rewrite IH. reflexivity.
Qed.

Lemma filter_map_cols names (h : string -> column -> column) cs :
  filter (fun nc : string * column => str_in (fst nc) names = false)
         (map (fun nc => (fst nc, h (fst nc) (snd nc))) cs)
  = map (fun nc => (fst nc, h (fst nc) (snd nc)))
        (filter (fun nc : string * column => str_in (fst nc) names = false) cs).
Proof.
  induction cs as [|[m c] cs IH]; [reflexivity|].
  cbn [map]. rewrite !filter_cons. cbn [fst snd].
  destruct (decide (str_in m names = false)); cbn [map]; now rewrite IH.
Qed.

Lemma flags_of_stack n1 n2 :
  map (fun c => eq_num c 1) (replicate n1 (Int 1) ++ replicate n2 (Int 0))
  = replicate n1 true ++ replicate n2 false
  /\ map (fun c => eq_num c 0) (replicate n1 (Int 1) ++ replicate n2 (Int 0))
     = replicate n1 false ++ replicate n2 true.
Proof.
  rewrite !map_app.
  rewrite !(fmap_replicate (fun c => eq_num c 1)), !(fmap_replicate (fun c => eq_num c 0)).
  split; reflexivity.
Qed.

Lemma keep_upper {A : Type} (a b : list A) n2 :
  keep (replicate (length a) true ++ replicate n2 false) (a ++ b) = a.
Proof.
  rewrite keep_app by now rewrite length_replicate.
  now rewrite keep_all, keep_none, app_nil_r.
Qed.

Lemma keep_lower {A : Type} (a b : list A) :
  keep (replicate (length a) false ++ replicate (length b) true) (a ++ b) = b.
Proof.
  rewrite keep_app by now rewrite length_replicate.
  now rewrite keep_all, keep_none.
Qed.

(** X7. Splitting undoes the stacking: [split_data] applied to the frame
    [ingest_data] returns gives back the training file without its
    Survived column as the training part, the training file's Survived
    column as the outcomes, and as the part to predict the test file's
    columns in the order of the training file's feature columns. *)
Theorem split_data_undoes_ingest_data w train test survived :
  files w !! "data/train.csv" = Some train ->
  files w !! "data/test.csv" = Some test ->
  wf train -> wf test ->
  get "Survived" train = Ok survived ->
  Forall (fun n => n ∈ ["Survived"; "Train"] \/ is_Some (lookup_col n (cols test)))
         (labels train) ->
  exists data w' to_predict,
    ingest_data w = (Ok data, w')
    /\ split_data data = Ok (features train, survived, to_predict)
    /\ select (labels (features train)) test = Ok to_predict.
Proof.
  intros Htrain Htest Hwf1 Hwf2 Hsurvived Hlabels.
  pose proof (ingest_data_run w train test Htrain Htest Hlabels) as Hrun.
  destruct (ingest_data_columns train test) as (Hflag & Hsurv & _).
  specialize (Hsurv survived Hsurvived).
  pose proof (marked_labels_present train test Hlabels) as Hall.
  cbv zeta in Hrun, Hflag, Hsurv.
  set (marked := assign_scalar "Train" (Int 1) train) in *.
  set (below := assign_scalar "Survived" (Int (-999)) (assign_scalar "Train" (Int 0) test))
    in *.
  set (data := {| nrows := nrows train + nrows test; cols := _ |}) in *.
  assert (Hm : wf marked) by now apply wf_assign_scalar.
  assert (Hb : wf below) by now do 2 apply wf_assign_scalar.
  pose proof (split_data_run data _ _ Hflag Hsurv) as Hsplit. cbv zeta in Hsplit.
  destruct (flags_of_stack (nrows train) (nrows test)) as [-> ->] in Hsplit.
  rewrite <- (get_length _ _ _ Hwf1 Hsurvived) in Hsplit at 2.
  rewrite keep_upper in Hsplit.
  exists data, (called (read_csv_ "data/test.csv") (called (read_csv_ "data/train.csv") w)).
  eexists. split; [exact Hrun|]. split.
  - rewrite Hsplit. f_equal. f_equal. f_equal.
    unfold features. cbn [nrows cols]. f_equal.
    + rewrite count_true_app, !count_true_replicate. lia.
    + unfold data. cbn [cols]. rewrite map_map. cbn [fst snd].
      rewrite <- (filter_set_col_excluded ["Train"; "Survived"] "Train"
                   (replicate (nrows train) (Int 1)) (cols train) eq_refl).
      change (set_col "Train" (replicate (nrows train) (Int 1)) (cols train))
        with (cols marked).
      f_equal. rewrite <- (map_id (cols marked)) at 2.
      apply map_ext_in. intros [n a] Hin. cbn [fst snd]. f_equal.
      unfold wf in Hm. rewrite Forall_forall in Hm.
      assert (Ha : length a = nrows train)
        by (apply (Hm (n, a)); now apply list_elem_of_In).
      rewrite <- Ha. apply keep_upper.
  - unfold features. cbn [nrows cols].
    rewrite select_ok.
    + f_equal. f_equal.
      * rewrite count_true_app, !count_true_replicate. lia.
      * unfold data. cbn [cols]. rewrite map_map. cbn [fst snd].
        unfold labels. cbn [cols]. rewrite map_map.
        rewrite <- (filter_set_col_excluded ["Train"; "Survived"] "Train"
                     (replicate (nrows train) (Int 1)) (cols train) eq_refl).
        change (set_col "Train" (replicate (nrows train) (Int 1)) (cols train))
          with (cols marked).
        symmetry. etransitivity.
        { apply (filter_map_cols ["Train"; "Survived"]
                   (fun n a => keep (replicate (nrows train) false
                                     ++ replicate (nrows test) true)
                                    (a ++ default [] (lookup_col n (cols below))))). }
        apply map_ext_in. intros [n a] Hin. cbn [fst snd]. f_equal.
        apply list_elem_of_In, list_elem_of_filter in Hin as [Hn Hin]. cbn [fst] in Hn.
        unfold wf in Hm. rewrite Forall_forall in Hm.
        assert (Ha : length a = nrows train) by exact (Hm (n, a) Hin).
        rewrite Forall_forall in Hall.
        destruct (Hall n) as [b Hb'].
        { apply list_elem_of_fmap. now exists (n, a). }
        rewrite Hb'. cbn [default from_option].
        assert (Hlen : length b = nrows test) by exact (lookup_col_wf _ _ _ Hb Hb').
        rewrite <- Ha, <- Hlen, keep_lower.
        unfold below, assign_scalar in Hb'. cbn [cols nrows] in Hb'.
        rewrite !lookup_set_col in Hb'.
        unfold str_in in Hn. cbn [existsb] in Hn.
        destruct (String.eqb n "Train"); [discriminate|].
        destruct (String.eqb n "Survived"); [discriminate|].
        now rewrite Hb'.
    + cbn [cols]. apply Forall_forall. intros n Hin.
      apply list_elem_of_fmap in Hin as ([m a] & -> & Hin). cbn [fst].
      apply list_elem_of_filter in Hin as [Hn Hin]. cbn [fst] in Hn.
      rewrite Forall_forall in Hlabels.
      destruct (Hlabels m) as [Hm'|Hm'].
      * apply list_elem_of_fmap. now exists (m, a).
      * apply str_in_elem_of in Hm'. unfold str_in in Hn, Hm'. cbn [existsb] in Hn, Hm'.
        destruct (String.eqb m "Train"), (String.eqb m "Survived"); discriminate.
      * exact Hm'.
Qed.

End RoundTrip.

Lemma split_data_undoes_ingest_data_witness :
  exists data w' to_predict,
    Main.ingest_data (L := Toy.toy) (Toy.start 0) = (Ok data, w')
    /\ Main.split_data data
       = Ok (features Toy.train_csv, [Int 0; Int 1; Int 1], to_predict)
    /\ labels to_predict
       = ["PassengerId"; "Pclass"; "Name"; "Sex"; "Age"; "SibSp"; "Parch"; "Ticket";
          "Fare"; "Cabin"; "Embarked"]
    /\ get "PassengerId" to_predict = Ok [Int 892; Int 893].
Proof.
  destruct (split_data_undoes_ingest_data (L := Toy.toy) (Toy.start 0)
              Toy.train_csv Toy.test_csv [Int 0; Int 1; Int 1])
    as (data & w' & to_predict & Hrun & Hsplit & Hselect).
  - reflexivity.
  - reflexivity.
  - repeat constructor.
  - repeat constructor.
  - reflexivity.
  - apply (bool_decide_unpack _). vm_compute. exact I.
  - exists data, w', to_predict. split; [exact Hrun|]. split; [exact Hsplit|].
    vm_compute in Hselect. injection Hselect as <-. split; reflexivity.
Defined.

(* ===================================================================== *)
(** * The majority behind [majority_vote_ensemble] *)
(* ===================================================================== *)

Section Majority.

Context `{L : Library}.

Import Main.

Lemma row_sum_binary members i :
  Forall (fun m => exists l, fst m !! i = Some l /\ (l = 0 \/ l = 1)%Z) members ->
  row_sum members i = (votes_for 1 members i - votes_for 0 members i)%Z.
Proof.
  unfold row_sum, votes_for.
  induction 1 as [|[labels votes] members (l & Hl & Hbin) _ IH]; [reflexivity|].
  cbn [foldr]. rewrite IH. cbn [fst] in Hl. rewrite Hl. cbn [from_option].
  destruct Hbin as [-> | ->].
  - rewrite (bool_decide_eq_false_2 (Some 0%Z = Some 1%Z)) by discriminate.
    rewrite (bool_decide_eq_true_2 (Some 0%Z = Some 0%Z)) by reflexivity.
    unfold sign. simpl Z.eqb. cbv iota. lia.
  - rewrite (bool_decide_eq_true_2 (Some 1%Z = Some 1%Z)) by reflexivity.
    rewrite (bool_decide_eq_false_2 (Some 1%Z = Some 0%Z)) by discriminate.
    unfold sign. simpl Z.eqb. cbv iota. lia.
Qed.

Lemma weighted_vote_lookup n members i :
  (i < n)%nat ->
  weighted_vote n members !! i
  = Some (Int (if (0 <? row_sum members i)%Z then 1 else 0)).
Proof.
  intros Hi. unfold weighted_vote. rewrite list_lookup_fmap, lookup_seq_lt by exact Hi.
  reflexivity.
Qed.

(** X8. [majority_vote_ensemble] is a weighted majority vote with ties
    going to 0: when every member predicts 0 or 1, a passenger is written
    as surviving exactly when the votes of the members that predict 1 for
    it outnumber the votes of those that predict 0. A member whose number
    of votes is zero or negative is fitted and asked like the others but
    has no say. *)
Theorem majority_vote_ensemble_is_a_majority
    name models_votes train outcomes to_predict w test ids members :
  files w !! "data/test.csv" = Some test ->
  lookup_col "PassengerId" (cols test) = Some ids ->
  member_predictions models_votes (np_array train) outcomes (np_array to_predict)
                     (entropy w)
  = map (fun m => (map Int (fst m), snd m)) members ->
  Forall (fun m => length (fst m) = nrows test) members ->
  Forall (fun m => Forall (fun l => l = 0 \/ l = 1)%Z (fst m)) members ->
  exists w' survived,
    majority_vote_ensemble name models_votes train outcomes to_predict w = (Ok tt, w')
    /\ files w' !! name = Some (submission (nrows test) ids survived)
    /\ length survived = nrows test
    /\ (forall i,
           (i < nrows test)%nat ->
           survived !! i
           = Some (Int (if (votes_for 0 members i <? votes_for 1 members i)%Z
                        then 1 else 0)))
    /\ trace w' =
       trace w ++ flat_map (fun _ => [fit_; predict_]) models_votes
               ++ [read_csv_ "data/test.csv"; to_csv_ name false].
Proof.
  intros Htest Hids Hmembers Hlen Hbin.
  destruct (majority_vote_run name models_votes train outcomes to_predict w test ids
              members Htest Hids Hmembers Hlen) as (w' & Hrun & Hfiles & Htrace).
  exists w', (weighted_vote (nrows test) members).
  split; [exact Hrun|]. split; [rewrite Hfiles; apply lookup_insert_eq|].
  split; [unfold weighted_vote; now rewrite length_map, length_seq|].
  split; [|exact Htrace].
  intros i Hi. rewrite weighted_vote_lookup by exact Hi.
  rewrite row_sum_binary.
  - do 2 f_equal.
    destruct (Z.ltb_spec 0 (votes_for 1 members i - votes_for 0 members i)),
             (Z.ltb_spec (votes_for 0 members i) (votes_for 1 members i));
      try reflexivity; lia.
  - rewrite Forall_forall in Hlen, Hbin. apply Forall_forall. intros m Hm.
    destruct (lookup_lt_is_Some_2 (fst m) i) as [l Hl].
    { rewrite (Hlen m Hm). exact Hi. }
    exists l. split; [exact Hl|].
    specialize (Hbin m Hm). rewrite Forall_forall in Hbin.
    apply Hbin. eapply list_elem_of_lookup_2. exact Hl.
Qed.

End Majority.

Lemma majority_vote_ensemble_is_a_majority_witness :
  exists w' survived,
    Main.majority_vote_ensemble (L := Toy.toy) "ensemble.csv"
      [(None, 1%Z); (None, (-5)%Z); (None, 0%Z)] Toy.X_train Toy.y_train Toy.X_test
      (Toy.start 0) = (Ok tt, w')
    /\ files w' !! "ensemble.csv" = Some (submission 2 [Int 892; Int 893] survived)
    /\ survived !! 0%nat = Some (Int 1)
    /\ survived !! 1%nat = Some (Int 1).
Proof.
  destruct (majority_vote_ensemble_is_a_majority (L := Toy.toy) "ensemble.csv"
              [(None, 1%Z); (None, (-5)%Z); (None, 0%Z)] Toy.X_train Toy.y_train Toy.X_test
              (Toy.start 0) Toy.test_csv [Int 892; Int 893]
              [([1; 1]%Z, 1%Z); ([1; 1]%Z, (-5)%Z); ([1; 1]%Z, 0%Z)])
    as (w' & survived & Hrun & Hfile & _ & Hrows & _).
  - reflexivity.
  - reflexivity.
  - reflexivity.
  - repeat constructor.
  - repeat constructor; now right.
  - exists w', survived. split; [exact Hrun|]. split; [exact Hfile|].
    split; [exact (Hrows 0%nat ltac:(simpl; lia))|exact (Hrows 1%nat ltac:(simpl; lia))].
Defined.

(* ===================================================================== *)
(** * [flush_result] before and after an ensemble method *)
(* ===================================================================== *)

Section FlushResult.

Context `{L : Library}.

Import TitanicClassifier.

Lemma built_result self : built self -> result self = [].
Proof. induction 1; [reflexivity|assumption]. Qed.

Lemma flush_result_run out test_name self w :
  flush_result out test_name self w
  = match files w !! test_name with
    | None => (Raise (FileNotFoundError test_name), called (read_csv_ test_name) w)
    | Some test =>
        match lookup_col "PassengerId" (cols test) with
        | None => (Raise (LookupFailure "PassengerId"), called (read_csv_ test_name) w)
        | Some ids =>
            if (length (result self) =? nrows test)%nat
            then (Ok tt,
                  {| files := <[out := submission (nrows test) ids (result self)]> (files w);
                     entropy := entropy w; clock := clock w;
                     trace := (trace w ++ [read_csv_ test_name]) ++ [to_csv_ out false] |})
            else (Raise ValueError, called (read_csv_ test_name) w)
        end
    end.
Proof.
  unfold flush_result, read_csv.
  unfold io_bind at 1. unfold io_bind at 1. rewrite emit_run. cbn [files called].
  destruct (files w !! test_name) as [test|]; [|reflexivity].
  unfold io_bind at 1. unfold lift, select. cbn [mapM]. unfold get.
  destruct (lookup_col "PassengerId" (cols test)) as [ids|]; [|reflexivity].
  cbn [bind]. unfold io_bind at 1. unfold assign. cbn [nrows cols set_col].
  destruct (length (result self) =? nrows test)%nat; [|reflexivity].
  rewrite to_csv_run. reflexivity.
Qed.

(** X9. [flush_result] fails in three ways and writes nothing when it
    does: FileNotFoundError when the test file is missing, the lookup
    error when that file has no PassengerId column, ValueError when the
    stored result has not one entry per row of the file. The last is what
    happens on a classifier on which none of [voting], [blending] and
    [stacking] has run, because its result is still the empty list: with a
    test file that has rows, [flush_result] raises ValueError. *)
Theorem flush_result_needs_a_result :
  (forall out test_name self w,
      files w !! test_name = None ->
      flush_result out test_name self w
      = (Raise (FileNotFoundError test_name), called (read_csv_ test_name) w))
  /\ (forall out test_name self w test,
         files w !! test_name = Some test ->
         lookup_col "PassengerId" (cols test) = None ->
         flush_result out test_name self w
         = (Raise (LookupFailure "PassengerId"), called (read_csv_ test_name) w))
  /\ (forall out test_name self w test ids,
         files w !! test_name = Some test ->
         lookup_col "PassengerId" (cols test) = Some ids ->
         length (result self) <> nrows test ->
         flush_result out test_name self w
         = (Raise ValueError, called (read_csv_ test_name) w))
  /\ (forall out test_name self w test ids,
         built self ->
         files w !! test_name = Some test ->
         lookup_col "PassengerId" (cols test) = Some ids ->
         nrows test <> 0%nat ->
         flush_result out test_name self w
         = (Raise ValueError, called (read_csv_ test_name) w)).
Proof.
  split; [|split; [|split]].
  - intros out test_name self w Hnone. rewrite flush_result_run. now rewrite Hnone.
  - intros out test_name self w test Htest Hnone. rewrite flush_result_run.
    now rewrite Htest, Hnone.
  - intros out test_name self w test ids Htest Hids Hlen. rewrite flush_result_run.
    rewrite Htest, Hids. apply Nat.eqb_neq in Hlen. now rewrite Hlen.
  - intros out test_name self w test ids Hbuilt Htest Hids Hrows. rewrite flush_result_run.
    rewrite Htest, Hids, (built_result self Hbuilt). cbn [length].
    destruct (nrows test); [contradiction|reflexivity].
Qed.

End FlushResult.

Lemma flush_result_needs_a_result_witness :
  let self :=
    TitanicClassifier.append_model (L := Toy.toy) None (Some "first") None
      (TitanicClassifier.init (L := Toy.toy) Toy.X_train Toy.y_train Toy.X_test 3) in
  TitanicClassifier.flush_result "voting.csv" "data/test.csv" self (Toy.start 0)
  = (Raise ValueError, called (read_csv_ "data/test.csv") (Toy.start 0))
  /\ TitanicClassifier.flush_result "voting.csv" "data/missing.csv" self (Toy.start 0)
     = (Raise (FileNotFoundError "data/missing.csv"),
        called (read_csv_ "data/missing.csv") (Toy.start 0)).
Proof.
  intros self.
  destruct (flush_result_needs_a_result (L := Toy.toy)) as (Hmissing & _ & _ & Hfresh).
  split.
  - apply (Hfresh "voting.csv" "data/test.csv" self (Toy.start 0) Toy.test_csv
             [Int 892; Int 893]).
    + repeat constructor.
    + reflexivity.
    + reflexivity.
    + discriminate.
  - apply Hmissing. reflexivity.
Defined.

(* ===================================================================== *)
(** * The methods keep the three lists aligned *)
(* ===================================================================== *)

Section KeepAligned.

Context `{L : Library}.

Import TitanicClassifier.

Lemma same_setup_refl self : same_setup self self.
Proof. repeat split. Qed.

Lemma same_setup_aligned self self' :
  same_setup self self' -> aligned self -> aligned self'.
Proof.
  intros (Hm & Hn & Hh & _) [Ha Hb]. unfold aligned. rewrite Hm, Hn, Hh. now split.
Qed.

Lemma same_setup_insert self s index model :
  same_setup self s ->
  same_setup self (set_models (<[index := model]> (models s)) s).
Proof.
  intros (Hm & Hrest). split; [|exact Hrest].
  cbn [models set_models]. now rewrite length_insert.
Qed.

Lemma optimize_models_setup folds self w self' w' :
  optimize_models folds self w = (Ok self', w') ->
  same_setup self self' /\ result self' = result self.
Proof.
  unfold optimize_models.
  destruct (train_test_split _ _ _ _) as [[x_train_cv x_test_cv] [y_train_cv y_test_cv]].
  intros H.
  apply io_bind_Ok in H as (u & w1 & _ & H).
  apply io_bind_Ok in H as (s & w2 & Hloop & H).
  apply io_bind_Ok in H as (u' & w3 & _ & H).
  apply io_ret_Ok in H as [-> _].
  revert Hloop.
  apply (for_each_inv _ _ (fun s _ => same_setup self s /\ result s = result self)).
  - intros [index model] s0 wa s1 wb _ [Hsetup Hresult] Hbody.
    run_ok Hbody. split; [now apply same_setup_insert|exact Hresult].
  - split; [apply same_setup_refl|reflexivity].
Qed.

Lemma same_setup_result self ms r :
  length ms = length (models self) ->
  same_setup self (set_result r (set_models ms self)).
Proof. intros Hlen. repeat split. exact Hlen. Qed.

Lemma blending_setup n_folds self w self' w' :
  blending n_folds self w = (Ok self', w') -> same_setup self self'.
Proof.
  unfold blending. intros H.
  apply io_bind_Ok in H as ([[ms blend_train] blend_test] & w1 & Hloop & H).
  run_ok H. apply same_setup_result.
  revert Hloop.
  apply (for_each_inv _ _ (fun s _ => length (fst (fst s)) = length (models self)));
    [|reflexivity].
  intros [j model] [[ms0 train0] test0] wa [[ms1 train1] test1] wb _ Hlen Hbody.
  unfold blend_model in Hbody.
  apply io_bind_Ok in Hbody as ([[model' train'] test'] & w2 & _ & Hbody).
  run_ok Hbody.
  cbn [fst] in *. now rewrite length_insert.
Qed.

Lemma stacking_setup self w self' w' :
  stacking self w = (Ok self', w') -> same_setup self self'.
Proof.
  unfold stacking.
  destruct (train_test_split _ _ _ _) as [[x_train_a x_train_b] [y_train_a y_train_b]].
  intros H.
  apply io_bind_Ok in H as ([[ms stack_train] stack_test] & w1 & Hloop & H).
  run_ok H. apply same_setup_result.
  revert Hloop.
  apply (for_each_inv _ _ (fun s _ => length (fst (fst s)) = length (models self)));
    [|reflexivity].
  intros [index model] [[ms0 train0] test0] wa [[ms1 train1] test1] wb _ Hlen Hbody.
  unfold stack_model in Hbody.
  run_ok Hbody.
  cbn [fst] in *. now rewrite length_insert.
Qed.

Lemma voting_setup voting_ weights self w self' w' :
  voting voting_ weights self w = (Ok self', w') ->
  same_setup self self' /\ models self' = models self.
Proof.
  unfold voting. intros H.
  apply io_bind_Ok in H as (classifier & w1 & _ & H).
  run_ok H. split; [repeat split|reflexivity].
Qed.

(** X10. The methods that change an instance keep what [append_model]
    built: after [optimize_models], [blending], [stacking] or [voting]
    returns, the instance has as many models as before and the same names,
    hyper-parameter grids, training data, test data and verbosity, so the
    three lists are still aligned. [optimize_models] does not touch the
    result and [voting] does not touch the models. *)
Theorem ensemble_methods_keep_the_setup :
  (forall folds self w self' w',
      optimize_models folds self w = (Ok self', w') ->
      same_setup self self' /\ result self' = result self
      /\ (aligned self -> aligned self'))
  /\ (forall n_folds self w self' w',
         blending n_folds self w = (Ok self', w') ->
         same_setup self self' /\ (aligned self -> aligned self'))
  /\ (forall self w self' w',
         stacking self w = (Ok self', w') ->
         same_setup self self' /\ (aligned self -> aligned self'))
  /\ (forall voting_ weights self w self' w',
         voting voting_ weights self w = (Ok self', w') ->
         same_setup self self' /\ models self' = models self
         /\ (aligned self -> aligned self')).
Proof.
  split; [|split; [|split]].
  - intros folds self w self' w' H.
    destruct (optimize_models_setup _ _ _ _ _ H) as [Hsetup Hresult].
    split; [exact Hsetup|]. split; [exact Hresult|]. now apply same_setup_aligned.
  - intros n_folds self w self' w' H.
    pose proof (blending_setup _ _ _ _ _ H) as Hsetup.
    split; [exact Hsetup|]. now apply same_setup_aligned.
  - intros self w self' w' H.
    pose proof (stacking_setup _ _ _ _ H) as Hsetup.
    split; [exact Hsetup|]. now apply same_setup_aligned.
  - intros voting_ weights self w self' w' H.
    destruct (voting_setup _ _ _ _ _ _ H) as [Hsetup Hmodels].
    split; [exact Hsetup|]. split; [exact Hmodels|]. now apply same_setup_aligned.
Qed.

End KeepAligned.

(** A run whose outcome evaluates to a value. *)
Lemma ran {L : Library} {A : Type} (r : outcome A * world) :
  match fst r with Ok _ => true | Raise _ => false end = true ->
  exists a, r = (Ok a, snd r).
Proof. destruct r as [[a|e] w]; simpl; [eauto|discriminate]. Qed.

Lemma ensemble_methods_keep_the_setup_witness :
  let self :=
    TitanicClassifier.append_model (L := Toy.toy) None (Some "second") None
      (TitanicClassifier.append_model (L := Toy.toy) None (Some "first") None
         (TitanicClassifier.init (L := Toy.toy) Toy.X_train Toy.y_train Toy.X_test 3)) in
  (exists self' w',
      TitanicClassifier.optimize_models 2 self (Toy.start 0) = (Ok self', w')
      /\ same_setup self self' /\ aligned self')
  /\ (exists self' w',
         TitanicClassifier.stacking self (Toy.start 0) = (Ok self', w')
         /\ same_setup self self' /\ aligned self').
Proof.
  intros self.
  destruct (ensemble_methods_keep_the_setup (L := Toy.toy))
    as (Hoptimize & _ & Hstacking & _).
  assert (Haligned : aligned self) by (split; reflexivity).
  split.
  - destruct (ran (TitanicClassifier.optimize_models 2 self (Toy.start 0)))
      as [self' E]; [vm_compute; reflexivity|].
    exists self', (snd (TitanicClassifier.optimize_models 2 self (Toy.start 0))).
    split; [exact E|].
    destruct (Hoptimize 2%nat self (Toy.start 0) self' _ E) as (Hsetup & _ & Hkeep).
    split; [exact Hsetup|exact (Hkeep Haligned)].
  - destruct (ran (TitanicClassifier.stacking self (Toy.start 0)))
      as [self' E]; [vm_compute; reflexivity|].
    exists self', (snd (TitanicClassifier.stacking self (Toy.start 0))).
    split; [exact E|].
    destruct (Hstacking self (Toy.start 0) self' _ E) as (Hsetup & Hkeep).
    split; [exact Hsetup|exact (Hkeep Haligned)].
Defined.

(* ===================================================================== *)
(** * [model_and_submit] with and without the search for hyper-parameters *)
(* ===================================================================== *)

Section ModelAndSubmit.

Context `{L : Library}.

Import Main.

(** Walks through a chain of binds, collecting the calls. *)
Ltac collect :=
  repeat first
    [ apply makes_ret | apply makes_lift | apply makes_emit | apply makes_print
    | apply makes_pure_call | apply makes_draw | apply makes_read_csv
    | apply submits_to_csv
    | eapply makes_bind | eapply submits_bind
    | progress intros
    | progress cbv zeta
    | match goal with
      | |- makes (match ?x with (_, _) => _ end) _ => destruct x
      | |- submits (match ?x with (_, _) => _ end) _ _ => destruct x
      | |- makes (if ?b then _ else _) _ => destruct b
      end ].

Lemma train_test_model_makes model hyperparameters X_train X_test y_train y_test folds :
  makes (train_test_model model hyperparameters X_train X_test y_train y_test folds)
        grid_search_calls.
Proof. eapply makes_eq; [unfold train_test_model; collect | reflexivity]. Qed.

(** X11. With [find_hyperparameters] set, [model_and_submit] runs the grid
    search for the random forest, the logistic regression and the support
    vector machine (each: build, fit, predict, score, cross-validate, with
    its prints) before it builds and fits the voting classifier; without
    it the voting classifier comes first. In both modes the submission is
    written as the last step, and a run that raises has made some first
    few of these calls and has written nothing. *)
Theorem model_and_submit_searches_before_it_votes train outcomes to_predict path :
  submits (model_and_submit train outcomes to_predict path true)
          (grid_search_calls ++ grid_search_calls ++ grid_search_calls
           ++ [VotingClassifier_; fit_; read_csv_ "data/test.csv"; predict_])
          path
  /\ submits (model_and_submit train outcomes to_predict path false)
             [VotingClassifier_; fit_; read_csv_ "data/test.csv"; predict_]
             path.
Proof.
  split.
  - eapply submits_eq.
    + unfold model_and_submit.
      destruct (train_test_split _ _ _ _) as [[X_train X_test] [y_train y_test]].
      eapply submits_bind.
      * eapply makes_bind; [apply train_test_model_makes|]. intros rf.
        eapply makes_bind; [apply train_test_model_makes|]. intros lr.
        eapply makes_bind; [apply train_test_model_makes|]. intros svm.
        apply makes_ret.
      * intros [[rf lr] svm]. apply vote_classifier_submits.
    + unfold grid_search_calls. reflexivity.
  - eapply submits_eq.
    + unfold model_and_submit. eapply submits_bind; [apply makes_ret|].
      intros [[rf lr] svm]. apply vote_classifier_submits.
    + reflexivity.
Qed.

End ModelAndSubmit.

(* ===================================================================== *)
(** * The preprocessed files as a cache *)
(* ===================================================================== *)

Section Cache.

Context `{L : Library}.

Import Main TitanicClassifier.

Lemma isfile_run path w :
  isfile path w = (Ok (bool_decide (is_Some (files w !! path))), called (isfile_ path) w).
Proof. unfold isfile, io_bind. now rewrite emit_run. Qed.

Lemma makes_for_each_silent {A S : Type} (l : list A) (body : A -> S -> io S) :
  (forall x s, makes (body x s) []) -> forall s, makes (for_each l body s) [].
Proof.
  intros Hbody. induction l as [|x l IH]; intros s; simpl; [apply makes_ret|].
  apply (makes_bind _ _ [] []); [apply Hbody|exact IH].
Qed.

Lemma get_classifier_makes voting_ weights self :
  makes (get_classifier voting_ weights self) [VotingClassifier_].
Proof.
  unfold get_classifier.
  apply (makes_bind _ _ [] [VotingClassifier_]); [|intros; apply makes_pure_call].
  apply makes_for_each_silent. intros [index model] named.
  apply (makes_bind _ _ [] []); [apply makes_lift|intros; apply makes_ret].
Qed.

Lemma voting_makes voting_ weights self :
  makes (voting voting_ weights self) [VotingClassifier_; fit_; predict_].
Proof.
  unfold voting.
  apply (makes_bind _ _ [VotingClassifier_] [fit_; predict_]);
    [apply get_classifier_makes|intros classifier].
  apply (makes_bind _ _ [fit_] [predict_]); [apply makes_draw|intros fitted].
  apply (makes_bind _ _ [predict_] []); [apply makes_pure_call|intros; apply makes_ret].
Qed.

Lemma flush_result_submits out test_name self :
  submits (flush_result out test_name self) [read_csv_ test_name] out.
Proof.
  unfold flush_result.
  apply (submits_bind _ _ [read_csv_ test_name] []); [apply makes_read_csv|intros test].
  apply (submits_bind _ _ [] []); [apply makes_lift|intros ids].
  apply (submits_bind _ _ [] []); [apply makes_lift|intros ensemble].
  apply submits_to_csv.
Qed.

(** What [custom_classifier] does after the three checks and the
    preprocessing, if any. *)
Lemma classify_submits (k : frame -> column -> frame -> io unit) :
  (forall train_x train_y test_x,
      submits (k train_x train_y test_x)
              [VotingClassifier_; fit_; predict_; read_csv_ "data/test.csv"] "voting.csv") ->
  submits (let! train_x := read_csv "temp/train_x" in
           let! train_y := read_csv "temp/train_y" in
           let! train_y := lift (first_column train_y) in
           let! test_x := read_csv "temp/test_x" in
           k train_x train_y test_x)
          cached_run_calls "voting.csv".
Proof.
  intros Hk.
  apply (submits_bind _ _ [read_csv_ "temp/train_x"]
           [read_csv_ "temp/train_y"; read_csv_ "temp/test_x";
            VotingClassifier_; fit_; predict_; read_csv_ "data/test.csv"]);
    [apply makes_read_csv|intros train_x].
  apply (submits_bind _ _ [read_csv_ "temp/train_y"]
           [read_csv_ "temp/test_x";
            VotingClassifier_; fit_; predict_; read_csv_ "data/test.csv"]);
    [apply makes_read_csv|intros train_y].
  apply (submits_bind _ _ []
           [read_csv_ "temp/test_x";
            VotingClassifier_; fit_; predict_; read_csv_ "data/test.csv"]);
    [apply makes_lift|intros labels].
  apply (submits_bind _ _ [read_csv_ "temp/test_x"]
           [VotingClassifier_; fit_; predict_; read_csv_ "data/test.csv"]);
    [apply makes_read_csv|intros test_x].
  apply Hk.
Qed.

Lemma vote_and_flush_submits self :
  submits (let! classifier := voting "hard" PNone self in
           flush_result "voting.csv" "data/test.csv" classifier)
          [VotingClassifier_; fit_; predict_; read_csv_ "data/test.csv"] "voting.csv".
Proof.
  apply (submits_bind _ _ [VotingClassifier_; fit_; predict_] [read_csv_ "data/test.csv"]);
    [apply voting_makes|intros classifier; apply flush_result_submits].
Qed.

Lemma custom_classifier_cached w :
  is_Some (files w !! "temp/train_x") ->
  is_Some (files w !! "temp/train_y") ->
  is_Some (files w !! "temp/test_x") ->
  match custom_classifier w with
  | (Ok _, w') =>
      trace w' =
      trace w ++ [isfile_ "temp/train_x"; isfile_ "temp/train_y"; isfile_ "temp/test_x"]
              ++ cached_run_calls ++ [to_csv_ "voting.csv" false]
      /\ exists table, files w' = <["voting.csv" := table]> (files w)
  | (Raise _, w') =>
      files w' = files w
      /\ exists t,
           t `prefix_of` cached_run_calls
           /\ trace w' =
              trace w ++ [isfile_ "temp/train_x"; isfile_ "temp/train_y";
                          isfile_ "temp/test_x"] ++ t
  end.
Proof.
  intros Hx Hy Ht. unfold custom_classifier. cbv zeta.
  unfold io_bind at 1. rewrite isfile_run, (bool_decide_eq_true_2 _ Hx).
  unfold io_bind at 1. rewrite isfile_run. cbn [files called].
  rewrite (bool_decide_eq_true_2 _ Hy).
  unfold io_bind at 1. rewrite isfile_run. cbn [files called].
  rewrite (bool_decide_eq_true_2 _ Ht).
  cbn [andb negb]. unfold io_bind at 1. unfold io_ret at 1.
  match goal with
  | |- match ?c ?w3 with _ => _ end =>
      assert (Hs : submits c cached_run_calls "voting.csv")
        by (apply classify_submits; intros; apply vote_and_flush_submits);
      pose proof (Hs w3) as H;
      change (match c w3 with
              | (Ok _, w') =>
                  trace w' = trace w3 ++ cached_run_calls ++ [to_csv_ "voting.csv" false]
                  /\ exists table, files w' = <["voting.csv" := table]> (files w3)
              | (Raise _, w') =>
                  files w' = files w3
                  /\ exists t, t `prefix_of` cached_run_calls /\ trace w' = trace w3 ++ t
              end) in H;
      destruct (c w3) as [[u|e] w']
  end; cbn [trace files called] in H.
  - destruct H as [Htrace Hfiles]. split; [|exact Hfiles].
    rewrite Htrace. now rewrite <- !app_assoc.
  - destruct H as [Hfiles (t & Hprefix & Htrace)]. split; [exact Hfiles|].
    exists t. split; [exact Hprefix|]. rewrite Htrace. now rewrite <- !app_assoc.
Qed.

(** The calls made so far stay, and [e] is the first call [c] adds. *)
Lemma begins_bind {A B : Type} (c : io A) (k : A -> io B) e path :
  (forall w, exists t, trace (snd (c w)) = trace w ++ e :: t) ->
  (forall a, spares path (k a)) ->
  forall w, exists t, trace (snd (io_bind c k w)) = trace w ++ e :: t.
Proof.
  intros Hc Hk w. unfold io_bind. destruct (Hc w) as [t Ht].
  destruct (c w) as [[a|err] w1]; cbn [snd] in *; [|now exists t].
  destruct (Hk a w1) as [[t' Ht'] _]. exists (t ++ t').
  rewrite Ht', Ht. now rewrite <- app_assoc.
Qed.

Lemma begins_read_csv path w :
  exists t, trace (snd (read_csv path w)) = trace w ++ read_csv_ path :: t.
Proof.
  unfold read_csv, io_bind. rewrite emit_run. cbn [files called].
  destruct (files w !! path); now exists [].
Qed.

Lemma pre_process_data_begins w :
  exists t,
    trace (snd (pre_process_data "temp/train_x" "temp/train_y" "temp/test_x" w))
    = trace w ++ read_csv_ "data/train.csv" :: t.
Proof.
  unfold pre_process_data.
  apply (begins_bind _ _ _ "data/test.csv").
  - intros w0. unfold ingest_data. cbv zeta.
    apply (begins_bind _ _ _ "data/test.csv"); [apply begins_read_csv|].
    intros train.
    apply spares_bind; [eapply spares_makes, makes_read_csv|]. intros test.
    apply spares_bind; [eapply spares_makes, makes_lift|]. intros test'.
    eapply spares_makes, makes_ret.
  - intros data.
    apply spares_bind; [eapply spares_makes, feature_engineering_makes|]. intros data'.
    apply spares_bind; [eapply spares_makes, makes_print|]. intros _.
    apply spares_bind; [eapply spares_makes, makes_lift|].
    intros [[train_x train_y] test_x].
    apply spares_bind; [now apply spares_to_csv|]. intros _.
    apply spares_bind; [now apply spares_to_csv|]. intros _.
    now apply spares_to_csv.
Qed.

Lemma flush_result_spares out test_name self :
  out <> "data/test.csv" -> spares "data/test.csv" (flush_result out test_name self).
Proof.
  intros Hne. unfold flush_result.
  apply spares_bind; [eapply spares_makes, makes_read_csv|]. intros test.
  apply spares_bind; [eapply spares_makes, makes_lift|]. intros ids.
  apply spares_bind; [eapply spares_makes, makes_lift|]. intros ensemble.
  now apply spares_to_csv.
Qed.

Lemma custom_classifier_preprocesses w :
  ~ (is_Some (files w !! "temp/train_x")
     /\ is_Some (files w !! "temp/train_y")
     /\ is_Some (files w !! "temp/test_x")) ->
  exists t,
    trace (snd (custom_classifier w))
    = trace w ++ [isfile_ "temp/train_x"; isfile_ "temp/train_y"; isfile_ "temp/test_x";
                  read_csv_ "data/train.csv"] ++ t.
Proof.
  intros Hmissing. unfold custom_classifier. cbv zeta.
  unfold io_bind at 1. rewrite isfile_run.
  unfold io_bind at 1. rewrite isfile_run. cbn [files called].
  unfold io_bind at 1. rewrite isfile_run. cbn [files called].
  replace (bool_decide (is_Some (files w !! "temp/train_x"))
           && bool_decide (is_Some (files w !! "temp/train_y"))
           && bool_decide (is_Some (files w !! "temp/test_x"))) with false.
  2: { symmetry. apply not_true_is_false. intros H.
       apply andb_prop in H as [H Ht]. apply andb_prop in H as [Hx Hy].
       apply bool_decide_eq_true in Hx, Hy, Ht. now apply Hmissing. }
  cbn [negb].
  match goal with
  | |- context [snd (io_bind ?c ?k ?w3)] =>
      assert (Hk : forall a, spares "data/test.csv" (k a));
        [|destruct (begins_bind c k _ _ pre_process_data_begins Hk w3) as [t Ht]]
  end.
  - intros _.
    apply spares_bind; [eapply spares_makes, makes_read_csv|]. intros train_x.
    apply spares_bind; [eapply spares_makes, makes_read_csv|]. intros train_y.
    apply spares_bind; [eapply spares_makes, makes_lift|]. intros labels.
    apply spares_bind; [eapply spares_makes, makes_read_csv|]. intros test_x.
    apply spares_bind; [eapply spares_makes, voting_makes|]. intros classifier.
    now apply flush_result_spares.
  - exists t. cbn [trace called] in Ht. rewrite <- !app_assoc in Ht. exact Ht.
Qed.

(** X12. The preprocessed files are a cache that is never refreshed.
    [custom_classifier] always checks all three of them; when all three
    exist it reads them and goes on to the vote without reading
    data/train.csv and without any imputation, whatever the data files
    hold by then; it then makes exactly the calls listed, the last one
    writing voting.csv, and a run that raises has written nothing. When
    one of the three is missing, the first call after the checks reads
    data/train.csv, that is, the preprocessing runs. *)
Theorem custom_classifier_trusts_its_cache :
  (forall w,
      is_Some (files w !! "temp/train_x") ->
      is_Some (files w !! "temp/train_y") ->
      is_Some (files w !! "temp/test_x") ->
      match custom_classifier w with
      | (Ok _, w') =>
          trace w' =
          trace w ++ [isfile_ "temp/train_x"; isfile_ "temp/train_y"; isfile_ "temp/test_x"]
                  ++ cached_run_calls ++ [to_csv_ "voting.csv" false]
          /\ exists table, files w' = <["voting.csv" := table]> (files w)
      | (Raise _, w') =>
          files w' = files w
          /\ exists t,
               t `prefix_of` cached_run_calls
               /\ trace w' =
                  trace w ++ [isfile_ "temp/train_x"; isfile_ "temp/train_y";
                              isfile_ "temp/test_x"] ++ t
      end)
  /\ (read_csv_ "data/train.csv" ∉ cached_run_calls)
  /\ (MICE_complete_ ∉ cached_run_calls)
  /\ (forall w,
         ~ (is_Some (files w !! "temp/train_x")
            /\ is_Some (files w !! "temp/train_y")
            /\ is_Some (files w !! "temp/test_x")) ->
         exists t,
           trace (snd (custom_classifier w))
           = trace w ++ [isfile_ "temp/train_x"; isfile_ "temp/train_y";
                         isfile_ "temp/test_x"; read_csv_ "data/train.csv"] ++ t).
Proof.
  split; [exact custom_classifier_cached|].
  split; [|split; [|exact custom_classifier_preprocesses]].
  - unfold cached_run_calls. intros H. apply list_elem_of_In in H. simpl in H.
    repeat (destruct H as [H|H]; [discriminate H|]). exact H.
  - unfold cached_run_calls. intros H. apply list_elem_of_In in H. simpl in H.
    repeat (destruct H as [H|H]; [discriminate H|]). exact H.
Qed.

End Cache.

Lemma custom_classifier_trusts_its_cache_witness :
  let cached :=
    Toy.boot (<["temp/train_x" := Toy.X_train]>
                (<["temp/train_y" := {| nrows := 3; cols := [("0", Toy.y_train)] |}]>
                   (<["temp/test_x" := Toy.X_test]> Toy.disk))) 0 in
  match Main.custom_classifier (L := Toy.toy) cached with
  | (Ok _, w') =>
      trace w' =
      trace cached
      ++ [isfile_ "temp/train_x"; isfile_ "temp/train_y"; isfile_ "temp/test_x"]
      ++ cached_run_calls ++ [to_csv_ "voting.csv" false]
      /\ exists table, files w' = <["voting.csv" := table]> (files cached)
  | (Raise _, w') =>
      files w' = files cached
      /\ exists t,
           t `prefix_of` cached_run_calls
           /\ trace w' =
              trace cached ++ [isfile_ "temp/train_x"; isfile_ "temp/train_y";
                               isfile_ "temp/test_x"] ++ t
  end.
Proof.
  intros cached.
  apply (proj1 (custom_classifier_trusts_its_cache (L := Toy.toy)) cached);
    eexists; reflexivity.
Defined.

(* ===================================================================== *)
(** * custom_model.py: the ages after the Age section *)
(* ===================================================================== *)

Section FillAges.

Context `{L : Library}.

Import CustomModel.

Lemma random_ages_Ok average spread size w r w' :
  random_ages average spread size w = (Ok r, w') ->
  exists low high,
    (let* low := sub average spread in
     let* high := add average spread in
     let* low := to_int low in
     let* high := to_int high in
     Ok (low, high)) = Ok (low, high)
    /\ (low < high)%Z
    /\ r = fst (randint low high size (entropy w))
    /\ files w' = files w
    /\ trace w' = trace w ++ [randint_].
Proof.
  unfold random_ages. intros H.
  apply io_bind_Ok in H as (l0 & w1 & H1 & H). apply lift_Ok in H1 as [H1 ->].
  apply io_bind_Ok in H as (h0 & w1 & H2 & H). apply lift_Ok in H2 as [H2 ->].
  apply io_bind_Ok in H as (low & w1 & H3 & H). apply lift_Ok in H3 as [H3 ->].
  apply io_bind_Ok in H as (high & w1 & H4 & H). apply lift_Ok in H4 as [H4 ->].
  exists low, high. rewrite H1, H2. cbn [bind]. rewrite H3, H4. cbn [bind].
  split; [reflexivity|].
  destruct (Z.ltb_spec low high) as [Hlt|Hge]; [|discriminate H].
  apply draw_Ok in H as [-> ->]. repeat split. exact Hlt.
Qed.

Lemma fill_missing_Ok (P : Z -> Prop) a : forall rand r,
  fill_missing a rand = Ok r ->
  Forall P rand ->
  Forall2 (fun c c' => if isnull c then exists z, c' = Float (inject_Z z) /\ P z
                       else c' = c) a r.
Proof.
  induction a as [|c a IH]; intros rand r H Hrand; simpl in H.
  - destruct rand; [|discriminate]. injection H as <-. constructor.
  - destruct (isnull c) eqn:Hc.
    + destruct rand as [|z rand]; [discriminate|].
      destruct (fill_missing a rand) as [rest|] eqn:E; [|discriminate].
      injection H as <-. apply Forall_cons in Hrand as [Hz Hrand].
      constructor; [rewrite Hc; eauto|]. now apply (IH rand).
    + destruct (fill_missing a rand) as [rest|] eqn:E; [|discriminate].
      injection H as <-. constructor; [now rewrite Hc|]. now apply (IH rand).
Qed.

Lemma trunc_inject_Z z : trunc (inject_Z z) = z.
Proof. unfold trunc. simpl. apply Z.quot_1_r. Qed.

Lemma astype_int_Ok a r :
  astype_int a = Ok r -> Forall2 (fun c c' => exists z, to_int c = Ok z /\ c' = Int z) a r.
Proof.
  intros H. apply mapM_Forall2 in H.
  eapply Forall2_impl; [exact H|]. intros c c' Hc. simpl in Hc.
  destruct (to_int c) as [z|]; [|discriminate]. injection Hc as <-. eauto.
Qed.

Lemma filled_then_int (P : Z -> Prop) age filled ages :
  Forall2 (fun c c' => if isnull c
                       then exists z, c' = Float (inject_Z z) /\ P z
                       else c' = c) age filled ->
  Forall2 (fun c c' => exists z, to_int c = Ok z /\ c' = Int z) filled ages ->
  Forall2 (fun c c' => if isnull c
                       then exists z, c' = Int z /\ P z
                       else exists z, to_int c = Ok z /\ c' = Int z) age ages.
Proof.
  intros H. revert ages. induction H as [|c c1 age filled Hc _ IH]; intros ages H2.
  - inversion H2. constructor.
  - inversion H2 as [|c1' c2 filled' ages' (z & Hz & ->) Hrest]; subst.
    constructor; [|now apply IH].
    destruct (isnull c).
    + destruct Hc as (r & -> & Hr). simpl in Hz. rewrite trunc_inject_Z in Hz.
      injection Hz as <-. eauto.
    + subst c1. eauto.
Qed.

(** One frame: the draws fill the gaps, then the column becomes integer;
    [P] is what is known of the draws. *)
Lemma one_frame_filled (P : Z -> Prop) df age rand filled df1 age1 ages df2 :
  get "Age" df = Ok age ->
  Forall P rand ->
  fill_missing age rand = Ok filled ->
  assign "Age" filled df = Ok df1 ->
  get "Age" df1 = Ok age1 ->
  astype_int age1 = Ok ages ->
  assign "Age" ages df1 = Ok df2 ->
  get "Age" df2 = Ok ages
  /\ Forall2 (fun c c' => if isnull c
                          then exists z, c' = Int z /\ P z
                          else exists z, to_int c = Ok z /\ c' = Int z) age ages
  /\ nrows df2 = nrows df
  /\ labels df2 = labels df
  /\ forall n, n <> "Age" -> get n df2 = get n df.
Proof.
  intros Hage Hrand Hfill Hdf1 Hage1 Hint Hdf2.
  rewrite (get_assign_same _ _ _ _ Hdf1) in Hage1. injection Hage1 as <-.
  split; [exact (get_assign_same _ _ _ _ Hdf2)|].
  split.
  { eapply filled_then_int; [exact (fill_missing_Ok _ _ _ _ Hfill Hrand)|].
    now apply astype_int_Ok. }
  split; [now rewrite (assign_nrows _ _ _ _ Hdf2), (assign_nrows _ _ _ _ Hdf1)|].
  split.
  - unfold assign in Hdf1, Hdf2.
    destruct (_ =? nrows df)%nat; [|discriminate]. injection Hdf1 as <-.
    cbn [nrows cols] in Hdf2.
    destruct (_ =? nrows df)%nat; [|discriminate]. injection Hdf2 as <-.
    unfold labels. cbn [cols].
    apply get_lookup in Hage.
    rewrite !labels_set_col_present; [reflexivity|eauto|].
    rewrite lookup_set_col. simpl. eauto.
  - intros n Hn. apply String.eqb_neq in Hn.
    now rewrite (get_assign_other _ _ _ _ _ Hdf2 Hn), (get_assign_other _ _ _ _ _ Hdf1 Hn).
Qed.

(** The Age section step by step: both ranges, both draws (the second from
    the state the first left), and what became of each frame. *)
Lemma fill_ages_steps (P : Z -> Z -> Z -> Prop) titanic_df test_df w titanic_df' test_df' w' :
  (forall low high size g,
      (low < high)%Z -> Forall (P low high) (fst (randint low high size g))) ->
  fill_ages titanic_df test_df w = (Ok (titanic_df', test_df'), w') ->
  (exists age low high age',
      get "Age" titanic_df = Ok age
      /\ age_range age = Ok (low, high)
      /\ (low < high)%Z
      /\ get "Age" titanic_df' = Ok age'
      /\ Forall2 (fun c c' => if isnull c
                              then exists z, c' = Int z /\ P low high z
                              else exists z, to_int c = Ok z /\ c' = Int z) age age'
      /\ nrows titanic_df' = nrows titanic_df
      /\ labels titanic_df' = labels titanic_df
      /\ forall n, n <> "Age" -> get n titanic_df' = get n titanic_df)
  /\ (exists age low high age',
         get "Age" test_df = Ok age
         /\ age_range age = Ok (low, high)
         /\ (low < high)%Z
         /\ get "Age" test_df' = Ok age'
         /\ Forall2 (fun c c' => if isnull c
                                 then exists z, c' = Int z /\ P low high z
                                 else exists z, to_int c = Ok z /\ c' = Int z) age age'
         /\ nrows test_df' = nrows test_df
         /\ labels test_df' = labels test_df
         /\ forall n, n <> "Age" -> get n test_df' = get n test_df)
  /\ files w' = files w
  /\ trace w' = trace w ++ [randint_; randint_].
Proof.
  intros Hrange H. unfold fill_ages in H.
  apply io_bind_Ok in H as (age & w1 & Hage & H). apply lift_Ok in Hage as [Hage ->].
  cbv zeta in H.
  apply io_bind_Ok in H as (age_t & w1 & Hage_t & H). apply lift_Ok in Hage_t as [Hage_t ->].
  cbv zeta in H.
  apply io_bind_Ok in H as (rand_1 & w1 & Hrand_1 & H).
  apply io_bind_Ok in H as (rand_2 & w2 & Hrand_2 & H).
  apply random_ages_Ok in Hrand_1 as (low1 & high1 & Hb1 & Hlt1 & -> & Hf1 & Ht1).
  apply random_ages_Ok in Hrand_2 as (low2 & high2 & Hb2 & Hlt2 & -> & Hf2 & Ht2).
  apply io_bind_Ok in H as (filled1 & w3 & Hfill1 & H). apply lift_Ok in Hfill1 as [Hfill1 ->].
  apply io_bind_Ok in H as (df1 & w3 & Hdf1 & H). apply lift_Ok in Hdf1 as [Hdf1 ->].
  apply io_bind_Ok in H as (filled2 & w3 & Hfill2 & H). apply lift_Ok in Hfill2 as [Hfill2 ->].
  apply io_bind_Ok in H as (tf1 & w3 & Htf1 & H). apply lift_Ok in Htf1 as [Htf1 ->].
  apply io_bind_Ok in H as (age1 & w3 & Hage1 & H). apply lift_Ok in Hage1 as [Hage1 ->].
  apply io_bind_Ok in H as (ages1 & w3 & Hint1 & H). apply lift_Ok in Hint1 as [Hint1 ->].
  apply io_bind_Ok in H as (df2 & w3 & Hdf2 & H). apply lift_Ok in Hdf2 as [Hdf2 ->].
  apply io_bind_Ok in H as (age2 & w3 & Hage2 & H). apply lift_Ok in Hage2 as [Hage2 ->].
  apply io_bind_Ok in H as (ages2 & w3 & Hint2 & H). apply lift_Ok in Hint2 as [Hint2 ->].
  apply io_bind_Ok in H as (tf2 & w3 & Htf2 & H). apply lift_Ok in Htf2 as [Htf2 ->].
  apply io_ret_Ok in H as [H ->]. injection H as -> ->.
  split; [|split; [|split]].
  - exists age, low1, high1, ages1.
    split; [exact Hage|]. split; [exact Hb1|]. split; [exact Hlt1|].
    eapply (one_frame_filled (P low1 high1) titanic_df); try eassumption.
    now apply Hrange.
  - exists age_t, low2, high2, ages2.
    split; [exact Hage_t|]. split; [exact Hb2|]. split; [exact Hlt2|].
    eapply (one_frame_filled (P low2 high2) test_df); try eassumption.
    now apply Hrange.
  - congruence.
  - rewrite Ht2, Ht1. now rewrite <- app_assoc.
Qed.



End FillAges.



(* ===================================================================== *)
(** * custom_model.py: when the Age section fails *)
(* ===================================================================== *)

Section FillAgesFails.

Context `{L : Library}.

Import CustomModel.




End FillAgesFails.


(* ===================================================================== *)
(** * What [impute] returns *)
(* ===================================================================== *)

Section ImputeResult.

Context `{L : Library}.

Import Main.

Lemma features_dropped data :
  {| nrows := nrows data;
     cols := filter (fun nc => str_in (fst nc) ["Survived"; "Train"] = false) (cols data) |}
  = features data.
Proof.
  unfold features. f_equal. apply list_filter_iff. intros [n c]. cbn [fst].
  unfold str_in. cbn [existsb].
  destruct (String.eqb n "Survived"), (String.eqb n "Train"); simpl; tauto.
Qed.

Lemma drop_Ok names f f' :
  drop names f = Ok f' ->
  f' = {| nrows := nrows f;
          cols := filter (fun nc => str_in (fst nc) names = false) (cols f) |}.
Proof. unfold drop. destruct (first_missing names f); [discriminate|]. now intros [= <-]. Qed.

Lemma features_labels_excluded data n :
  n ∈ labels (features data) -> str_in n ["Train"; "Survived"] = false.
Proof.
  unfold labels, features. cbn [cols]. rewrite labels_filter.
  now intros [H _]%list_elem_of_filter.
Qed.

Lemma filter_zip_excluded names (ls : list string) (cs : list column) :
  Forall (fun n => str_in n names = false) ls ->
  filter (fun nc : string * column => str_in (fst nc) names = false) (zip ls cs)
  = zip ls cs.
Proof.
  intros H. apply filter_all. apply Forall_forall. intros [n c] Hin. cbn [fst].
  rewrite Forall_forall in H. apply H. eapply elem_of_zip_l. exact Hin.
Qed.

Lemma lookup_col_absent n cs : n ∉ map fst cs -> lookup_col n cs = None.
Proof.
  intros H. destruct (lookup_col n cs) eqn:E; [|reflexivity].
  exfalso. apply H, lookup_col_labels. eauto.
Qed.

(** What [impute] returns, written out: the completed matrix under the
    feature labels, then the Train and the Survived column of the input. *)
Lemma impute_Ok data w results w' :
  impute data w = (Ok results, w') ->
  let filled := fst (MICE_complete (np_array (features data)) (entropy w)) in
  (exists train survived,
      get "Train" data = Ok train
      /\ get "Survived" data = Ok survived
      /\ results
         = {| nrows := shape0 filled;
              cols := set_col "Survived" survived
                        (set_col "Train" train
                           (zip (labels (features data)) (acols filled))) |})
  /\ np_array (features results) = filled
  /\ labels results = labels (features data) ++ ["Train"; "Survived"]
  /\ get "Train" results = get "Train" data
  /\ get "Survived" results = get "Survived" data
  /\ null_total results = 0%nat
  /\ files w' = files w
  /\ entropy w' = snd (MICE_complete (np_array (features data)) (entropy w))
  /\ trace w' = trace w ++ [MICE_complete_].
Proof.
  intros H filled. unfold impute in H.
  apply io_bind_Ok in H as (missing & w1 & Hdrop & H). apply lift_Ok in Hdrop as [Hdrop ->].
  apply drop_Ok in Hdrop. rewrite features_dropped in Hdrop. subst missing.
  cbv zeta in H.
  apply io_bind_Ok in H as (filled' & w1 & Hdraw & H). apply draw_Ok in Hdraw as [-> ->].
  fold filled in H.
  apply io_bind_Ok in H as (raw & w1 & Hraw & H). apply lift_Ok in Hraw as [Hraw ->].
  apply io_bind_Ok in H as (train & w1 & Htrain & H). apply lift_Ok in Htrain as [Htrain ->].
  apply io_bind_Ok in H as (r1 & w1 & Hr1 & H). apply lift_Ok in Hr1 as [Hr1 ->].
  apply io_bind_Ok in H as (survived & w1 & Hsurv & H). apply lift_Ok in Hsurv as [Hsurv ->].
  apply io_bind_Ok in H as (r2 & w1 & Hr2 & H). apply lift_Ok in Hr2 as [Hr2 ->].
  destruct (null_total r2 =? 0)%nat eqn:Hnull; [|discriminate H].
  apply io_ret_Ok in H as [-> ->]. apply Nat.eqb_eq in Hnull.
  unfold DataFrame_of in Hraw.
  destruct (length (labels (features data)) =? shape1 filled)%nat eqn:Hlen;
    [|discriminate Hraw].
  apply Nat.eqb_eq in Hlen. injection Hraw as <-.
  unfold assign in Hr1. cbn [nrows cols] in Hr1.
  destruct (length train =? shape0 filled)%nat; [|discriminate Hr1]. injection Hr1 as <-.
  unfold assign in Hr2. cbn [nrows cols] in Hr2.
  destruct (length survived =? shape0 filled)%nat; [|discriminate Hr2]. injection Hr2 as <-.
  assert (Hexcl : Forall (fun n => str_in n ["Train"; "Survived"] = false)
                         (labels (features data))).
  { apply Forall_forall. intros n. apply features_labels_excluded. }
  assert (Hzip : map fst (zip (labels (features data)) (acols filled))
                 = labels (features data)).
  { apply fst_zip. unfold shape1 in Hlen. lia. }
  assert (Hno : forall n, str_in n ["Train"; "Survived"] = true ->
                          n ∉ map fst (zip (labels (features data)) (acols filled))).
  { intros n Hn Hin. rewrite Hzip in Hin. apply features_labels_excluded in Hin. congruence. }
  split; [exists train, survived; repeat split; assumption|].
  split; [|split; [|split; [|split; [|split; [exact Hnull|]]]]].
  - unfold np_array, features. cbn [nrows cols].
    rewrite !filter_set_col_excluded by reflexivity.
    rewrite filter_zip_excluded by exact Hexcl.
    fold (features data).
    rewrite snd_zip by (unfold shape1 in Hlen; lia).
    clear. subst filled. now destruct (fst _).
  - unfold labels at 1. cbn [cols]. rewrite !labels_set_col, Hzip.
    replace (str_in "Train" (labels (features data))) with false.
    2: { symmetry. apply not_true_is_false. intros Hin%str_in_elem_of.
         now apply features_labels_excluded in Hin. }
    replace (str_in "Survived" (labels (features data) ++ ["Train"])) with false.
    2: { symmetry. apply not_true_is_false. intros Hin%str_in_elem_of.
         apply elem_of_app in Hin as [Hin|Hin].
         - now apply features_labels_excluded in Hin.
         - apply list_elem_of_In in Hin. simpl in Hin. destruct Hin as [?|[]]. discriminate. }
    now rewrite <- app_assoc.
  - rewrite Htrain. unfold get. cbn [cols]. rewrite !lookup_set_col. reflexivity.
  - rewrite Hsurv. unfold get. cbn [cols]. rewrite !lookup_set_col. reflexivity.
  - repeat split.
Qed.


(** X15. What [impute] returns is the library's doing: the feature columns
    of the returned frame are, one for one, the columns of the matrix
    [MICE().complete] returned for the feature columns of the input, under
    the input's feature labels; no value of the input reaches the result
    otherwise, except the Train and Survived columns, which come back
    unchanged as the last two columns. The frame has no missing value (the
    assertion passed), one call of the imputation was made and no file was
    touched. *)
Theorem impute_returns_the_completed_matrix data w results w' :
  impute data w = (Ok results, w') ->
  let filled := fst (MICE_complete (np_array (features data)) (entropy w)) in
  np_array (features results) = filled
  /\ labels results = labels (features data) ++ ["Train"; "Survived"]
  /\ get "Train" results = get "Train" data
  /\ get "Survived" results = get "Survived" data
  /\ null_total results = 0%nat
  /\ files w' = files w
  /\ entropy w' = snd (MICE_complete (np_array (features data)) (entropy w))
  /\ trace w' = trace w ++ [MICE_complete_].
Proof.
  intros H filled. destruct (impute_Ok _ _ _ _ H) as [_ Hrest]. exact Hrest.
Qed.

End ImputeResult.

Lemma impute_returns_the_completed_matrix_witness :
  exists results w',
    Main.impute (L := Toy.toy) two_rows_one_gap (Toy.start 0) = (Ok results, w')
    /\ labels results = ["Age"; "Train"; "Survived"]
    /\ np_array (features results) = {| shape0 := 2; acols := [[Float 22; Float 0]] |}.
Proof.
  destruct (ran (Main.impute (L := Toy.toy) two_rows_one_gap (Toy.start 0)))
    as [results E]; [vm_compute; reflexivity|].
  eexists _, _. split; [exact E|].
  destruct (impute_returns_the_completed_matrix (L := Toy.toy) _ _ _ _ E)
    as (Hfilled & Hlabels & _).
  split; [exact Hlabels|exact Hfilled].
Defined.

(* ===================================================================== *)
(** * Two runs of the transformations *)
(* ===================================================================== *)

Section TwoRuns.

Context `{L : Library}.

Import Main CustomModel.

(** [ingest_data] reads two files and nothing else of the world; it draws
    nothing. *)
Lemma ingest_data_Ok w data w0 :
  ingest_data w = (Ok data, w0) ->
  exists train test selected,
    files w !! "data/train.csv" = Some train
    /\ files w !! "data/test.csv" = Some test
    /\ select (labels (assign_scalar "Train" (Int 1) train))
              (assign_scalar "Survived" (Int (-999)) (assign_scalar "Train" (Int 0) test))
       = Ok selected
    /\ data = concat (assign_scalar "Train" (Int 1) train) selected
    /\ entropy w0 = entropy w.
Proof.
  unfold ingest_data. intros H.
  apply io_bind_Ok in H as (train & w1 & Htrain & H).
  apply read_csv_Ok in Htrain as [Htrain ->]. cbv zeta in H.
  apply io_bind_Ok in H as (test & w1 & Htest & H).
  apply read_csv_Ok in Htest as [Htest ->]. cbv zeta in H.
  apply io_bind_Ok in H as (selected & w1 & Hsel & H). apply lift_Ok in Hsel as [Hsel ->].
  apply io_ret_Ok in H as [-> ->].
  exists train, test, selected. repeat split; assumption.
Qed.

Lemma same_tables_same_data w1 w2 d1 u1 d2 u2 :
  files w1 !! "data/train.csv" = files w2 !! "data/train.csv" ->
  files w1 !! "data/test.csv" = files w2 !! "data/test.csv" ->
  ingest_data w1 = (Ok d1, u1) ->
  ingest_data w2 = (Ok d2, u2) ->
  d1 = d2 /\ entropy u1 = entropy w1 /\ entropy u2 = entropy w2.
Proof.
  intros Htrain Htest H1 H2.
  apply ingest_data_Ok in H1 as (train1 & test1 & sel1 & Ht1 & Hs1 & Hsel1 & -> & He1).
  apply ingest_data_Ok in H2 as (train2 & test2 & sel2 & Ht2 & Hs2 & Hsel2 & -> & He2).
  rewrite Ht1, Ht2 in Htrain. injection Htrain as ->.
  rewrite Hs1, Hs2 in Htest. injection Htest as ->.
  rewrite Hsel1 in Hsel2. injection Hsel2 as ->. now repeat split.
Qed.

(** Positions of two columns made from the same column. *)
Lemma kept_ages_agree (P Q : Z -> Prop) (age a b : column) :
  Forall2 (fun c c' => if isnull c
                       then exists z, c' = Int z /\ P z
                       else exists z, to_int c = Ok z /\ c' = Int z) age a ->
  Forall2 (fun c c' => if isnull c
                       then exists z, c' = Int z /\ Q z
                       else exists z, to_int c = Ok z /\ c' = Int z) age b ->
  length a = length age
  /\ length b = length age
  /\ forall i c, age !! i = Some c -> isnull c = false -> a !! i = b !! i.
Proof.
  intros Ha Hb.
  split; [symmetry; exact (Forall2_length _ _ _ Ha)|].
  split; [symmetry; exact (Forall2_length _ _ _ Hb)|].
  intros i c Hi Hc.
  destruct (Forall2_lookup_l _ _ _ _ _ Ha Hi) as (x & Hx & Hax).
  destruct (Forall2_lookup_l _ _ _ _ _ Hb Hi) as (y & Hy & Hby).
  rewrite Hc in Hax, Hby.
  destruct Hax as (z & Hz & ->). destruct Hby as (z' & Hz' & ->).
  rewrite Hx, Hy. congruence.
Qed.

Lemma frames_agree before a b :
  (exists age low high age',
      get "Age" before = Ok age
      /\ age_range age = Ok (low, high)
      /\ (low < high)%Z
      /\ get "Age" a = Ok age'
      /\ Forall2 (fun c c' => if isnull c
                              then exists z, c' = Int z /\ True
                              else exists z, to_int c = Ok z /\ c' = Int z) age age'
      /\ nrows a = nrows before
      /\ labels a = labels before
      /\ forall n, n <> "Age" -> get n a = get n before) ->
  (exists age low high age',
      get "Age" before = Ok age
      /\ age_range age = Ok (low, high)
      /\ (low < high)%Z
      /\ get "Age" b = Ok age'
      /\ Forall2 (fun c c' => if isnull c
                              then exists z, c' = Int z /\ True
                              else exists z, to_int c = Ok z /\ c' = Int z) age age'
      /\ nrows b = nrows before
      /\ labels b = labels before
      /\ forall n, n <> "Age" -> get n b = get n before) ->
  same_but_for_missing_ages before a b.
Proof.
  intros (age & l1 & h1 & age_a & Hage & _ & _ & Ha & Hfa & Hna & Hla & Hoa)
         (age' & l2 & h2 & age_b & Hage' & _ & _ & Hb & Hfb & Hnb & Hlb & Hob).
  rewrite Hage in Hage'. injection Hage' as <-.
  split; [congruence|]. split; [congruence|].
  split; [intros n Hn; now rewrite Hoa, Hob|].
  exists age, age_a, age_b.
  split; [exact Hage|]. split; [exact Ha|]. split; [exact Hb|].
  exact (kept_ages_agree _ _ _ _ _ Hfa Hfb).
Qed.

(** C2, as amended. Two runs of the transformation steps on the same two
    CSV files that both complete differ only in what the libraries draw
    from numpy's unseeded random state; the time of the run, the other
    files and what ran before do not matter.

    - main.py ([ingest_data], then [feature_engineering]): both runs read
      the same stacked frame and derive the same features from it; the
      feature columns of each result are the matrix the imputation library
      returned, in that run, for one and the same input matrix; the labels,
      the Train and the Survived column of the two results are equal; and
      the two results are equal when the imputation returned the same
      matrix in both runs.
    - custom_model.py (the Age section): the two runs' frames have the same
      rows, labels and columns other than Age, and the same age wherever
      the input had one; only the ages filled in for missing ones may
      differ. *)
Theorem runs_differ_only_in_what_is_drawn :
  (forall w1 w2 r1 w1' r2 w2',
      files w1 !! "data/train.csv" = files w2 !! "data/train.csv" ->
      files w1 !! "data/test.csv" = files w2 !! "data/test.csv" ->
      (let! data := ingest_data in feature_engineering data) w1 = (Ok r1, w1') ->
      (let! data := ingest_data in feature_engineering data) w2 = (Ok r2, w2') ->
      exists data derived,
        fst (ingest_data w1) = Ok data
        /\ fst (ingest_data w2) = Ok data
        /\ derive_features data = Ok derived
        /\ np_array (features r1)
           = fst (MICE_complete (np_array (features derived)) (entropy w1))
        /\ np_array (features r2)
           = fst (MICE_complete (np_array (features derived)) (entropy w2))
        /\ labels r1 = labels r2
        /\ get "Train" r1 = get "Train" r2
        /\ get "Survived" r1 = get "Survived" r2
        /\ (fst (MICE_complete (np_array (features derived)) (entropy w1))
            = fst (MICE_complete (np_array (features derived)) (entropy w2)) ->
            r1 = r2))
  /\ (forall titanic_df test_df w1 w2 t1 s1 w1' t2 s2 w2',
         fill_ages titanic_df test_df w1 = (Ok (t1, s1), w1') ->
         fill_ages titanic_df test_df w2 = (Ok (t2, s2), w2') ->
         same_but_for_missing_ages titanic_df t1 t2
         /\ same_but_for_missing_ages test_df s1 s2).
Proof.
  split.
  - intros w1 w2 r1 w1' r2 w2' Htrain Htest H1 H2.
    apply io_bind_Ok in H1 as (d1 & u1 & Hin1 & H1).
    apply io_bind_Ok in H2 as (d2 & u2 & Hin2 & H2).
    destruct (same_tables_same_data _ _ _ _ _ _ Htrain Htest Hin1 Hin2) as (<- & He1 & He2).
    unfold feature_engineering in H1, H2.
    apply io_bind_Ok in H1 as (derived & v1 & Hd1 & H1). apply lift_Ok in Hd1 as [Hd1 ->].
    apply io_bind_Ok in H2 as (derived' & v2 & Hd2 & H2). apply lift_Ok in Hd2 as [Hd2 ->].
    rewrite Hd1 in Hd2. injection Hd2 as <-.
    destruct (impute_Ok _ _ _ _ H1)
      as ((train1 & surv1 & Ht1 & Hs1 & Hr1) & Hx1 & Hl1 & Hgt1 & Hgs1 & _).
    destruct (impute_Ok _ _ _ _ H2)
      as ((train2 & surv2 & Ht2 & Hs2 & Hr2) & Hx2 & Hl2 & Hgt2 & Hgs2 & _).
    rewrite He1 in Hx1, Hr1. rewrite He2 in Hx2, Hr2.
    exists d1, derived.
    split; [now rewrite Hin1|]. split; [now rewrite Hin2|]. split; [exact Hd1|].
    split; [exact Hx1|]. split; [exact Hx2|].
    split; [congruence|]. split; [congruence|]. split; [congruence|].
    intros Hsame. rewrite Ht1 in Ht2. injection Ht2 as <-.
    rewrite Hs1 in Hs2. injection Hs2 as <-.
    rewrite Hr1, Hr2, Hsame. reflexivity.
  - intros titanic_df test_df w1 w2 t1 s1 w1' t2 s2 w2' H1 H2.
    assert (Hany : forall low high size g,
               (low < high)%Z ->
               Forall (fun _ : Z => True) (fst (randint low high size g))).
    { intros. apply Forall_forall. trivial. }
    destruct (fill_ages_steps (fun _ _ _ => True) _ _ _ _ _ _ Hany H1) as (Ht1 & Hs1 & _).
    destruct (fill_ages_steps (fun _ _ _ => True) _ _ _ _ _ _ Hany H2) as (Ht2 & Hs2 & _).
    split; apply frames_agree; assumption.
Qed.

End TwoRuns.

Lemma runs_differ_only_in_what_is_drawn_witness :
  let later := @World Toy.toy Toy.disk 1%Z "2017-03-02 09:30:00" [print_; print_] in
  (exists r1 r2,
      fst ((let! data := Main.ingest_data in Main.feature_engineering data) (Toy.start 0))
      = Ok r1
      /\ fst ((let! data := Main.ingest_data in Main.feature_engineering data) later)
         = Ok r2
      /\ r1 = r2)
  /\ (exists t1 s1 t2 s2,
         fst (CustomModel.fill_ages Toy.train_csv Toy.test_csv (Toy.start 0)) = Ok (t1, s1)
         /\ fst (CustomModel.fill_ages Toy.train_csv Toy.test_csv later) = Ok (t2, s2)
         /\ same_but_for_missing_ages Toy.train_csv t1 t2
         /\ same_but_for_missing_ages Toy.test_csv s1 s2).
Proof.
  intros later.
  destruct (runs_differ_only_in_what_is_drawn (L := Toy.toy)) as [Hmain Hages].
  split.
  - destruct (ran ((let! data := Main.ingest_data in Main.feature_engineering data)
                     (Toy.start 0))) as [r1 E1]; [vm_compute; reflexivity|].
    destruct (ran ((let! data := Main.ingest_data in Main.feature_engineering data)
                     later)) as [r2 E2]; [vm_compute; reflexivity|].
    exists r1, r2. rewrite E1, E2. split; [reflexivity|]. split; [reflexivity|].
    destruct (Hmain (Toy.start 0) later r1 _ r2 _ eq_refl eq_refl E1 E2)
      as (data & derived & _ & _ & _ & _ & _ & _ & _ & _ & Hsame).
    apply Hsame. reflexivity.
  - destruct (ran (CustomModel.fill_ages Toy.train_csv Toy.test_csv (Toy.start 0)))
      as [[t1 s1] E1]; [vm_compute; reflexivity|].
    destruct (ran (CustomModel.fill_ages Toy.train_csv Toy.test_csv later))
      as [[t2 s2] E2]; [vm_compute; reflexivity|].
    exists t1, s1, t2, s2. rewrite E1, E2. split; [reflexivity|]. split; [reflexivity|].
    exact (Hages Toy.train_csv Toy.test_csv (Toy.start 0) later t1 s1 _ t2 s2 _ E1 E2).
Defined.

(* ===================================================================== *)
(** * voting, blending and stacking: what is fitted and what is combined *)
(* ===================================================================== *)

Section ArrayWrites.

Lemma index_Ok {A : Type} (l : list A) i x : Py.index l i = Ok x -> l !! i = Some x.
Proof. unfold Py.index. destruct (l !! i); [now intros [= ->]|discriminate]. Qed.

Lemma take_items_Ok idx (y r : column) : take_items idx y = Ok r -> r = items_at idx y.
Proof.
  unfold take_items, items_at. revert r. induction idx as [|i idx IH]; intros r H.
  - now injection H as <-.
  - cbn [mapM] in H. destruct (Py.index y i) as [x|] eqn:Hi; [|discriminate H].
    destruct (mapM (Py.index y) idx) as [rest|]; [|discriminate H].
    injection H as <-. apply index_Ok in Hi. cbn [map]. rewrite Hi. cbn.
    f_equal. now apply IH.
Qed.

Lemma take_rows_Ok idx X R : take_rows idx X = Ok R -> R = rows_at idx X.
Proof.
  unfold take_rows, rows_at.
  destruct (mapM (take_items idx) (acols X)) as [cs|] eqn:E; [|discriminate].
  intros [= <-]. f_equal. apply mapM_Forall2 in E.
  induction E as [|c r cs rs Hc _ IH]; [reflexivity|].
  cbn [map]. f_equal; [now apply take_items_Ok|exact IH].
Qed.

Lemma column_of_Ok `{L : Library} m X p :
  column_of 1 (predict_proba m X) = Ok p -> p = positive_proba m X.
Proof. intros H%index_Ok. unfold positive_proba. now rewrite H. Qed.

Lemma set_column_Ok j v a a' :
  set_column j v a = Ok a' ->
  (j < shape1 a)%nat
  /\ a' = {| shape0 := shape0 a; acols := <[j := v]> (acols a) |}.
Proof.
  unfold set_column. destruct (Nat.ltb_spec j (shape1 a)); [|discriminate]. cbn [negb].
  destruct (negb _); [discriminate|]. now intros [= <-].
Qed.

Lemma scatter_Ok idx : forall v c c', scatter idx v c = Ok c' -> c' = written idx v c.
Proof.
  induction idx as [|i idx IH]; intros [|x v] c c' H; cbn [scatter] in H; try discriminate H.
  - now injection H as <-.
  - destruct (i <? length c)%nat; [|discriminate H]. cbn [written]. now apply IH.
Qed.

Lemma set_at_Ok idx j v a a' :
  set_at idx j v a = Ok a' ->
  exists c,
    acols a !! j = Some c
    /\ a' = {| shape0 := shape0 a; acols := <[j := written idx v c]> (acols a) |}.
Proof.
  unfold set_at, column_of. intros H.
  destruct (Py.index (acols a) j) as [c|] eqn:Hc; [|discriminate H]. cbn [bind] in H.
  destruct (scatter idx v c) as [c'|] eqn:Hs; [|discriminate H]. injection H as <-.
  exists c. split; [now apply index_Ok|]. now rewrite (scatter_Ok _ _ _ _ Hs).
Qed.

(** Writing at the first free position of a list filled from the left. *)
Lemma insert_next {A : Type} (done : list A) k x y rest :
  length done = k -> <[k := y]> (done ++ x :: rest) = (done ++ [y]) ++ rest.
Proof.
  intros <-. rewrite insert_app_r_alt by lia. rewrite Nat.sub_diag.
  now rewrite <- app_assoc.
Qed.

Lemma insert_at {A : Type} (pre : list A) j x y post :
  length pre = j -> <[j := y]> (pre ++ x :: post) = pre ++ y :: post.
Proof. intros <-. rewrite insert_app_r_alt by lia. now rewrite Nat.sub_diag. Qed.

Lemma lookup_next {A : Type} (done : list A) k x rest :
  length done = k -> (done ++ x :: rest) !! k = Some x.
Proof. intros <-. now rewrite list_lookup_middle. Qed.

End ArrayWrites.

Section CombinedRuns.

Context `{L : Library}.

Import TitanicClassifier.

Lemma log_run self level w u w' :
  log self level w = (Ok u, w') ->
  files w' = files w /\ entropy w' = entropy w /\ clock w' = clock w
  /\ trace w' = trace w ++ log_calls self level.
Proof.
  unfold log, log_calls. destruct (level <=? verbose self)%Z.
  - unfold print. rewrite emit_run. intros H. injection H as _ <-. now repeat split.
  - intros [_ ->]%io_ret_Ok. repeat split. now rewrite app_nil_r.
Qed.

(** The names [get_classifier] pairs the models with. *)
Lemma named_zip (names : list (option string)) (l : list estimator) :
  forall k acc named,
    foldM (fun '(index, model) model_with_name =>
             let* name := Py.index names index in
             Ok (model_with_name ++ [(name, model)]))
          (zip (seq k (length l)) l) acc = Ok named ->
    named = acc ++ zip (skipn k names) l.
Proof.
  induction l as [|m l IH]; intros k acc named H.
  - injection H as <-. destruct (skipn k names); cbn; now rewrite app_nil_r.
  - cbn [length seq zip zip_with foldM] in H.
    destruct (Py.index names k) as [name|] eqn:Hk; [|discriminate H]. cbn [bind] in H.
    apply index_Ok in Hk. apply IH in H. rewrite H.
    rewrite (drop_S _ _ _ Hk). cbn. now rewrite <- app_assoc.
Qed.

Lemma voting_Ok voting_ weights self w self' w' :
  voting voting_ weights self w = (Ok self', w') ->
  self' = set_result (voted voting_ weights self (entropy w)) self
  /\ files w' = files w
  /\ trace w' = trace w ++ [VotingClassifier_; fit_; predict_].
Proof.
  intros H. unfold voting in H.
  apply io_bind_Ok in H as (classifier & w1 & Hget & H).
  unfold get_classifier in Hget.
  apply io_bind_Ok in Hget as (named & w0 & Hloop & Hget).
  rewrite pure_call_run in Hget. injection Hget as <- <-.
  rewrite (for_each_lift _ _
             (fun '(index, model) model_with_name =>
                let* name := Py.index (model_names self) index in
                Ok (model_with_name ++ [(name, model)]))) in Hloop.
  2: { intros [index model] s w2. unfold io_bind, lift.
       destruct (Py.index (model_names self) index); reflexivity. }
  apply lift_Ok in Hloop as [Hfold ->].
  apply named_zip in Hfold. cbn in Hfold. subst named.
  run_ok H. cbn. split; [reflexivity|]. split; [reflexivity|].
  now rewrite <- !app_assoc.
Qed.

(** The loop of [stacking] from its round [k] on. *)
Lemma stack_loop self x_a x_b y_a X_test :
  forall rest k fitted train test w s' w',
    length fitted = k -> length train = k -> length test = k ->
    for_each (zip (seq k (length rest)) rest)
             (stack_model self x_a x_b y_a X_test)
             (fitted ++ rest,
              {| shape0 := shape0 x_b;
                 acols := train ++ replicate (length rest) (replicate (shape0 x_b) (Float 0)) |},
              {| shape0 := shape0 X_test;
                 acols := test ++ replicate (length rest)
                                            (replicate (shape0 X_test) (Float 0)) |}) w
    = (Ok s', w') ->
    let members := fitted_in_turn rest x_a y_a (entropy w) in
    s' = (fitted ++ fst members,
          {| shape0 := shape0 x_b;
             acols := train ++ map (fun m => positive_proba m x_b) (fst members) |},
          {| shape0 := shape0 X_test;
             acols := test ++ map (fun m => positive_proba m X_test) (fst members) |})
    /\ entropy w' = snd members
    /\ files w' = files w
    /\ trace w'
       = trace w
         ++ flat_map (fun _ => log_calls self 1 ++ [fit_; predict_proba_; predict_proba_]) rest.
Proof.
  induction rest as [|m rest IH]; intros k fitted train test w s' w' Hf Ht Hs H.
  - apply io_ret_Ok in H as [-> ->]. cbn. now rewrite !app_nil_r.
  - cbn [length seq zip zip_with for_each replicate] in H.
    apply io_bind_Ok in H as ([[ms1 train1] test1] & w1 & Hbody & H).
    unfold stack_model in Hbody.
    apply io_bind_Ok in Hbody as (name & w2 & Hname & Hbody).
    apply lift_Ok in Hname as [_ ->].
    apply io_bind_Ok in Hbody as (u & w2 & Hlog & Hbody).
    apply log_run in Hlog as (Hlf & Hle & _ & Hlt).
    revert H. run_ok Hbody. intros H.
    apply column_of_Ok in Hrun, Hrun1. subst a a1.
    apply set_column_Ok in Hrun0 as [_ ->], Hrun2 as [_ ->].
    cbn [shape0 acols] in H.
    rewrite (insert_next fitted k), (insert_next train k), (insert_next test k) in H
      by assumption.
    apply IH in H; [|rewrite length_app; cbn; lia ..].
    cbn [entropy files trace called] in H.
    destruct H as (-> & He & Hfiles & Htrace).
    cbn [fitted_in_turn fst snd map flat_map]. rewrite Hle in *.
    rewrite <- !app_assoc. cbn [app].
    split; [reflexivity|]. split; [exact He|]. split; [congruence|].
    rewrite Htrace, Hlt. now rewrite <- !app_assoc.
Qed.

Lemma stacking_Ok self w self' w' :
  stacking self w = (Ok self', w') ->
  self' = set_result (stacked self (entropy w)) (set_models (fst (stack_members self (entropy w))) self)
  /\ entropy w' = snd (stack_blender self (entropy w))
  /\ files w' = files w
  /\ trace w'
     = trace w
       ++ flat_map (fun _ => log_calls self 1 ++ [fit_; predict_proba_; predict_proba_])
                   (models self)
       ++ [fit_; predict_].
Proof.
  unfold stacking, stacked, stack_blender, stack_members, halves.
  destruct (train_test_split _ _ _ _) as [[x_a x_b] [y_a y_b]]. cbn [fst snd].
  intros H.
  apply io_bind_Ok in H as ([[ms train] test] & w1 & Hloop & H).
  unfold enumerate, zeros in Hloop.
  apply (stack_loop self x_a x_b y_a (np_array (test_x self)) (models self) 0 [] [] [])
    in Hloop; try reflexivity.
  destruct Hloop as (Hs & He & Hfiles & Htrace). cbn [app] in Hs. injection Hs as -> -> ->.
  run_ok H. cbn [entropy files trace called].
  unfold probabilities. rewrite He.
  split; [reflexivity|]. split; [reflexivity|]. split; [exact Hfiles|].
  rewrite Htrace. now rewrite <- !app_assoc.
Qed.

(** The inner loop of [blending] for the model at position [j], from its
    round [k] on. *)
Lemma fold_loop X y X_test j n pre post :
  length pre = j ->
  forall fs k m c done r w s' w',
    length done = k ->
    for_each (zip (seq k (length fs)) fs) (blend_fold X y X_test j)
             (m,
              {| shape0 := n; acols := pre ++ c :: post |},
              {| shape0 := shape0 X_test;
                 acols := done ++ replicate r (replicate (shape0 X_test) (Float 0)) |}) w
    = (Ok s', w') ->
    let one := through_folds m fs X y X_test c (entropy w) in
    s' = (last_fit one,
          {| shape0 := n; acols := pre ++ held_out one :: post |},
          {| shape0 := shape0 X_test;
             acols := done ++ on_test one
                      ++ replicate (r - length fs) (replicate (shape0 X_test) (Float 0)) |})
    /\ entropy w' = state_left one
    /\ files w' = files w
    /\ trace w'
       = trace w ++ flat_map (fun _ => [fit_; predict_proba_; predict_proba_]) fs.
Proof.
  intros Hpre. induction fs as [|[train test] fs IH]; intros k m c done r w s' w' Hk H.
  - apply io_ret_Ok in H as [-> ->]. cbn. rewrite Nat.sub_0_r, app_nil_r. now repeat split.
  - cbn [length seq zip zip_with for_each] in H.
    apply io_bind_Ok in H as ([[m1 train1] test1] & w1 & Hbody & H).
    unfold blend_fold in Hbody.
    revert H. run_ok Hbody. intros H.
    apply take_rows_Ok in Hrun, Hrun1. apply take_items_Ok in Hrun0. subst.
    apply column_of_Ok in Hrun2, Hrun4. subst.
    apply set_at_Ok in Hrun3 as (c0 & Hc0 & ->). cbn [acols shape0] in Hc0 |- *.
    rewrite (lookup_next pre (length pre)) in Hc0 by reflexivity. injection Hc0 as <-.
    apply set_column_Ok in Hrun5 as [Hlt ->].
    unfold shape1 in Hlt. cbn [acols shape0] in Hlt, H.
    rewrite length_app, length_replicate in Hlt.
    destruct r as [|r]; [lia|]. cbn [replicate] in H.
    rewrite (insert_at pre (length pre)) in H by reflexivity.
    rewrite (insert_next done (length done)) in H by reflexivity.
    apply IH in H; [|rewrite length_app; cbn; lia].
    cbn [entropy files trace called] in H.
    destruct H as (-> & He & Hfiles & Htrace).
    cbn [through_folds last_fit held_out on_test state_left fst snd flat_map length].
    rewrite <- !app_assoc. cbn [app]. rewrite Nat.sub_succ.
    split; [reflexivity|]. split; [exact He|]. split; [exact Hfiles|].
    rewrite Htrace. now rewrite <- !app_assoc.
Qed.

(** The outer loop of [blending] from its round [k] on. *)
Lemma model_loop n_folds X y X_test :
  forall rest k fitted train test w s' w',
    length fitted = k -> length train = k -> length test = k ->
    for_each (zip (seq k (length rest)) rest) (blend_model n_folds X y X_test)
             (fitted ++ rest,
              {| shape0 := shape0 X;
                 acols := train ++ replicate (length rest) (replicate (shape0 X) (Float 0)) |},
              {| shape0 := shape0 X_test;
                 acols := test ++ replicate (length rest)
                                            (replicate (shape0 X_test) (Float 0)) |}) w
    = (Ok s', w') ->
    let b := blend_members n_folds rest (StratifiedKFold_split n_folds X y) X y X_test
               (entropy w) in
    s' = (fitted ++ blend_models b,
          {| shape0 := shape0 X; acols := train ++ blend_train b |},
          {| shape0 := shape0 X_test; acols := test ++ blend_test b |})
    /\ entropy w' = blend_state b
    /\ files w' = files w
    /\ trace w'
       = trace w
         ++ flat_map (fun _ => flat_map (fun _ => [fit_; predict_proba_; predict_proba_])
                                        (StratifiedKFold_split n_folds X y)) rest.
Proof.
  induction rest as [|m rest IH]; intros k fitted train test w s' w' Hf Ht Hs H.
  - apply io_ret_Ok in H as [-> ->]. cbn. now rewrite !app_nil_r.
  - cbn [length seq zip zip_with for_each replicate] in H.
    apply io_bind_Ok in H as ([[ms1 train1] test1] & w1 & Hbody & H).
    unfold blend_model in Hbody.
    apply io_bind_Ok in Hbody as ([[m1 train2] test_j] & w2 & Hfolds & Hbody).
    unfold enumerate, zeros in Hfolds.
    apply (fold_loop X y X_test k (shape0 X) train _ Ht
                     (StratifiedKFold_split n_folds X y) 0 m _ [] n_folds)
      in Hfolds; [|reflexivity].
    destruct Hfolds as (Hs' & He & Hfiles & Htrace). cbn [app] in Hs'.
    injection Hs' as -> -> ->.
    revert H. run_ok Hbody. intros H.
    apply set_column_Ok in Hrun as [_ ->]. cbn [acols shape0] in H.
    rewrite (insert_next fitted k), (insert_next test k) in H by assumption.
    replace (train ++ held_out (through_folds m (StratifiedKFold_split n_folds X y) X y
                                  X_test (replicate (shape0 X) (Float 0)) (entropy w))
                   :: replicate (length rest) (replicate (shape0 X) (Float 0)))
      with ((train ++ [held_out (through_folds m (StratifiedKFold_split n_folds X y) X y
                                   X_test (replicate (shape0 X) (Float 0)) (entropy w))])
              ++ replicate (length rest) (replicate (shape0 X) (Float 0))) in H
      by now rewrite <- app_assoc.
    apply IH in H; [|rewrite length_app; cbn; lia ..].
    destruct H as (-> & He' & Hfiles' & Htrace').
    cbn [blend_members blend_models blend_train blend_test blend_state flat_map].
    rewrite He in *.
    rewrite <- !app_assoc. cbn [app].
    split; [reflexivity|]. split; [exact He'|]. split; [congruence|].
    rewrite Htrace', Htrace. now rewrite <- !app_assoc.
Qed.

Lemma blending_Ok n_folds self w self' w' :
  blending n_folds self w = (Ok self', w') ->
  self' = set_result (blended n_folds self (entropy w))
                     (set_models (blend_models (blend_of n_folds self (entropy w))) self)
  /\ entropy w' = snd (blend_blender n_folds self (entropy w))
  /\ files w' = files w
  /\ trace w'
     = trace w
       ++ flat_map (fun _ => flat_map (fun _ => [fit_; predict_proba_; predict_proba_])
                                      (folds_of n_folds self))
                   (models self)
       ++ [fit_; predict_].
Proof.
  unfold blending, blended, blend_blender, blend_of, folds_of.
  intros H.
  apply io_bind_Ok in H as ([[ms train] test] & w1 & Hloop & H).
  unfold enumerate, zeros in Hloop.
  apply (model_loop n_folds (np_array (train_x self)) (train_y self)
                    (np_array (test_x self)) (models self) 0 [] [] [])
    in Hloop; try reflexivity.
  destruct Hloop as (Hs & He & Hfiles & Htrace). cbn [app] in Hs. injection Hs as -> -> ->.
  run_ok H. cbn [entropy files trace called]. rewrite He.
  split; [reflexivity|]. split; [reflexivity|]. split; [exact Hfiles|].
  rewrite Htrace. now rewrite <- !app_assoc.
Qed.

End CombinedRuns.

Section CombinedTheorem.

Context `{L : Library}.

Import TitanicClassifier.

(** C3. SurvivalClassifier combines the predictions of its appended models
    by voting, blending and stacking. Whenever one of the three methods
    returns, it has fitted on the stored training data and has left in
    [self.result] what the combining classifier predicts for the stored
    test set, which is one prediction per row of that set as soon as the
    library's [predict] returns one label per row:

    - [voting]: the library's voting classifier over the appended models
      under their names, fitted on the stored training frame and labels
      ([voted]); the models of the instance stay as they were;
    - [blending]: every appended model is fitted again on the training rows
      of each fold of the stored training data; the blender is fitted on
      the models' probabilities for the held-out rows against the stored
      labels, and predicts from the models' mean probabilities for the
      stored test set ([blended]); the instance holds the models as the
      last fold left them;
    - [stacking]: every appended model is fitted on one half of the stored
      training data; the blender is fitted on the models' probabilities for
      the other half against that half's labels, and predicts from their
      probabilities for the stored test set ([stacked]); the instance holds
      the fitted models.

    The random state passes from each fit to the next, and the calls made
    are the ones listed, in that order: nothing else is fitted or asked. *)
Theorem ensemble_methods_fit_and_combine :
  (forall voting_ weights self w self' w',
      voting voting_ weights self w = (Ok self', w') ->
      self' = set_result (voted voting_ weights self (entropy w)) self
      /\ trace w' = trace w ++ [VotingClassifier_; fit_; predict_]
      /\ (predict_rows -> length (result self') = nrows (test_x self)))
  /\ (forall n_folds self w self' w',
         blending n_folds self w = (Ok self', w') ->
         self' = set_result (blended n_folds self (entropy w))
                            (set_models (blend_models (blend_of n_folds self (entropy w)))
                                        self)
         /\ trace w'
            = trace w
              ++ flat_map (fun _ => flat_map (fun _ => [fit_; predict_proba_; predict_proba_])
                                             (folds_of n_folds self))
                          (models self)
              ++ [fit_; predict_]
         /\ (predict_rows -> length (result self') = nrows (test_x self)))
  /\ (forall self w self' w',
         stacking self w = (Ok self', w') ->
         self' = set_result (stacked self (entropy w))
                            (set_models (fst (stack_members self (entropy w))) self)
         /\ trace w'
            = trace w
              ++ flat_map (fun _ => log_calls self 1 ++ [fit_; predict_proba_; predict_proba_])
                          (models self)
              ++ [fit_; predict_]
         /\ (predict_rows -> length (result self') = nrows (test_x self))).
Proof.
  split; [|split].
  - intros voting_ weights self w self' w' H.
    apply voting_Ok in H as (-> & _ & Htrace).
    split; [reflexivity|]. split; [exact Htrace|].
    intros Hrows. cbn [result set_result]. unfold voted. now rewrite Hrows.
  - intros n_folds self w self' w' H.
    apply blending_Ok in H as (-> & _ & _ & Htrace).
    split; [reflexivity|]. split; [exact Htrace|].
    intros Hrows. cbn [result set_result]. unfold blended. now rewrite Hrows.
  - intros self w self' w' H.
    apply stacking_Ok in H as (-> & _ & _ & Htrace).
    split; [reflexivity|]. split; [exact Htrace|].
    intros Hrows. cbn [result set_result]. unfold stacked. now rewrite Hrows.
Qed.

End CombinedTheorem.

Lemma toy_predict_rows : predict_rows (L := Toy.toy).
Proof. intros m X. cbn. apply length_replicate. Qed.

Lemma ensemble_methods_fit_and_combine_witness :
  let self :=
    TitanicClassifier.append_model (L := Toy.toy) None (Some "second") None
      (TitanicClassifier.append_model (L := Toy.toy) None (Some "first") None
         (TitanicClassifier.init (L := Toy.toy) Toy.X_train Toy.y_train Toy.X_test 3)) in
  (exists self' w',
      TitanicClassifier.voting "hard" PNone self (Toy.start 0) = (Ok self', w')
      /\ TitanicClassifier.result self' = voted "hard" PNone self 0%Z
      /\ TitanicClassifier.models self' = [None; None]
      /\ length (TitanicClassifier.result self') = 2%nat)
  /\ (exists self' w',
         TitanicClassifier.blending 2 self (Toy.start 0) = (Ok self', w')
         /\ TitanicClassifier.result self' = blended 2 self 0%Z
         /\ TitanicClassifier.models self' = [Some (Int 0); Some (Int 0)]
         /\ length (TitanicClassifier.result self') = 2%nat)
  /\ (exists self' w',
         TitanicClassifier.stacking self (Toy.start 0) = (Ok self', w')
         /\ TitanicClassifier.result self' = stacked self 0%Z
         /\ TitanicClassifier.models self' = [Some (Int 0); Some (Int 0)]
         /\ length (TitanicClassifier.result self') = 2%nat).
Proof.
  intros self.
  destruct (ensemble_methods_fit_and_combine (L := Toy.toy))
    as (Hvoting & Hblending & Hstacking).
  split; [|split].
  - destruct (ran (TitanicClassifier.voting "hard" PNone self (Toy.start 0)))
      as [self' E]; [vm_compute; reflexivity|].
    destruct (Hvoting "hard" PNone self (Toy.start 0) self' _ E) as (Hself & _ & Hlen).
    eexists self', _. split; [exact E|].
    split; [now rewrite Hself|]. split; [now rewrite Hself|].
    exact (Hlen toy_predict_rows).
  - destruct (ran (TitanicClassifier.blending 2 self (Toy.start 0)))
      as [self' E]; [vm_compute; reflexivity|].
    destruct (Hblending 2%nat self (Toy.start 0) self' _ E) as (Hself & _ & Hlen).
    eexists self', _. split; [exact E|].
    split; [now rewrite Hself|]. split; [rewrite Hself; vm_compute; reflexivity|].
    exact (Hlen toy_predict_rows).
  - destruct (ran (TitanicClassifier.stacking self (Toy.start 0)))
      as [self' E]; [vm_compute; reflexivity|].
    destruct (Hstacking self (Toy.start 0) self' _ E) as (Hself & _ & Hlen).
    eexists self', _. split; [exact E|].
    split; [now rewrite Hself|]. split; [rewrite Hself; vm_compute; reflexivity|].
    exact (Hlen toy_predict_rows).
Defined.

(* ===================================================================== *)
(** * The reporting methods *)
(* ===================================================================== *)

Section Reporting.

Context `{L : Library}.

Import TitanicClassifier.

Lemma makes_for_each {A S : Type} (l : list A) (body : A -> S -> io S) evs :
  (forall x s, makes (body x s) evs) ->
  forall s, makes (for_each l body s) (flat_map (fun _ => evs) l).
Proof.
  intros Hbody. induction l as [|x l IH]; intros s; cbn [for_each flat_map].
  - apply makes_ret.
  - apply makes_bind; [apply Hbody|exact IH].
Qed.

Lemma flat_map_same_length {A B C : Type} (evs : list C) (l : list A) (l' : list B) :
  length l = length l' ->
  flat_map (fun _ => evs) l = flat_map (fun _ => evs) l'.
Proof.
  revert l'. induction l as [|x l IH]; intros [|y l'] Hlen; try discriminate;
    [reflexivity|].
  simpl. f_equal. apply IH. now injection Hlen.
Qed.

Lemma length_enumerate {A : Type} (l : list A) : length (enumerate l) = length l.
Proof. unfold enumerate. rewrite length_zip, length_seq. lia. Qed.

Lemma log_makes self level : makes (log self level) (log_calls self level).
Proof.
  unfold log, log_calls. destruct (level <=? verbose self)%Z;
    [apply makes_print|apply makes_ret].
Qed.

Lemma plot_learning_curves_makes self :
  makes (plot_learning_curves self)
        (flat_map (fun _ => [plot_; learning_curve_; plot_]) (models self) ++ [plot_]).
Proof.
  unfold plot_learning_curves.
  apply makes_bind; [|intros; apply makes_emit].
  rewrite (flat_map_same_length _ (models self) (enumerate (models self)))
    by now rewrite length_enumerate.
  apply makes_for_each. intros [index model] [].
  apply (makes_bind _ _ [] [plot_; learning_curve_; plot_]); [apply makes_lift|intros name].
  apply (makes_bind _ _ [plot_] [learning_curve_; plot_]); [apply makes_emit|intros _].
  apply (makes_bind _ _ [learning_curve_] [plot_]); [apply makes_emit|intros _].
  apply makes_emit.
Qed.

Lemma feature_selection_makes self :
  makes (feature_selection self)
        (flat_map (fun _ => [fit_; print_; print_]) (models self)).
Proof.
  unfold feature_selection.
  rewrite (flat_map_same_length _ (models self) (enumerate (models self)))
    by now rewrite length_enumerate.
  apply makes_for_each. intros [index model] [].
  apply (makes_bind _ _ [] [fit_; print_; print_]); [apply makes_lift|intros name].
  apply (makes_bind _ _ [fit_] [print_; print_]); [apply makes_draw|intros fitted].
  apply (makes_bind _ _ [print_] [print_]); [apply makes_print|intros _].
  apply makes_print.
Qed.

Lemma accuracy_report_makes folds test_size self :
  makes (accuracy_report folds test_size self)
        (flat_map (fun _ => log_calls self 1 ++ [cross_val_score_] ++ log_calls self 2)
                  (models self)).
Proof.
  unfold accuracy_report.
  destruct (train_test_split _ _ _ _) as [[x_train_cv x_test_cv] [y_train_cv y_test_cv]].
  rewrite (flat_map_same_length _ (models self) (enumerate (models self)))
    by now rewrite length_enumerate.
  apply makes_for_each. intros [index model] [].
  apply (makes_bind _ _ [] (log_calls self 1 ++ [cross_val_score_] ++ log_calls self 2));
    [apply makes_lift|intros name].
  apply makes_bind; [apply log_makes|intros _].
  apply (makes_bind _ _ [] ([cross_val_score_] ++ log_calls self 2));
    [apply makes_lift|intros x_all].
  apply makes_bind; [apply makes_draw|intros score]. apply log_makes.
Qed.

(** X17. The reporting methods only report: none of them touches a file,
    and a run that returns has made exactly its calls, once per model and
    in the order of the models: plot, learning curve, plot for
    [plot_learning_curves] (and one final plot to show); fit, print, print
    for [feature_selection]; log at level 1, cross-validate, log at level
    2 for [accuracy_report], where a log prints exactly when the level
    does not exceed the instance's verbosity. A run that raises has made
    some first few of these calls. *)
Theorem reporting_methods_only_report self folds test_size :
  makes (plot_learning_curves self)
        (flat_map (fun _ => [plot_; learning_curve_; plot_]) (models self) ++ [plot_])
  /\ makes (feature_selection self)
           (flat_map (fun _ => [fit_; print_; print_]) (models self))
  /\ makes (accuracy_report folds test_size self)
           (flat_map (fun _ => log_calls self 1 ++ [cross_val_score_] ++ log_calls self 2)
                     (models self)).
Proof.
  split; [apply plot_learning_curves_makes|].
  split; [apply feature_selection_makes|apply accuracy_report_makes].
Qed.

End Reporting.

(* ===================================================================== *)
(** * The report file of [optimize_models] *)
(* ===================================================================== *)

Section ReportFile.

Context `{L : Library}.

Import TitanicClassifier.

Lemma only_ret {A : Type} P (a : A) : only P (io_ret a).
Proof. intros w. exists []. cbn. now rewrite app_nil_r. Qed.

Lemma only_lift {A : Type} P (r : outcome A) : only P (lift r).
Proof. intros w. exists []. cbn. now rewrite app_nil_r. Qed.

Lemma only_emit (P : call -> Prop) c : P c -> only P (emit c).
Proof. intros Hc w. exists [c]. rewrite emit_run. cbn. split; [reflexivity|]. now constructor. Qed.

Lemma only_pure_call {A : Type} (P : call -> Prop) c (a : A) : P c -> only P (pure_call c a).
Proof.
  intros Hc w. exists [c]. rewrite pure_call_run. cbn. split; [reflexivity|]. now constructor.
Qed.

Lemma only_draw {A : Type} (P : call -> Prop) c (f : rng -> A * rng) :
  P c -> only P (draw c f).
Proof. intros Hc w. exists [c]. cbn. split; [reflexivity|]. now constructor. Qed.

Lemma only_bind {A B : Type} P (c : io A) (k : A -> io B) :
  only P c -> (forall a, only P (k a)) -> only P (io_bind c k).
Proof.
  intros Hc Hk w. unfold io_bind. destruct (Hc w) as (t & Ht & HP).
  destruct (c w) as [[a|e] w1]; cbn [snd] in *.
  - destruct (Hk a w1) as (t' & Ht' & HP'). exists (t ++ t').
    rewrite Ht', Ht, app_assoc. split; [reflexivity|]. now apply Forall_app.
  - now exists t.
Qed.

Lemma only_for_each {A S : Type} P (l : list A) (body : A -> S -> io S) :
  (forall x s, only P (body x s)) -> forall s, only P (for_each l body s).
Proof.
  intros Hbody. induction l as [|x l IH]; intros s; cbn [for_each].
  - apply only_ret.
  - apply only_bind; [apply Hbody|exact IH].
Qed.

Lemma only_log (P : call -> Prop) self level : P print_ -> only P (log self level).
Proof.
  intros Hp. unfold log. destruct (level <=? verbose self)%Z;
    [now apply only_emit|apply only_ret].
Qed.

(** X18. [optimize_models] closes its report file only as its very last
    step: a run that returns has opened the file (under a name made from
    the time of the call) before it printed, searched, fitted, scored or
    wrote anything, and has closed it once, at the end; a run that raises
    never closes the file, so a report it had opened stays open. (The
    split of the training data comes before the file is opened; it is a
    computation of the library and leaves no call.) *)
Theorem optimize_models_closes_the_report_only_when_it_returns folds self w :
  match optimize_models folds self w with
  | (Ok _, w') =>
      exists t,
        trace w' = trace w ++ [open_ ("report" +:+ clock w +:+ ".txt")] ++ t ++ [close_]
        /\ (close_ ∉ t)
  | (Raise _, w') =>
      exists t, trace w' = trace w ++ t /\ (close_ ∉ t)
  end.
Proof.
  unfold optimize_models.
  destruct (train_test_split _ _ _ _) as [[x_train_cv x_test_cv] [y_train_cv y_test_cv]].
  unfold io_bind at 1. rewrite emit_run.
  match goal with
  | |- context [io_bind (for_each ?l ?body ?s) _ ?w1] =>
      assert (Hloop : only (fun c => c <> close_) (for_each l body s));
        [|destruct (Hloop w1) as (t & Ht & HP); unfold io_bind at 1;
          destruct (for_each l body s w1) as [[s'|e] w2]]
  end.
  - apply only_for_each. intros [index model] s.
    repeat first
      [ apply only_ret | apply only_lift
      | apply only_emit; discriminate | apply only_pure_call; discriminate
      | apply only_draw; discriminate | apply only_log; discriminate
      | apply only_bind | intro ].
  - cbn [snd trace called] in Ht. unfold io_bind, io_ret. rewrite emit_run.
    exists t. cbn [trace called]. rewrite Ht, <- !app_assoc. split; [reflexivity|].
    intros Hin. rewrite Forall_forall in HP. now apply (HP close_ Hin).
  - cbn [snd trace called] in Ht.
    exists (open_ ("report" +:+ clock w +:+ ".txt") :: t).
    rewrite Ht, <- !app_assoc. split; [reflexivity|].
    intros Hin. apply elem_of_cons in Hin as [Hin|Hin]; [discriminate Hin|].
    rewrite Forall_forall in HP. now apply (HP close_ Hin).
Qed.

End ReportFile.
